(** * Library management system: users, books, search and pagination

    A shallow embedding of [myapp/forms.py] and [myapp/views.py] together
    with the parts of the Django framework those two files call
    (string lookups of the ORM, [Paginator], [transaction.atomic],
    form cleaning), followed by the properties of the handlers. *)

From Stdlib Require Import List String Ascii ZArith Lia Bool Arith Permutation
  DecimalString.
Import ListNotations.
Local Open Scope string_scope.

(* ===================================================================== *)
(** * Part I: definitions                                                 *)
(* ===================================================================== *)

(** ** Text primitives: [str.strip] and the ORM's string lookups *)

Module PyStr.

(** A [str] is held as its UTF-8 encoding, one [ascii] per byte.

    White space as [str.strip()] removes it is what [str.isspace] accepts:
    the code points U+0009-000D, U+001C-0020, U+0085, U+00A0, U+1680,
    U+2000-200A, U+2028, U+2029, U+202F, U+205F and U+3000.  In UTF-8
    these take one, two or three bytes. *)
Definition is_space1 (c : ascii) : bool :=
  let n := nat_of_ascii c in
  (((9 <=? n) && (n <=? 13)) || ((28 <=? n) && (n <=? 32)))%nat.

(** U+0085 is C2 85, U+00A0 is C2 A0. *)
Definition is_space2 (c d : ascii) : bool :=
  let m := nat_of_ascii c in
  let n := nat_of_ascii d in
  ((m =? 194) && ((n =? 133) || (n =? 160)))%nat.

(** U+1680 is E1 9A 80; U+2000-200A, U+2028, U+2029 and U+202F are
    E2 80 80-8A, E2 80 A8, E2 80 A9 and E2 80 AF; U+205F is E2 81 9F;
    U+3000 is E3 80 80. *)
Definition is_space3 (c d e : ascii) : bool :=
  let l := nat_of_ascii c in
  let m := nat_of_ascii d in
  let n := nat_of_ascii e in
  (((l =? 225) && (m =? 154) && (n =? 128))
   || ((l =? 226) && (m =? 128)
       && (((128 <=? n) && (n <=? 138)) || (n =? 168) || (n =? 169) || (n =? 175)))
   || ((l =? 226) && (m =? 129) && (n =? 159))
   || ((l =? 227) && (m =? 128) && (n =? 128)))%nat.

(** [s.lstrip()]: the white space code points at the start go. *)
Fixpoint lstrip (s : string) : string :=
  match s with
  | EmptyString => EmptyString
  | String c r =>
      if is_space1 c then lstrip r
      else
        match r with
        | EmptyString => s
        | String d r2 =>
            if is_space2 c d then lstrip r2
            else
              match r2 with
              | EmptyString => s
              | String e r3 => if is_space3 c d e then lstrip r3 else s
              end
        end
  end.

(** [s.rstrip()]: the string is cut where what is left is white space
    only. *)
Fixpoint rstrip (s : string) : string :=
  match s with
  | EmptyString => EmptyString
  | String c r =>
      match lstrip s with
      | EmptyString => EmptyString
      | _ => String c (rstrip r)
      end
  end.

(** [s.strip()] *)
Definition strip (s : string) : string := rstrip (lstrip s).

(** The folding that the store applies for the [iexact] and [icontains]
    lookups: with the project's default store the lookups are [LIKE]
    comparisons, which fold the letters A to Z and no other; the bytes of
    a code point outside ASCII stay as they are. *)
Definition lower_ascii (c : ascii) : ascii :=
  let n := nat_of_ascii c in
  if ((65 <=? n) && (n <=? 90))%nat then ascii_of_nat (n + 32) else c.

Fixpoint lower (s : string) : string :=
  match s with
  | EmptyString => EmptyString
  | String c r => String (lower_ascii c) (lower r)
  end.

(** [contains q s]: [q] occurs in [s] as a contiguous substring. *)
Fixpoint contains (q s : string) : bool :=
  String.prefix q s ||
  match s with
  | EmptyString => false
  | String _ r => contains q r
  end.

(** [field__icontains=q] *)
Definition icontains (q s : string) : bool := contains (lower q) (lower s).

(** [field__iexact=q] *)
Definition iexact (q s : string) : bool := String.eqb (lower q) (lower s).

(** Python truthiness of a [str]. *)
Definition truthy (s : string) : bool :=
  match s with EmptyString => false | _ => true end.

End PyStr.

(** ** The entity store *)

Module Models.

(** Modelled from the spec: [myapp/models.py] is not among the sources.
    The records carry the columns that [forms.py] and [views.py] read and
    write and that the spec's data model names; [User] is Django's
    [auth.User] restricted to the columns used here. *)
Record User := mkUser {
  user_id : Z;
  username : string;
  email : string;
  password : string;          (* the stored hash *)
  last_login : option Z;
  date_joined : Z }.

Record UserProfile := mkProfile {
  profile_id : Z;
  profile_user : Z;           (* one-to-one key to [User] *)
  address : string;
  phone_number : string;
  profile_image : string }.   (* empty: no image *)

Record Author := mkAuthor {
  author_id : Z;
  author_name : string;
  biography : string }.

Record Category := mkCategory {
  category_id : Z;
  category_name : string;
  category_description : string }.

Record Book := mkBook {
  book_id : Z;
  title : string;
  description : string;
  book_author : Z;
  book_category : Z;
  copies : Z;
  image : string;
  created_at : Z }.

Record Store := mkStore {
  users : list User;
  profiles : list UserProfile;
  authors : list Author;
  categories : list Category;
  books : list Book }.

Definition User_eq_dec (a b : User) : {a = b} + {a <> b}.
Proof. repeat decide equality. Defined.

Definition Author_eq_dec (a b : Author) : {a = b} + {a <> b}.
Proof. repeat decide equality. Defined.

Definition Category_eq_dec (a b : Category) : {a = b} + {a <> b}.
Proof. repeat decide equality. Defined.

Definition Book_eq_dec (a b : Book) : {a = b} + {a <> b}.
Proof. repeat decide equality. Defined.

(** Primary keys are unique per table and a user has at most one profile
    (the one-to-one key is unique). *)
Definition wf_store (db : Store) : Prop :=
  NoDup (map user_id (users db)) /\
  NoDup (map profile_user (profiles db)) /\
  NoDup (map author_id (authors db)) /\
  NoDup (map category_id (categories db)) /\
  NoDup (map book_id (books db)).

End Models.

(** ** Query sets: joins, ordering, [distinct] and slicing *)

Module ORM.
Import Models.

(** [order_by('-key')]: a stable insertion sort, largest key first. *)
Fixpoint insert_desc {A : Type} (key : A -> Z) (x : A) (l : list A) : list A :=
  match l with
  | [] => [x]
  | y :: r => if (key y <=? key x)%Z then x :: l else y :: insert_desc key x r
  end.

Definition order_by_desc {A : Type} (key : A -> Z) (l : list A) : list A :=
  fold_right (insert_desc key) [] l.

(** [order_by('name')]: ascending on a text column. *)
Fixpoint insert_asc {A : Type} (key : A -> string) (x : A) (l : list A) : list A :=
  match l with
  | [] => [x]
  | y :: r => if String.leb (key x) (key y) then x :: l else y :: insert_asc key x r
  end.

Definition order_by_asc {A : Type} (key : A -> string) (l : list A) : list A :=
  fold_right (insert_asc key) [] l.

(** [.distinct()]: the first occurrence of every row is kept. *)
Fixpoint distinct {A : Type} (eq_dec : forall a b : A, {a = b} + {a <> b})
    (l : list A) : list A :=
  match l with
  | [] => []
  | x :: r => x :: filter (fun y => if eq_dec x y then false else true) (distinct eq_dec r)
  end.

(** Rows of [User LEFT OUTER JOIN UserProfile]: one row per profile of the
    user, and one row without profile when the user has none. *)
Definition profiles_of (db : Store) (u : User) : list UserProfile :=
  filter (fun p => (profile_user p =? user_id u)%Z) (profiles db).

Definition join_profile (db : Store) (u : User) : list (User * option UserProfile) :=
  match profiles_of db u with
  | [] => [(u, None)]
  | ps => map (fun p => (u, Some p)) ps
  end.

Definition user_rows (db : Store) (us : list User) : list (User * option UserProfile) :=
  flat_map (join_profile db) us.

(** A lookup on a profile column is NULL, hence not true, on a row
    without profile. *)
Definition on_profile (f : UserProfile -> bool) (row : User * option UserProfile) : bool :=
  match snd row with
  | Some p => f p
  | None => false
  end.

(** Rows of [Book JOIN Author JOIN Category] ([select_related]). *)
Definition authors_of (db : Store) (b : Book) : list Author :=
  filter (fun a => (author_id a =? book_author b)%Z) (authors db).

Definition categories_of (db : Store) (b : Book) : list Category :=
  filter (fun c => (category_id c =? book_category b)%Z) (categories db).

Definition join_book (db : Store) (b : Book) : list (Book * Author * Category) :=
  flat_map (fun a => map (fun c => (b, a, c)) (categories_of db b)) (authors_of db b).

Definition book_rows (db : Store) (bs : list Book) : list (Book * Author * Category) :=
  flat_map (join_book db) bs.

(** [qs[:10]] *)
Definition limit10 {A : Type} (l : list A) : list A := firstn 10 l.

(** A fresh primary key.  The store numbers the rows of a table from a
    sequence that never goes back: the key is above every key of the
    table, and further above by the [skipped] keys that rows deleted
    since have used up. *)
Definition next_id (skipped : nat) (ids : list Z) : Z :=
  (fold_right Z.max 0 ids + 1 + Z.of_nat skipped)%Z.

End ORM.

(** ** Requests: the world a handler runs in, exceptions, transactions *)

Module Req.
Import Models.

Inductive Exn :=
| IntegrityError
| ValueError (msg : string)
| MultipleObjectsReturned
| DatabaseError (msg : string)
| KeyError (key : string)
| PageNotAnInteger
| EmptyPage
| Http404.

(** [str(e)] *)
Definition exn_str (e : Exn) : string :=
  match e with
  | IntegrityError => "IntegrityError"
  | ValueError m => m
  | MultipleObjectsReturned => "get() returned more than one UserProfile"
  | DatabaseError m => m
  | KeyError k => k
  | PageNotAnInteger => "That page number is not an integer"
  | EmptyPage => "That page contains no results"
  | Http404 => "Not found"
  end.

Inductive Level := Success | Error | Info.

Inductive Method := GET | POST.

(** The statements of a handler that reach the store; a request's
    environment may make any of them raise. *)
Inductive DbOp :=
| OpCreateUser | OpGetOrCreateProfile | OpProfileSave | OpUserSave
| OpLogin | OpDelete.

(** What a request takes from outside the handler: the clock, the
    framework's hashing and normalisation, the random password source,
    the store failures of this request, and how far the key sequences of
    the user table and of the profile table have run ahead of the keys in
    use. *)
Record Env := mkEnv {
  now : Z;
  make_password : string -> string;
  normalize_email : string -> string;
  normalize_username : string -> string;
  make_random_password : string;
  fault : DbOp -> option Exn;
  user_keys_skipped : nat;
  profile_keys_skipped : nat }.

(** The entity store, the notices queued for the user and the session's
    authenticated user id. *)
Record World := mkWorld {
  db : Store;
  messages : list (Level * string);
  session : option Z }.

Inductive Outcome (A : Type) :=
| Ok (a : A)
| Raise (e : Exn).
Arguments Ok {A} a.
Arguments Raise {A} e.

Definition M (A : Type) : Type := World -> Outcome A * World.

Definition ret {A : Type} (a : A) : M A := fun w => (Ok a, w).

Definition raise {A : Type} (e : Exn) : M A := fun w => (Raise e, w).

Definition bind {A B : Type} (m : M A) (k : A -> M B) : M B :=
  fun w =>
    match m w with
    | (Ok a, w') => k a w'
    | (Raise e, w') => (Raise e, w')
    end.

Notation "x <- m ;; k" := (bind m (fun x => k))
  (at level 61, m at next level, right associativity).
Notation "m ;;; k" := (bind m (fun _ => k))
  (at level 61, right associativity).

Definition get_db : M Store := fun w => (Ok (db w), w).

Definition put_db (s : Store) : M unit :=
  fun w => (Ok tt, mkWorld s (messages w) (session w)).

Definition add_message (l : Level) (text : string) : M unit :=
  fun w => (Ok tt, mkWorld (db w) (messages w ++ [(l, text)]) (session w)).

Definition set_session (u : option Z) : M unit :=
  fun w => (Ok tt, mkWorld (db w) (messages w) u).

(** A statement that reaches the store raises when the environment says
    so, before it has written anything. *)
Definition store_op {A : Type} (env : Env) (op : DbOp) (m : M A) : M A :=
  match fault env op with
  | Some e => raise e
  | None => m
  end.

(** [with transaction.atomic(): body]: when the body raises, the store is
    rolled back to what it was on entry and the exception goes on; notices
    and the session are not part of the transaction. *)
Definition atomic {A : Type} (body : M A) : M A :=
  fun w =>
    match body w with
    | (Ok a, w') => (Ok a, w')
    | (Raise e, w') => (Raise e, mkWorld (db w) (messages w') (session w'))
    end.

(** [try: body except Exception as e: handler e] *)
Definition try_except {A : Type} (body : M A) (handler : Exn -> M A) : M A :=
  fun w =>
    match body w with
    | (Ok a, w') => (Ok a, w')
    | (Raise e, w') => handler e w'
    end.

(** [request.user]: the session's user when it still exists. *)
Definition request_user (w : World) : option User :=
  match session w with
  | Some i => find (fun u => (user_id u =? i)%Z) (users (db w))
  | None => None
  end.

End Req.

(** ** Manager and model methods that write to the store *)

Module Managers.
Import Models ORM Req.

Definition with_users (s : Store) (us : list User) : Store :=
  mkStore us (profiles s) (authors s) (categories s) (books s).

Definition with_profiles (s : Store) (ps : list UserProfile) : Store :=
  mkStore (users s) ps (authors s) (categories s) (books s).

(** [User.objects.create_user(username=, email=, password=)]: the username
    must be set; the row is inserted with a fresh key, the hashed password
    and the current time; the unique constraint on the username column
    answers a second row of the same name with [IntegrityError]. *)
Definition create_user (env : Env) (name mail raw_password : string) : M User :=
  if negb (PyStr.truthy name) then raise (ValueError "The given username must be set")
  else
    store_op env OpCreateUser
      (s <- get_db ;;
       let name' := normalize_username env name in
       if existsb (fun u => String.eqb (username u) name') (users s)
       then raise IntegrityError
       else
         let u := mkUser (next_id (user_keys_skipped env) (map user_id (users s))) name'
                    (normalize_email env mail) (make_password env raw_password)
                    None (now env) in
         put_db (with_users s (users s ++ [u])) ;;;
         ret u).

(** [UserProfile.objects.get_or_create(user=user)]: the profile of the
    user, inserted with blank columns when there is none. *)
Definition get_or_create_profile (env : Env) (u : User) : M (UserProfile * bool) :=
  store_op env OpGetOrCreateProfile
    (s <- get_db ;;
     match profiles_of s u with
     | [] =>
         let p := mkProfile (next_id (profile_keys_skipped env)
                                (map profile_id (profiles s))) (user_id u) "" "" "" in
         put_db (with_profiles s (profiles s ++ [p])) ;;;
         ret (p, true)
     | [p] => ret (p, false)
     | _ => raise MultipleObjectsReturned
     end).

(** [profile.save()]: the row of that key is replaced, or inserted when
    the table has none. *)
Definition save_profile (env : Env) (p : UserProfile) : M unit :=
  store_op env OpProfileSave
    (s <- get_db ;;
     if existsb (fun q => (profile_id q =? profile_id p)%Z) (profiles s)
     then put_db (with_profiles s
            (map (fun q => if (profile_id q =? profile_id p)%Z then p else q) (profiles s)))
     else put_db (with_profiles s (profiles s ++ [p]))).

(** [user.save()] on a stored user: the row is replaced unless another
    row already carries the same username. *)
Definition save_user (env : Env) (u : User) : M unit :=
  store_op env OpUserSave
    (s <- get_db ;;
     if existsb (fun v => String.eqb (username v) (username u)
                          && negb (user_id v =? user_id u)%Z) (users s)
     then raise IntegrityError
     else if existsb (fun v => (user_id v =? user_id u)%Z) (users s)
     then put_db (with_users s
            (map (fun v => if (user_id v =? user_id u)%Z then u else v) (users s)))
     else put_db (with_users s (users s ++ [u]))).

(** [user.set_password(raw)] *)
Definition set_password (env : Env) (u : User) (raw : string) : User :=
  mkUser (user_id u) (username u) (email u) (make_password env raw)
    (last_login u) (date_joined u).

(** Modelled from the spec: [models.py] is missing; the profile goes with
    its user (cascade).  [user.delete()] removes the user's profile rows
    and the user's row. *)
Definition delete_user_row (env : Env) (u : User) : M unit :=
  store_op env OpDelete
    (s <- get_db ;;
     put_db (mkStore
       (filter (fun v => negb (user_id v =? user_id u)%Z) (users s))
       (filter (fun p => negb (profile_user p =? user_id u)%Z) (profiles s))
       (authors s) (categories s) (books s))).

(** [login(request, user)]: the session takes the user, then the
    [user_logged_in] signal stamps [last_login] on the user's row. *)
Definition login (env : Env) (u : User) : M unit :=
  set_session (Some (user_id u)) ;;;
  store_op env OpLogin
    (s <- get_db ;;
     put_db (with_users s
       (map (fun v => if (user_id v =? user_id u)%Z
                      then mkUser (user_id v) (username v) (email v) (password v)
                             (Some (now env)) (date_joined v)
                      else v) (users s)))).

(** [get_object_or_404(User, pk=pk)] *)
Definition get_user_or_404 (pk : Z) : M User :=
  s <- get_db ;;
  match find (fun u => (user_id u =? pk)%Z) (users s) with
  | Some u => ret u
  | None => raise Http404
  end.

End Managers.

(** ** forms.py *)

Module Forms.
Import Models Req.

(** What a form field's own cleaning hands to the form: the normalised
    value, or the field's validation errors (at least one). *)
Inductive cleaned (A : Type) :=
| Valid (a : A)
| Invalid (err : string) (more : list string).
Arguments Valid {A} a.
Arguments Invalid {A} err more.

(** [raise forms.ValidationError(msg)] or the returned value. *)
Inductive checked (A : Type) :=
| Pass (a : A)
| ValidationError (msg : string).
Arguments Pass {A} a.
Arguments ValidationError {A} msg.

(** The fields of [UserForm] and of [SimpleRegisterForm], as their own
    cleaning leaves them (module [Fields] below cleans a submission). *)
Record UserData := mkUserData {
  in_username : cleaned string;
  in_email : cleaned string;
  in_password : cleaned string;
  in_password_confirm : cleaned string }.

(** [cleaned_data]; a key is absent ([None]) when its field failed. *)
Record CleanedData := mkCleaned {
  cd_username : option string;
  cd_email : option string;
  cd_password : option string;
  cd_password_confirm : option string }.

(** [form.errors] in insertion order; the field is [None] for the errors
    of the form as a whole. *)
Definition Errors : Type := list (option string * string).

Record Form := mkForm {
  cleaned_data : CleanedData;
  errors : Errors }.

Definition duplicate_username : string := "A user with that username already exists.".
Definition passwords_mismatch : string := "Passwords don't match".

(** Truthiness of [cleaned_data.get(key)]. *)
Definition truthy_opt (v : option string) : bool :=
  match v with
  | Some s => PyStr.truthy s
  | None => false
  end.

(** [a != b] on two values of [cleaned_data.get]. *)
Definition differ (a b : option string) : bool :=
  match a, b with
  | Some x, Some y => negb (String.eqb x y)
  | None, None => false
  | _, _ => true
  end.

(** [UserForm.clean_username]: [name] is [cleaned_data['username']];
    [exclude(id=None)] excludes no row. *)
Definition UserForm_clean_username (s : Store) (instance : option User)
    (name : string) : checked string :=
  if existsb (fun u => PyStr.iexact name (username u)
                       && negb (match instance with
                                | Some i => (user_id u =? user_id i)%Z
                                | None => false
                                end)) (users s)
  then ValidationError duplicate_username
  else Pass name.

(** [UserForm.clean] *)
Definition UserForm_clean (cd : CleanedData) : checked CleanedData :=
  let password := cd_password cd in
  let password_confirm := cd_password_confirm cd in
  if truthy_opt password && truthy_opt password_confirm
     && differ password password_confirm
  then ValidationError passwords_mismatch
  else Pass cd.

(** [SimpleRegisterForm.clean_username] *)
Definition SimpleRegisterForm_clean_username (s : Store) (name : string) : checked string :=
  if existsb (fun u => PyStr.iexact name (username u)) (users s)
  then ValidationError duplicate_username
  else Pass name.

(** [SimpleRegisterForm.clean] *)
Definition SimpleRegisterForm_clean (cd : CleanedData) : checked CleanedData :=
  let password := cd_password cd in
  let password_confirm := cd_password_confirm cd in
  if truthy_opt password && truthy_opt password_confirm
     && differ password password_confirm
  then ValidationError passwords_mismatch
  else Pass cd.

(** One round of [_clean_fields]: the field's value enters [cleaned_data]
    and goes through the form's [clean_<name>] hook; a validation error of
    either is recorded under the field and the key is dropped. *)
Definition clean_field (name : string) (input : cleaned string)
    (hook : string -> checked string) : option string * Errors :=
  match input with
  | Invalid e more => (None, map (fun m => (Some name, m)) (e :: more))
  | Valid v =>
      match hook v with
      | Pass v' => (Some v', [])
      | ValidationError m => (None, [(Some name, m)])
      end
  end.

Definition no_hook (v : string) : checked string := Pass v.

(** [full_clean]: [_clean_fields] in declaration order, then
    [_clean_form], whose error lands under the form itself. *)
Definition full_clean (username_hook : string -> checked string)
    (clean : CleanedData -> checked CleanedData) (data : UserData) : Form :=
  let '(u, e1) := clean_field "username" (in_username data) username_hook in
  let '(m, e2) := clean_field "email" (in_email data) no_hook in
  let '(p, e3) := clean_field "password" (in_password data) no_hook in
  let '(c, e4) := clean_field "password_confirm" (in_password_confirm data) no_hook in
  let cd := mkCleaned u m p c in
  let errs := (e1 ++ e2 ++ e3 ++ e4)%list in
  match clean cd with
  | Pass cd' => mkForm cd' errs
  | ValidationError msg => mkForm cd (errs ++ [(None, msg)])%list
  end.

Definition UserForm (s : Store) (instance : option User) (data : UserData) : Form :=
  full_clean (UserForm_clean_username s instance) UserForm_clean data.

Definition SimpleRegisterForm (s : Store) (data : UserData) : Form :=
  full_clean (SimpleRegisterForm_clean_username s) SimpleRegisterForm_clean data.

(** [form.is_valid()] of a bound form. *)
Definition is_valid (f : Form) : bool :=
  match errors f with
  | [] => true
  | _ :: _ => false
  end.

(** [cleaned_data[key]] *)
Definition item (key : string) (v : option string) : M string :=
  match v with
  | Some s => ret s
  | None => raise (KeyError key)
  end.

(** [cleaned_data.get(key, '')] *)
Definition get_or_empty (v : option string) : string :=
  match v with
  | Some s => s
  | None => ""
  end.

(** [SimpleRegisterForm.save] *)
Definition SimpleRegisterForm_save (env : Env) (f : Form) : M User :=
  name <- item "username" (cd_username (cleaned_data f)) ;;
  let mail := get_or_empty (cd_email (cleaned_data f)) in
  raw <- item "password" (cd_password (cleaned_data f)) ;;
  Managers.create_user env name mail raw.

(** An upload field's cleaned value: nothing sent, the clear box ticked,
    or a new file. *)
Inductive image_input :=
| NoFile
| Clear
| Upload (name : string).

(** The fields of [UserProfileForm], as submitted. *)
Record ProfileData := mkProfileData {
  in_address : cleaned string;
  in_phone_number : cleaned string;
  in_profile_image : cleaned image_input }.

Record ProfileForm := mkProfileForm {
  pf_address : option string;
  pf_phone_number : option string;
  pf_profile_image : option image_input;
  pf_errors : Errors }.

Definition clean_image (input : cleaned image_input) : option image_input * Errors :=
  match input with
  | Invalid e more => (None, map (fun m => (Some "profile_image", m)) (e :: more))
  | Valid v => (Some v, [])
  end.

Definition UserProfileForm (data : ProfileData) : ProfileForm :=
  let '(a, e1) := clean_field "address" (in_address data) no_hook in
  let '(p, e2) := clean_field "phone_number" (in_phone_number data) no_hook in
  let '(i, e3) := clean_image (in_profile_image data) in
  mkProfileForm a p i (e1 ++ e2 ++ e3)%list.

Definition profile_is_valid (f : ProfileForm) : bool :=
  match pf_errors f with
  | [] => true
  | _ :: _ => false
  end.

(** The instance of a bound [UserProfileForm(..., instance=profile)]: the
    cleaned fields written onto the profile. *)
Definition construct_instance (f : ProfileForm) (p : UserProfile) : UserProfile :=
  mkProfile (profile_id p) (profile_user p)
    (match pf_address f with Some a => a | None => address p end)
    (match pf_phone_number f with Some n => n | None => phone_number p end)
    (match pf_profile_image f with
     | Some (Upload name) => name
     | Some Clear => ""
     | _ => profile_image p
     end).

(** [profile_form.save()] *)
Definition UserProfileForm_save (env : Env) (f : ProfileForm) (p : UserProfile) : M unit :=
  if profile_is_valid f
  then Managers.save_profile env (construct_instance f p)
  else raise (ValueError "The UserProfile could not be changed because the data didn't validate.").

End Forms.

(** ** The fields that forms.py declares, and their cleaning *)

Module Fields.
Import Models Req Forms.

(** [len(value)] counts code points: in UTF-8 the bytes that do not
    continue a code point (those outside 80-BF). *)
Definition continues (c : ascii) : bool :=
  let n := nat_of_ascii c in ((128 <=? n) && (n <=? 191))%nat.

Fixpoint len (s : string) : nat :=
  match s with
  | EmptyString => 0
  | String c r => ((if continues c then 0 else 1) + len r)%nat
  end.

(** ["\x00" in value] *)
Fixpoint has_null (s : string) : bool :=
  match s with
  | EmptyString => false
  | String c r => (nat_of_ascii c =? 0)%nat || has_null r
  end.

Definition decimal (n : nat) : string := NilZero.string_of_uint (Nat.to_uint n).

Definition required_message : string := "This field is required.".
Definition null_message : string := "Null characters are not allowed.".

(** The message of [MaxLengthValidator], in the plural that a limit above
    one takes. *)
Definition max_length_message (limit shown : nat) : string :=
  "Ensure this value has at most " ++ decimal limit
  ++ " characters (it has " ++ decimal shown ++ ").".

(** [CharField.to_python] with [strip=True], the default: a missing or
    empty value is the empty string, any other is stripped. *)
Definition to_python (raw : option string) : string :=
  match raw with
  | Some v => PyStr.strip v
  | None => ""
  end.

(** The validators of a [CharField], in their order: the length limit
    when [max_length] is declared, then the null character check.  The
    errors of all of them are collected. *)
Definition CharField_validators (max_length : option nat) (value : string) : list string :=
  ((match max_length with
    | Some limit =>
        if (limit <? len value)%nat then [max_length_message limit (len value)] else []
    | None => []
    end)
   ++ (if has_null value then [null_message] else []))%list.

(** [Field.clean]: [to_python], then [validate] (an empty value fails a
    required field), then [run_validators] (skipped on an empty value). *)
Definition Field_clean (required : bool) (validators : string -> list string)
    (raw : option string) : cleaned string :=
  let value := to_python raw in
  if PyStr.truthy value then
    match validators value with
    | [] => Valid value
    | e :: more => Invalid e more
    end
  else if required then Invalid required_message []
  else Valid "".

(** [forms.CharField(required=, max_length=)] *)
Definition CharField (required : bool) (max_length : option nat)
    : option string -> cleaned string :=
  Field_clean required (CharField_validators max_length).

(** [forms.EmailField(required=)]: a [CharField] whose validators are the
    framework's ([validate_email] first); [email_validators] gives their
    errors on a value and is taken as it is. *)
Definition EmailField (required : bool) (email_validators : string -> list string)
    : option string -> cleaned string :=
  Field_clean required email_validators.

(** The four values of [request.POST] that the user forms read; a key
    that was not sent is [None]. *)
Record Post := mkPost {
  post_username : option string;
  post_email : option string;
  post_password : option string;
  post_password_confirm : option string }.

(** The fields of [UserForm] (forms.py 77-90) on a submission. *)
Definition UserForm_fields (email_validators : string -> list string) (post : Post)
    : UserData :=
  mkUserData
    (CharField true (Some 150%nat) (post_username post))
    (EmailField false email_validators (post_email post))
    (CharField false None (post_password post))
    (CharField false None (post_password_confirm post)).

(** The fields of [SimpleRegisterForm] (forms.py 116-121) on a
    submission. *)
Definition SimpleRegisterForm_fields (email_validators : string -> list string)
    (post : Post) : UserData :=
  mkUserData
    (CharField true (Some 150%nat) (post_username post))
    (EmailField false email_validators (post_email post))
    (CharField true None (post_password post))
    (CharField true None (post_password_confirm post)).

End Fields.

(** ** django.core.paginator, as the list views call it *)

Module Paginator.
Import Req.

(** [Paginator(qs, 10)]: ten per page, no orphans, an empty first page is
    allowed. *)
Definition per_page : Z := 10.
Definition orphans : Z := 0.
Definition allow_empty_first_page : bool := true.

(** [request.GET.get('page')] as [int(number)] reads it: an integer, or
    nothing that converts (the parameter is absent or is not a number). *)
Inductive page_arg :=
| PageInt (n : Z)
| NotAnInt.

Record Page (A : Type) := mkPage {
  object_list : list A;
  number : Z }.
Arguments mkPage {A} object_list number.
Arguments object_list {A} p.
Arguments number {A} p.

Definition count {A : Type} (l : list A) : Z := Z.of_nat (List.length l).

(** [ceil(a / b)] for a positive [b]. *)
Definition ceil_div (a b : Z) : Z := (- ((- a) / b))%Z.

Definition num_pages {A : Type} (l : list A) : Z :=
  if (count l =? 0)%Z && negb allow_empty_first_page then 0%Z
  else
    let hits := Z.max 1 (count l - orphans) in
    ceil_div hits per_page.

Definition validate_number {A : Type} (l : list A) (arg : page_arg) : Outcome Z :=
  match arg with
  | NotAnInt => Raise PageNotAnInteger
  | PageInt n =>
      if (n <? 1)%Z then Raise EmptyPage
      else if (n >? num_pages l)%Z then Raise EmptyPage
      else Ok n
  end.

(** [object_list[bottom:top]] for indices that are not negative. *)
Definition slice {A : Type} (bottom top : Z) (l : list A) : list A :=
  firstn (Z.to_nat (top - bottom)) (skipn (Z.to_nat bottom) l).

(** [paginator.page(number)] *)
Definition page {A : Type} (l : list A) (arg : page_arg) : Outcome (Page A) :=
  match validate_number l arg with
  | Raise e => Raise e
  | Ok n =>
      let bottom := ((n - 1) * per_page)%Z in
      let top := (bottom + per_page)%Z in
      let top := if (top + orphans >=? count l)%Z then count l else top in
      Ok (mkPage (slice bottom top l) n)
  end.

(** [paginator.get_page(number)]: a number that is no integer selects the
    first page, an integer out of range the last one. *)
Definition get_page {A : Type} (l : list A) (arg : page_arg) : Outcome (Page A) :=
  let n :=
    match validate_number l arg with
    | Ok n => n
    | Raise PageNotAnInteger => 1%Z
    | Raise _ => num_pages l
    end in
  page l (PageInt n).

End Paginator.

(** ** views.py *)

Module Views.
Import Models ORM Req Managers Forms Paginator.

Inductive Response (C : Type) :=
| Redirect (to : string)
| Render (template : string) (context : C).
Arguments Redirect {C} to.
Arguments Render {C} template context.

(** The double quote of the notices. *)
Definition dq : string := String (ascii_of_nat 34) EmptyString.

Definition current_user : M (option User) := fun w => (Ok (request_user w), w).

(** [@login_required]: an anonymous request is sent to the login page. *)
Definition login_required {C : Type} (view : M (Response C)) : M (Response C) :=
  u <- current_user ;;
  match u with
  | Some _ => view
  | None => ret (Redirect "login")
  end.

Definition lift {A : Type} (o : Outcome A) : M A := fun w => (o, w).

(** *** Registration *)

(** The block under [with transaction.atomic()] in [register]. *)
Definition register_block (env : Env) (form : Form) : M (Response (option Form)) :=
  user <- SimpleRegisterForm_save env form ;;
  _ <- get_or_create_profile env user ;;
  login env user ;;;
  add_message Success "Registration successful!" ;;;
  ret (Redirect "home").

(** The two [except] clauses of [register], then the final [render]. *)
Definition register_except (form : Form) (e : Exn) : M (Response (option Form)) :=
  match e with
  | IntegrityError => add_message Error "Registration failed: Integrity error."
  | _ => add_message Error ("Registration failed: " ++ exn_str e)
  end ;;;
  ret (Render "register.html" (Some form)).

Definition register (env : Env) (method : Method) (data : UserData)
    : M (Response (option Form)) :=
  u <- current_user ;;
  match u with
  | Some _ => ret (Redirect "home")
  | None =>
      match method with
      | POST =>
          s <- get_db ;;
          let form := SimpleRegisterForm s data in
          if is_valid form then
            try_except (atomic (register_block env form)) (register_except form)
          else
            add_message Error "Please correct the errors below." ;;;
            ret (Render "register.html" (Some form))
      | GET => ret (Render "register.html" None)
      end
  end.

(** *** Users *)

Definition get_user_profile_or_create (env : Env) (user : User) : M UserProfile :=
  pc <- get_or_create_profile env user ;;
  ret (fst pc).

Definition user_list (page_number : page_arg) : M (Response (Page User)) :=
  login_required
    (s <- get_db ;;
     let users_qs := order_by_desc date_joined (users s) in
     users_page <- lift (get_page users_qs page_number) ;;
     ret (Render "user.html" users_page)).

Definition field_label (f : option string) : string :=
  match f with
  | Some name => name
  | None => "__all__"
  end.

(** The two nested loops over [form.errors.items()]. *)
Fixpoint report_errors (who : string) (errs : Errors) : M unit :=
  match errs with
  | [] => ret tt
  | (f, e) :: rest =>
      add_message Error (who ++ " " ++ field_label f ++ ": " ++ e) ;;;
      report_errors who rest
  end.

Record UserFormContext := mkUserFormContext {
  ctx_user_form : option Form;
  ctx_profile_form : option ProfileForm;
  ctx_title : string }.

(** [cleaned_data.get('password') or make_random_password()] *)
Definition password_or_random (env : Env) (v : option string) : string :=
  if truthy_opt v then get_or_empty v else make_random_password env.

Definition image_truthy (v : option image_input) : option string :=
  match v with
  | Some (Upload name) => Some name
  | _ => None
  end.

(** The block under [with transaction.atomic()] in [add_user]. *)
Definition add_user_block (env : Env) (user_form : Form) (profile_form : ProfileForm)
    : M (Response UserFormContext) :=
  name <- item "username" (cd_username (cleaned_data user_form)) ;;
  let mail := get_or_empty (cd_email (cleaned_data user_form)) in
  let raw := password_or_random env (cd_password (cleaned_data user_form)) in
  user <- create_user env name mail raw ;;
  pc <- get_or_create_profile env user ;;
  let profile := fst pc in
  let profile :=
    mkProfile (profile_id profile) (profile_user profile)
      (get_or_empty (pf_address profile_form))
      (get_or_empty (pf_phone_number profile_form))
      (match image_truthy (pf_profile_image profile_form) with
       | Some name => name
       | None => profile_image profile
       end) in
  save_profile env profile ;;;
  add_message Success
    ("User " ++ dq ++ username user ++ dq ++ " created successfully!") ;;;
  ret (Redirect "user_list").

(** The two [except] clauses of [add_user] and of [edit_user], then the
    final [render]. *)
Definition user_form_except (doing : string) (page : Response UserFormContext) (e : Exn)
    : M (Response UserFormContext) :=
  match e with
  | IntegrityError =>
      add_message Error "A user with that username or email already exists."
  | _ => add_message Error ("Error " ++ doing ++ " user: " ++ exn_str e)
  end ;;;
  ret page.

Definition add_user (env : Env) (method : Method) (data : UserData)
    (pdata : ProfileData) : M (Response UserFormContext) :=
  login_required
    match method with
    | POST =>
        s <- get_db ;;
        let user_form := UserForm s None data in
        let profile_form := UserProfileForm pdata in
        let page := Render "user_form.html"
                      (mkUserFormContext (Some user_form) (Some profile_form) "Add User") in
        if is_valid user_form && profile_is_valid profile_form then
          try_except (atomic (add_user_block env user_form profile_form))
            (user_form_except "creating" page)
        else
          report_errors "User" (errors user_form) ;;;
          report_errors "Profile" (pf_errors profile_form) ;;;
          ret page
    | GET => ret (Render "user_form.html" (mkUserFormContext None None "Add User"))
    end.

(** [request.GET.get('q', '').strip()] *)
Definition get_query (q : option string) : string :=
  PyStr.strip (match q with Some v => v | None => "" end).

(** [request.GET.get(key, 'all')] *)
Definition get_or_all (v : option string) : string :=
  match v with
  | Some f => f
  | None => "all"
  end.

Definition Q_user_all_fields (query : string) (row : User * option UserProfile) : bool :=
  PyStr.icontains query (username (fst row))
  || PyStr.icontains query (email (fst row))
  || on_profile (fun p => PyStr.icontains query (address p)) row
  || on_profile (fun p => PyStr.icontains query (phone_number p)) row.

(** The query set that [user_search] hands to its paginator. *)
Definition user_search_qs (s : Store) (query filter_type : string) : list User :=
  let users_qs := order_by_desc date_joined (users s) in
  if PyStr.truthy query then
    if String.eqb filter_type "username" then
      filter (fun u => PyStr.icontains query (username u)) users_qs
    else if String.eqb filter_type "email" then
      filter (fun u => PyStr.icontains query (email u)) users_qs
    else if String.eqb filter_type "address" then
      map fst (filter (on_profile (fun p => PyStr.icontains query (address p)))
                 (user_rows s users_qs))
    else
      map fst (filter (Q_user_all_fields query) (user_rows s users_qs))
  else users_qs.

Record SearchPage (A : Type) := mkSearchPage {
  sp_page : Page A;
  sp_search_query : string }.
Arguments mkSearchPage {A} sp_page sp_search_query.
Arguments sp_page {A} s.
Arguments sp_search_query {A} s.

Definition user_search (q filter_ : option string) (page_number : page_arg)
    : M (Response (SearchPage User)) :=
  login_required
    (let query := get_query q in
     let filter_type := get_or_all filter_ in
     s <- get_db ;;
     let users_qs := user_search_qs s query filter_type in
     users_page <- lift (get_page users_qs page_number) ;;
     ret (Render "user.html" (mkSearchPage users_page query))).

(** The user object after the assignments of [edit_user]'s transaction
    block: the cleaned username and email, and a new hash when a password
    was given. *)
Definition edited_user (env : Env) (user : User) (name : string) (user_form : Form) : User :=
  let user1 := mkUser (user_id user) name
                 (get_or_empty (cd_email (cleaned_data user_form)))
                 (password user) (last_login user) (date_joined user) in
  let raw := get_or_empty (cd_password (cleaned_data user_form)) in
  if PyStr.truthy raw then set_password env user1 raw else user1.

(** The block under [with transaction.atomic()] in [edit_user]. *)
Definition edit_user_block (env : Env) (user : User) (profile : UserProfile)
    (user_form : Form) (profile_form : ProfileForm) : M (Response UserFormContext) :=
  name <- item "username" (cd_username (cleaned_data user_form)) ;;
  let user' := edited_user env user name user_form in
  save_user env user' ;;;
  UserProfileForm_save env profile_form profile ;;;
  add_message Success
    ("User " ++ dq ++ username user' ++ dq ++ " updated successfully!") ;;;
  ret (Redirect "user_list").

Definition edit_user (env : Env) (pk : Z) (method : Method) (data : UserData)
    (pdata : ProfileData) : M (Response UserFormContext) :=
  login_required
    (user <- get_user_or_404 pk ;;
     profile <- get_user_profile_or_create env user ;;
     match method with
     | POST =>
         s <- get_db ;;
         let user_form := UserForm s (Some user) data in
         let profile_form := UserProfileForm pdata in
         if is_valid user_form && profile_is_valid profile_form then
           (* the title reads the user object, whose username the block has set *)
           let shown := match cd_username (cleaned_data user_form) with
                        | Some name => name
                        | None => username user
                        end in
           try_except (atomic (edit_user_block env user profile user_form profile_form))
             (user_form_except "updating"
                (Render "user_form.html"
                   (mkUserFormContext (Some user_form) (Some profile_form)
                      ("Edit " ++ shown))))
         else
           report_errors "User" (errors user_form) ;;;
           report_errors "Profile" (pf_errors profile_form) ;;;
           ret (Render "user_form.html"
                  (mkUserFormContext (Some user_form) (Some profile_form)
                     ("Edit " ++ username user)))
     | GET =>
         ret (Render "user_form.html"
                (mkUserFormContext None None ("Edit " ++ username user)))
     end).

(** [request.user == user]: two model instances are equal when their
    primary keys are. *)
Definition same_user (a : option User) (b : User) : bool :=
  match a with
  | Some u => (user_id u =? user_id b)%Z
  | None => false
  end.

Definition delete_user (env : Env) (pk : Z) (method : Method)
    : M (Response User) :=
  login_required
    (user <- get_user_or_404 pk ;;
     me <- current_user ;;
     if same_user me user then
       add_message Error "You can't delete the currently logged in user." ;;;
       ret (Redirect "user_list")
     else
       match method with
       | POST =>
           try_except
             (let name := username user in
              delete_user_row env user ;;;
              add_message Success
                ("User " ++ dq ++ name ++ dq ++ " deleted successfully!"))
             (fun e => add_message Error ("Error deleting user: " ++ exn_str e)) ;;;
           ret (Redirect "user_list")
       | GET => ret (Render "user_confirm_delete.html" user)
       end).

(** *** Books *)

Definition book_of (row : Book * Author * Category) : Book := fst (fst row).
Definition author_of (row : Book * Author * Category) : Author := snd (fst row).
Definition category_of (row : Book * Author * Category) : Category := snd row.

(** [Book.objects.select_related('author', 'category').order_by('-created_at')] *)
Definition books_qs (s : Store) : list (Book * Author * Category) :=
  book_rows s (order_by_desc created_at (books s)).

Definition book_list (page_number : page_arg) : M (Response (Page Book)) :=
  login_required
    (s <- get_db ;;
     let books := map book_of (books_qs s) in
     books_page <- lift (get_page books page_number) ;;
     ret (Render "book.html" books_page)).

Definition Q_book_all_fields (query : string) (row : Book * Author * Category) : bool :=
  PyStr.icontains query (title (book_of row))
  || PyStr.icontains query (description (book_of row))
  || PyStr.icontains query (author_name (author_of row))
  || PyStr.icontains query (category_name (category_of row)).

(** The query set that [book_search] hands to its paginator. *)
Definition book_search_qs (s : Store) (query filter_type : string) : list Book :=
  let books := books_qs s in
  map book_of
    (if PyStr.truthy query then
       if String.eqb filter_type "title" then
         filter (fun r => PyStr.icontains query (title (book_of r))) books
       else if String.eqb filter_type "author" then
         filter (fun r => PyStr.icontains query (author_name (author_of r))) books
       else if String.eqb filter_type "category" then
         filter (fun r => PyStr.icontains query (category_name (category_of r))) books
       else filter (Q_book_all_fields query) books
     else books).

Definition book_search (q filter_ : option string) (page_number : page_arg)
    : M (Response (SearchPage Book)) :=
  login_required
    (let query := get_query q in
     let filter_type := get_or_all filter_ in
     s <- get_db ;;
     let books := book_search_qs s query filter_type in
     books_page <- lift (get_page books page_number) ;;
     ret (Render "book.html" (mkSearchPage books_page query))).

(** *** Categories and authors *)

Definition category_list (page_number : page_arg) : M (Response (Page Category)) :=
  login_required
    (s <- get_db ;;
     let categories := order_by_asc category_name (categories s) in
     categories_page <- lift (get_page categories page_number) ;;
     ret (Render "category.html" categories_page)).

Definition author_list (page_number : page_arg) : M (Response (Page Author)) :=
  login_required
    (s <- get_db ;;
     let authors := order_by_asc author_name (authors s) in
     authors_page <- lift (get_page authors page_number) ;;
     ret (Render "author.html" authors_page)).

(** *** Global search *)

Record SearchContext := mkSearchContext {
  sc_query : string;
  sc_search_type : string;
  sc_books : option (list Book);
  sc_users : option (list User);
  sc_authors : option (list Author);
  sc_categories : option (list Category) }.

(** [search_type in ['all', kind]] *)
Definition selects (search_type kind : string) : bool :=
  String.eqb search_type "all" || String.eqb search_type kind.

Definition search_books (s : Store) (query : string) : list Book :=
  limit10 (distinct Book_eq_dec
    (map book_of (filter (Q_book_all_fields query) (book_rows s (books s))))).

Definition Q_search_users (query : string) (row : User * option UserProfile) : bool :=
  PyStr.icontains query (username (fst row))
  || PyStr.icontains query (email (fst row))
  || on_profile (fun p => PyStr.icontains query (address p)) row.

Definition search_users (s : Store) (query : string) : list User :=
  limit10 (distinct User_eq_dec
    (map fst (filter (Q_search_users query) (user_rows s (users s))))).

Definition search_authors (s : Store) (query : string) : list Author :=
  limit10 (distinct Author_eq_dec
    (filter (fun a => PyStr.icontains query (author_name a)) (authors s))).

Definition search_categories (s : Store) (query : string) : list Category :=
  limit10 (distinct Category_eq_dec
    (filter (fun c => PyStr.icontains query (category_name c)) (categories s))).

Definition search_context (s : Store) (query search_type : string) : SearchContext :=
  if PyStr.truthy query then
    mkSearchContext query search_type
      (if selects search_type "books" then Some (search_books s query) else None)
      (if selects search_type "users" then Some (search_users s query) else None)
      (if selects search_type "authors" then Some (search_authors s query) else None)
      (if selects search_type "categories" then Some (search_categories s query) else None)
  else mkSearchContext query search_type None None None None.

Definition search (q type_ : option string) : M (Response SearchContext) :=
  login_required
    (let query := get_query q in
     let search_type := get_or_all type_ in
     s <- get_db ;;
     ret (Render "search_results.html" (search_context s query search_type))).

End Views.

(** ** Notions of the specification, to state the properties with *)

Module Spec.
Import Models Req Forms Fields Paginator.

(** The last page of a collection: the items from the start of page
    [num_pages] to the end. *)
Definition last_page {A : Type} (l : list A) : Page A :=
  mkPage (skipn (Z.to_nat ((num_pages l - 1) * per_page)) l) (num_pages l).

(** [q] occurs in [s] as a contiguous substring. *)
Definition occurs_in (q s : string) : Prop :=
  exists pre post, s = (pre ++ q ++ post)%string.

(** The value of a request parameter; a parameter that was not sent
    reads as the empty text. *)
Definition sent (raw : option string) : string :=
  match raw with
  | Some v => v
  | None => ""
  end.

(** Two bytes are the same letter ignoring case: they are equal, or they
    are the capital and the small form of one of the letters A to Z. *)
Definition same_letter (a b : ascii) : Prop :=
  a = b
  \/ exists i, (i < 26)%nat
              /\ ((a = ascii_of_nat (65 + i) /\ b = ascii_of_nat (97 + i))
                  \/ (a = ascii_of_nat (97 + i) /\ b = ascii_of_nat (65 + i))).

(** Two texts are equal ignoring the case of the letters A to Z. *)
Inductive same_ignoring_case : string -> string -> Prop :=
| same_empty : same_ignoring_case "" ""
| same_next a b s t :
    same_letter a b -> same_ignoring_case s t ->
    same_ignoring_case (String a s) (String b t).

(** [q] occurs in [s] as a substring, ignoring the case of the letters A
    to Z: some piece of [s] equals [q] ignoring that case. *)
Definition contains_ignoring_case (q s : string) : Prop :=
  exists pre mid post, s = (pre ++ mid ++ post)%string /\ same_ignoring_case q mid.

(** Equal ignoring case when the letters with diacritics of Latin-1 count
    as letters too: in UTF-8 the capitals U+00C0-00DE are C3 80-9E and
    their small forms U+00E0-00FE are C3 A0-BE (U+00D7 and U+00F7 are no
    letters). *)
Inductive same_ignoring_latin_case : string -> string -> Prop :=
| latin_empty : same_ignoring_latin_case "" ""
| latin_next a b s t :
    same_letter a b -> same_ignoring_latin_case s t ->
    same_ignoring_latin_case (String a s) (String b t)
| latin_accented i s t :
    (i < 31)%nat -> i <> 23%nat ->
    same_ignoring_latin_case s t ->
    same_ignoring_latin_case
      (String (ascii_of_nat 195) (String (ascii_of_nat (128 + i)) s))
      (String (ascii_of_nat 195) (String (ascii_of_nat (160 + i)) t))
| latin_symmetric s t :
    same_ignoring_latin_case s t -> same_ignoring_latin_case t s.

(** The white space of [str.isspace], by code point. *)
Definition white_space_code_points : list N :=
  [9; 10; 11; 12; 13; 28; 29; 30; 31; 32; 133; 160; 5760;
   8192; 8193; 8194; 8195; 8196; 8197; 8198; 8199; 8200; 8201; 8202;
   8232; 8233; 8239; 8287; 12288]%N.

(** The UTF-8 encoding of a code point below U+10000. *)
Definition utf8 (cp : N) : string :=
  if (cp <? 128)%N then String (ascii_of_N cp) ""
  else if (cp <? 2048)%N then
    String (ascii_of_N (192 + cp / 64)) (String (ascii_of_N (128 + cp mod 64)) "")
  else
    String (ascii_of_N (224 + cp / 4096))
      (String (ascii_of_N (128 + (cp / 64) mod 64))
         (String (ascii_of_N (128 + cp mod 64)) "")).

Definition white_space : list string := map utf8 white_space_code_points.

(** A text of white space only: white space code points in a row. *)
Inductive blank : string -> Prop :=
| blank_empty : blank ""
| blank_next x s : In x white_space -> blank s -> blank (x ++ s).

(** The user search over all fields: the query occurs, ignoring case, in
    the username, the email, or the address or phone number of the user's
    profile. *)
Definition user_matches_all_fields (s : Store) (q : string) (u : User) : Prop :=
  contains_ignoring_case q (username u)
  \/ contains_ignoring_case q (email u)
  \/ exists p, In p (profiles s) /\ profile_user p = user_id u
               /\ (contains_ignoring_case q (address p)
                   \/ contains_ignoring_case q (phone_number p)).

(** What the global search matches a user on: username, email, or the
    address of the profile. *)
Definition user_matches_global (s : Store) (q : string) (u : User) : Prop :=
  contains_ignoring_case q (username u)
  \/ contains_ignoring_case q (email u)
  \/ exists p, In p (profiles s) /\ profile_user p = user_id u
               /\ contains_ignoring_case q (address p).

(** The book search over all fields: the query occurs, ignoring case, in
    the title, the description, the author's name or the category's name. *)
Definition book_matches_all_fields (s : Store) (q : string) (b : Book) : Prop :=
  exists a c, In a (authors s) /\ author_id a = book_author b
              /\ In c (categories s) /\ category_id c = book_category b
              /\ (contains_ignoring_case q (title b)
                  \/ contains_ignoring_case q (description b)
                  \/ contains_ignoring_case q (author_name a)
                  \/ contains_ignoring_case q (category_name c)).

(** A capped preview of the matches: the first ten of the matches listed
    without repetition. *)
Definition capped_preview {A : Type} (matches : A -> Prop) (r : list A) : Prop :=
  exists all, NoDup all /\ (forall x, In x all <-> matches x) /\ r = firstn 10 all.

(** [p] is [raw] without the white space around it: [raw] is [p] between
    two blank texts, and [p] neither starts nor ends with white space. *)
Definition stripped (raw p : string) : Prop :=
  (exists l r, raw = (l ++ p ++ r)%string /\ blank l /\ blank r)
  /\ (forall x t, In x white_space -> p <> (x ++ t)%string)
  /\ (forall x t, In x white_space -> p <> (t ++ x)%string).

(** A username that the username field lets through: not empty, at most
    150 code points, no null character. *)
Definition username_accepted (name : string) : Prop :=
  name <> "" /\ (Fields.len name <= 150)%nat /\ Fields.has_null name = false.

(** A password value that its field lets through and that counts as
    supplied: not empty, no null character. *)
Definition password_supplied (p : string) : Prop :=
  p <> "" /\ Fields.has_null p = false.

(** Another user record carries [name], ignoring case: a record of the
    store other than the one being edited, when one is being edited. *)
Definition taken_by_another (s : Store) (editing : option User) (name : string) : Prop :=
  exists u, In u (users s)
            /\ same_ignoring_case (username u) name
            /\ (forall i, editing = Some i -> user_id u <> user_id i).

(** The user has a profile row in the store. *)
Definition has_profile (s : Store) (u : User) : Prop :=
  exists p, In p (profiles s) /\ profile_user p = user_id u.

(** A request left no user without its profile: every user of the store
    after the request was there before it or has a profile. *)
Definition no_user_without_profile (before after : Store) : Prop :=
  forall u, In u (users after) -> In u (users before) \/ has_profile after u.

(** A request left no orphaned profile row: every profile of the store
    after the request was there before it or belongs to a stored user. *)
Definition no_orphan_profile (before after : Store) : Prop :=
  forall p, In p (profiles after) ->
    In p (profiles before) \/ exists u, In u (users after) /\ user_id u = profile_user p.

(** What a committed creation leaves: no user without profile, no
    orphaned profile, and a user of a fresh key who has a profile. *)
Definition committed (before after : Store) : Prop :=
  no_user_without_profile before after
  /\ no_orphan_profile before after
  /\ exists u, In u (users after)
               /\ ~ In (user_id u) (map user_id (users before))
               /\ has_profile after u.

(** The password and its confirmation are both supplied, that is not
    empty, and differ. *)
Definition supplied_and_differ (data : UserData) : Prop :=
  exists p c, in_password data = Valid p
              /\ in_password_confirm data = Valid c
              /\ p <> "" /\ c <> "" /\ p <> c.

(** The request comes from an authenticated session. *)
Definition authenticated (w : World) : Prop := request_user w <> None.

End Spec.

(** ** views.py, the remaining handlers that the model covers *)

Module Site.
Import Models ORM Req Managers Forms Paginator Views.

(** [index]: the root URL. *)
Definition index : M (Response unit) :=
  u <- current_user ;;
  match u with
  | Some _ => ret (Redirect "home")
  | None => ret (Redirect "login")
  end.

Definition home : M (Response unit) :=
  login_required (ret (Render "home.html" tt)).

(** [request.POST.get(key, '')] *)
Definition post_get (v : option string) : string :=
  match v with
  | Some s => s
  | None => ""
  end.

(** [login_view].  [authenticate] is the framework's credential check
    ([django.contrib.auth.authenticate]), taken as it is: the user the
    credentials belong to, or nothing. *)
Definition login_view (env : Env)
    (authenticate : Store -> string -> string -> option User)
    (method : Method) (username_ password_ : option string) : M (Response unit) :=
  u <- current_user ;;
  match u with
  | Some _ => ret (Redirect "home")
  | None =>
      match method with
      | POST =>
          let name := PyStr.strip (post_get username_) in
          let pass := post_get password_ in
          s <- get_db ;;
          match authenticate s name pass with
          | Some user =>
              login env user ;;;
              add_message Success ("Welcome back, " ++ username user ++ "!") ;;;
              ret (Redirect "home")
          | None =>
              add_message Error "Invalid username or password." ;;;
              ret (Render "login.html" tt)
          end
      | GET => ret (Render "login.html" tt)
      end
  end.

(** [logout_view]: [logout(request)] empties the session. *)
Definition logout_view : M (Response unit) :=
  login_required
    (set_session None ;;;
     add_message Info "You have been logged out." ;;;
     ret (Redirect "login")).

Definition user_profile (env : Env) (pk : Z) : M (Response (User * UserProfile)) :=
  login_required
    (user <- get_user_or_404 pk ;;
     profile <- get_user_profile_or_create env user ;;
     ret (Render "user_profile.html" (user, profile))).

(** [get_object_or_404(Book, pk=pk)] *)
Definition get_book_or_404 (pk : Z) : M Book :=
  s <- get_db ;;
  match find (fun b => (book_id b =? pk)%Z) (books s) with
  | Some b => ret b
  | None => raise Http404
  end.

(** [book_detail] carries no [@login_required]. *)
Definition book_detail (pk : Z) : M (Response Book) :=
  book <- get_book_or_404 pk ;;
  ret (Render "book_view.html" book).

(** [book.delete()]: the rows of that key leave the book table; no other
    table of the model refers to a book. *)
Definition delete_book_row (env : Env) (b : Book) : M unit :=
  store_op env OpDelete
    (s <- get_db ;;
     put_db (mkStore (users s) (profiles s) (authors s) (categories s)
               (filter (fun x => negb (book_id x =? book_id b)%Z) (books s)))).

Definition delete_book (env : Env) (pk : Z) (method : Method) : M (Response Book) :=
  login_required
    (book <- get_book_or_404 pk ;;
     match method with
     | POST =>
         try_except
           (let name := title book in
            delete_book_row env book ;;;
            add_message Success
              ("Book " ++ dq ++ name ++ dq ++ " deleted successfully!"))
           (fun e => add_message Error ("Error deleting book: " ++ exn_str e)) ;;;
         ret (Redirect "book_list")
     | GET => ret (Render "book_confirm_delete.html" book)
     end).

Record DashboardContext := mkDashboardContext {
  total_users : nat;
  total_books : nat;
  total_authors : nat;
  total_categories : nat;
  recent_users : list User;
  recent_books : list Book }.

(** [dashboard]: four counts and the five newest users and books. *)
Definition dashboard : M (Response DashboardContext) :=
  login_required
    (s <- get_db ;;
     ret (Render "dashboard.html"
            (mkDashboardContext
               (List.length (users s)) (List.length (books s))
               (List.length (authors s)) (List.length (categories s))
               (firstn 5 (order_by_desc date_joined (users s)))
               (firstn 5 (order_by_desc created_at (books s)))))).

End Site.

(** ** Further notions to state properties with *)

Module Props.
Import Models ORM Req Forms Paginator Views.

(** Newest first: every item comes no earlier than all items after it. *)
Inductive newest_first {A : Type} (key : A -> Z) : list A -> Prop :=
| newest_nil : newest_first key []
| newest_cons x l :
    (forall y, In y l -> (key y <= key x)%Z) ->
    newest_first key l ->
    newest_first key (x :: l).

(** The store's keys: the well-formedness of the tables and distinct
    profile keys. *)
Definition store_ok (s : Store) : Prop :=
  wf_store s /\ NoDup (map profile_id (profiles s)).

(** The username folded to lower case. *)
Definition folded_name (u : User) : string := PyStr.lower (username u).

(** No two users have the same username ignoring case. *)
Definition usernames_unique (s : Store) : Prop :=
  NoDup (map folded_name (users s)).

(** What [login] for [u] leaves of a user row [v]: the time of the login
    on the rows of [u]'s key, the other rows as they are. *)
Definition stamped (env : Env) (u v : User) : User :=
  if (user_id v =? user_id u)%Z
  then mkUser (user_id v) (username v) (email v) (password v)
         (Some (now env)) (date_joined v)
  else v.

(** The user row that [create_user] writes. *)
Definition created_user (env : Env) (s : Store) (name mail raw : string) : User :=
  mkUser (next_id (user_keys_skipped env) (map user_id (users s))) (normalize_username env name)
    (normalize_email env mail) (make_password env raw) None (now env).

(** The profile row that [get_or_create] writes for a user without one. *)
Definition created_profile (env : Env) (s : Store) (u : User) : UserProfile :=
  mkProfile (next_id (profile_keys_skipped env) (map profile_id (profiles s)))
    (user_id u) "" "" "".

(** The store after a registration that went through. *)
Definition registered (env : Env) (s : Store) (name mail raw : string) : Store :=
  let u := created_user env s name mail raw in
  mkStore
    (users s ++ [mkUser (user_id u) (username u) (email u) (password u)
                   (Some (now env)) (date_joined u)])
    (profiles s ++ [created_profile env s u])
    (authors s) (categories s) (books s).

(** The store after an administrative creation that went through: the
    new user, and a profile with the submitted address, phone number and
    image. *)
Definition added (env : Env) (s : Store) (name mail raw : string) (pf : ProfileForm)
    : Store :=
  let u := created_user env s name mail (password_or_random env (Some raw)) in
  mkStore
    (users s ++ [u])
    (profiles s
     ++ [mkProfile (next_id (profile_keys_skipped env) (map profile_id (profiles s))) (user_id u)
           (get_or_empty (pf_address pf)) (get_or_empty (pf_phone_number pf))
           (match image_truthy (pf_profile_image pf) with
            | Some file => file
            | None => ""
            end)])
    (authors s) (categories s) (books s).

(** The notice that [add_user] and [edit_user] queue for an error. *)
Definition error_notice (who : string) (fe : option string * string) : Level * string :=
  (Error, (who ++ " " ++ field_label (fst fe) ++ ": " ++ snd fe)%string).

(** The errors of a field's own cleaning, listed under the field. *)
Definition own_errors (name : string) (input : cleaned string) : Errors :=
  match input with
  | Valid _ => []
  | Invalid e more => map (fun m => (Some name, m)) (e :: more)
  end.

(** The author and the category that a book's row is joined with. *)
Definition book_joined (s : Store) (b : Book) (a : Author) (c : Category) : Prop :=
  In a (authors s) /\ author_id a = book_author b
  /\ In c (categories s) /\ category_id c = book_category b.

(** Every profile belongs to a stored user. *)
Definition profiles_owned (s : Store) : Prop :=
  forall p, In p (profiles s) -> exists u, In u (users s) /\ user_id u = profile_user p.

(** What the handlers keep of the store: distinct keys, usernames
    distinct ignoring case, no profile without its user. *)
Definition site_invariant (s : Store) : Prop :=
  store_ok s /\ usernames_unique s /\ profiles_owned s.

(** The framework's username normalisation leaves this name as it is:
    the name is in the normal form already (every ASCII name is). *)
Definition keeps_username (env : Env) (name : string) : Prop :=
  normalize_username env name = name.

(** The same of the username of a submission, when its field is valid. *)
Definition keeps_submitted_username (env : Env) (data : UserData) : Prop :=
  forall name, in_username data = Valid name -> keeps_username env name.

(** Every book refers to a stored author and a stored category. *)
Definition references_ok (s : Store) : Prop :=
  forall b, In b (books s) ->
    (exists a, In a (authors s) /\ author_id a = book_author b)
    /\ (exists c, In c (categories s) /\ category_id c = book_category b).

(** Ascending on a text column: every item's key is at most the next
    item's, in the order of [String.leb]. *)
Inductive ascending {A : Type} (key : A -> string) : list A -> Prop :=
| ascending_nil : ascending key []
| ascending_one x : ascending key [x]
| ascending_cons x y l :
    String.leb (key x) (key y) = true ->
    ascending key (y :: l) ->
    ascending key (x :: y :: l).

(** The pages of a list, first to last. *)
Definition all_pages {A : Type} (l : list A) : list (Req.Outcome (Page A)) :=
  map (fun i => page l (PageInt (Z.of_nat i + 1))) (seq 0 (Z.to_nat (num_pages l))).

Definition items {A : Type} (o : Req.Outcome (Page A)) : list A :=
  match o with
  | Req.Ok p => object_list p
  | Req.Raise _ => []
  end.

End Props.

(* ===================================================================== *)
(** * Part II: properties                                                 *)
(* ===================================================================== *)

(** ** Pagination *)

Module PaginatorFacts.
Import Req Paginator Spec.

Lemma count_nonneg {A : Type} (l : list A) : (0 <= count l)%Z.
Proof. unfold count. lia. Qed.

Lemma num_pages_pos {A : Type} (l : list A) : (1 <= num_pages l)%Z.
Proof.
  pose proof (count_nonneg l) as Hc.
  unfold num_pages, ceil_div, per_page, orphans, allow_empty_first_page.
  rewrite andb_false_r.
  Z.div_mod_to_equations. lia.
Qed.

(** The last page starts inside the list and ends at or after its end. *)
Lemma num_pages_bounds {A : Type} (l : list A) :
  ((num_pages l - 1) * per_page <= count l <= num_pages l * per_page)%Z.
Proof.
  pose proof (count_nonneg l) as Hc.
  unfold num_pages, ceil_div, per_page, orphans, allow_empty_first_page.
  rewrite andb_false_r.
  Z.div_mod_to_equations. lia.
Qed.

Lemma validate_last {A : Type} (l : list A) :
  validate_number l (PageInt (num_pages l)) = Ok (num_pages l).
Proof.
  pose proof (num_pages_pos l) as Hp.
  unfold validate_number.
  destruct (Z.ltb_spec (num_pages l) 1); [lia|].
  destruct (Z.gtb_spec (num_pages l) (num_pages l)); [lia|reflexivity].
Qed.

Lemma page_last {A : Type} (l : list A) :
  page l (PageInt (num_pages l)) = Ok (last_page l).
Proof.
  pose proof (num_pages_bounds l) as Hb.
  pose proof (num_pages_pos l) as Hp.
  unfold page. rewrite validate_last. unfold last_page, slice. f_equal. f_equal.
  unfold orphans in *.
  destruct (Z.geb_spec ((num_pages l - 1) * per_page + per_page + 0) (count l)) as [_|Hlt].
  - apply firstn_all2. rewrite length_skipn. unfold count in *. lia.
  - unfold per_page in *. lia.
Qed.

Lemma get_page_out_of_range {A : Type} (l : list A) (n : Z) :
  (n < 1 \/ num_pages l < n)%Z ->
  get_page l (PageInt n) = Ok (last_page l).
Proof.
  intros Hn. unfold get_page.
  assert (Hv : validate_number l (PageInt n) = Raise EmptyPage).
  { unfold validate_number.
    destruct (Z.ltb_spec n 1); [reflexivity|].
    destruct (Z.gtb_spec n (num_pages l)); [reflexivity|lia]. }
  rewrite Hv. apply page_last.
Qed.

Lemma get_page_in_range {A : Type} (l : list A) (n : Z) :
  (1 <= n <= num_pages l)%Z ->
  get_page l (PageInt n) = page l (PageInt n).
Proof.
  intros Hn. unfold get_page.
  assert (Hv : validate_number l (PageInt n) = Ok n).
  { unfold validate_number.
    destruct (Z.ltb_spec n 1); [lia|].
    destruct (Z.gtb_spec n (num_pages l)); [lia|reflexivity]. }
  now rewrite Hv.
Qed.

Lemma page_first_ok {A : Type} (l : list A) :
  exists p, page l (PageInt 1) = Ok p.
Proof.
  pose proof (num_pages_pos l) as Hp.
  unfold page, validate_number.
  destruct (Z.ltb_spec 1 1); [lia|].
  destruct (Z.gtb_spec 1 (num_pages l)); [lia|]. eexists; reflexivity.
Qed.

(** [get_page] never raises. *)
Lemma get_page_total {A : Type} (l : list A) (arg : page_arg) :
  exists p, get_page l arg = Ok p.
Proof.
  destruct arg as [n|].
  - destruct (Z.ltb_spec n 1) as [Hlt|Hge].
    + eexists. apply get_page_out_of_range. lia.
    + destruct (Z.ltb_spec (num_pages l) n) as [Hgt|Hle].
      * eexists. apply get_page_out_of_range. lia.
      * rewrite get_page_in_range by lia.
        unfold page, validate_number.
        destruct (Z.ltb_spec n 1); [lia|].
        destruct (Z.gtb_spec n (num_pages l)); [lia|]. eexists; reflexivity.
  - unfold get_page. simpl. apply page_first_ok.
Qed.

(** The page of a valid number holds the ten items from its start, or
    what is left of the list. *)
Lemma page_items {A : Type} (l : list A) (n : Z) :
  (1 <= n <= num_pages l)%Z ->
  page l (PageInt n)
  = Ok (mkPage (firstn 10 (skipn (Z.to_nat ((n - 1) * per_page)) l)) n).
Proof.
  intros Hn. pose proof (num_pages_bounds l) as Hb.
  unfold page, validate_number.
  destruct (Z.ltb_spec n 1); [lia|].
  destruct (Z.gtb_spec n (num_pages l)); [lia|].
  unfold slice, orphans. f_equal. f_equal.
  destruct (Z.geb_spec ((n - 1) * per_page + per_page + 0) (count l)) as [Hge|Hlt].
  - rewrite !firstn_all2; [reflexivity| |];
      rewrite length_skipn; unfold count, per_page in *; lia.
  - f_equal. unfold per_page. lia.
Qed.

(** Whatever the page argument, [get_page] answers with the page of a
    valid number. *)
Lemma get_page_valid {A : Type} (l : list A) (arg : page_arg) :
  exists n, (1 <= n <= num_pages l)%Z
            /\ get_page l arg
               = Ok (mkPage (firstn 10 (skipn (Z.to_nat ((n - 1) * per_page)) l)) n).
Proof.
  pose proof (num_pages_pos l) as Hp.
  assert (Hlast : get_page l (PageInt (num_pages l))
                  = page l (PageInt (num_pages l))) by (apply get_page_in_range; lia).
  destruct arg as [n|].
  - destruct (Z.ltb_spec n 1) as [Hlt|Hge].
    + exists (num_pages l). split; [lia|].
      rewrite get_page_out_of_range by lia. rewrite <- page_last. apply page_items. lia.
    + destruct (Z.ltb_spec (num_pages l) n) as [Hgt|Hle].
      * exists (num_pages l). split; [lia|].
        rewrite get_page_out_of_range by lia. rewrite <- page_last. apply page_items. lia.
      * exists n. split; [lia|]. rewrite get_page_in_range by lia. apply page_items. lia.
  - exists 1%Z. split; [lia|]. unfold get_page. cbn [validate_number].
    apply page_items. lia.
Qed.

(** A page shows items of the query set only. *)
Lemma get_page_incl {A : Type} (l : list A) (arg : page_arg) (p : Page A) (x : A) :
  get_page l arg = Ok p -> In x (object_list p) -> In x l.
Proof.
  destruct (get_page_valid l arg) as [n [_ Hg]]. rewrite Hg. intros H. injection H as <-.
  cbn [object_list]. intros Hx. rewrite <- (firstn_skipn (Z.to_nat ((n - 1) * per_page)) l).
  apply in_or_app. right.
  rewrite <- (firstn_skipn 10 (skipn _ l)). apply in_or_app. now left.
Qed.

(** Every item of the query set is on one of its pages. *)
Lemma pages_cover {A : Type} (l : list A) (x : A) :
  In x l ->
  exists n p, (1 <= n <= num_pages l)%Z
              /\ get_page l (PageInt n) = Ok p
              /\ In x (object_list p).
Proof.
  intros Hx. apply In_nth_error in Hx. destruct Hx as [i Hi].
  assert (Hlen : (i < List.length l)%nat).
  { apply nth_error_Some. congruence. }
  pose proof (num_pages_bounds l) as Hb. unfold count, per_page in Hb.
  set (n := (Z.of_nat i / 10 + 1)%Z).
  assert (Hn : (1 <= n <= num_pages l)%Z).
  { unfold n. Z.div_mod_to_equations. lia. }
  exists n. eexists. split; [exact Hn|]. split.
  - rewrite get_page_in_range by exact Hn. apply page_items. exact Hn.
  - cbn [object_list]. apply (nth_error_In _ (Z.to_nat (Z.of_nat i mod 10))).
    rewrite nth_error_firstn, nth_error_skipn.
    assert (Hlt : (Z.to_nat (Z.of_nat i mod 10) <? 10)%nat = true).
    { apply Nat.ltb_lt. Z.div_mod_to_equations. lia. }
    rewrite Hlt. rewrite <- Hi. f_equal.
    unfold n, per_page. Z.div_mod_to_equations. lia.
Qed.

End PaginatorFacts.

(** ** The list views *)

Module ListViewFacts.
Import Models ORM Req Paginator Views Spec PaginatorFacts.

Lemma login_required_authenticated {C : Type} (view : M (Response C)) (w : World) :
  authenticated w -> login_required view w = view w.
Proof.
  unfold authenticated, login_required, bind, current_user. intros Hu.
  destruct (request_user w); [reflexivity|contradiction].
Qed.

Lemma login_required_anonymous {C : Type} (view : M (Response C)) (w : World) :
  request_user w = None -> login_required view w = (Ok (Redirect "login"), w).
Proof.
  unfold login_required, bind, current_user. intros ->. reflexivity.
Qed.

(** A paginated view asked for a page out of range renders the last page
    of its query set. *)
Lemma paginate_out_of_range {A C : Type} (qs : Store -> list A)
    (render : Page A -> Response C) (n : Z) (w : World) :
  authenticated w ->
  (n < 1 \/ num_pages (qs (db w)) < n)%Z ->
  login_required
    (s <- get_db ;;
     p <- lift (get_page (qs s) (PageInt n)) ;;
     ret (render p)) w
  = (Ok (render (last_page (qs (db w)))), w).
Proof.
  intros Hu Hn. rewrite login_required_authenticated by assumption.
  unfold bind, get_db, lift, ret.
  now rewrite get_page_out_of_range.
Qed.

(** A paginated view renders the page that [get_page] picks from its
    query set. *)
Lemma paginate_eq {A C : Type} (qs : Store -> list A)
    (render : Page A -> Response C) (arg : page_arg) (w : World) :
  authenticated w ->
  login_required
    (s <- get_db ;;
     p <- lift (get_page (qs s) arg) ;;
     ret (render p)) w
  = match get_page (qs (db w)) arg with
    | Ok p => (Ok (render p), w)
    | Raise e => (Raise e, w)
    end.
Proof.
  intros Hu. rewrite login_required_authenticated by assumption.
  unfold bind, get_db, lift, ret. destruct (get_page (qs (db w)) arg); reflexivity.
Qed.

End ListViewFacts.

(** ** Text lookups *)

Module PyStrFacts.
Import PyStr.

Lemma iexact_iff (a b : string) : iexact a b = true <-> lower a = lower b.
Proof. unfold iexact. apply String.eqb_eq. Qed.

Lemma truthy_iff (s : string) : truthy s = true <-> s <> "".
Proof. destruct s; simpl; split; congruence. Qed.

Lemma truthy_false_iff (s : string) : truthy s = false <-> s = "".
Proof. destruct s; simpl; split; congruence. Qed.

Lemma prefix_iff (q s : string) :
  String.prefix q s = true <-> exists post, s = q ++ post.
Proof.
  revert q. induction s as [|d s IH]; intros q.
  - destruct q as [|c q]; simpl.
    + split; [intros _; exists ""; reflexivity|reflexivity].
    + split; [discriminate|]. intros [post H]. discriminate H.
  - destruct q as [|c q]; simpl.
    + split; [intros _; exists (String d s); reflexivity|reflexivity].
    + destruct (Ascii.ascii_dec c d) as [->|Hne].
      * rewrite IH. split; intros [post H]; exists post; [now rewrite H|].
        now injection H.
      * split; [discriminate|]. intros [post H]. injection H as H _. congruence.
Qed.

(** [contains] decides occurrence as a substring. *)
Lemma contains_iff (q s : string) : contains q s = true <-> Spec.occurs_in q s.
Proof.
  unfold Spec.occurs_in. induction s as [|d s IH]; cbn [contains].
  - rewrite orb_false_r, prefix_iff. split.
    + intros [post H]. exists "", post. exact H.
    + intros [pre [post H]]. destruct pre; [exists post; exact H|discriminate H].
  - rewrite orb_true_iff, prefix_iff, IH. split.
    + intros [[post H]|[pre [post H]]].
      * exists "", post. exact H.
      * exists (String d pre), post. simpl. now rewrite H.
    + intros [pre [post H]]. destruct pre as [|c pre].
      * left. exists post. exact H.
      * right. simpl in H. injection H as _ H. exists pre, post. exact H.
Qed.

Lemma nat_of_ascii_inj (a b : ascii) : nat_of_ascii a = nat_of_ascii b -> a = b.
Proof.
  intros H. rewrite <- (ascii_nat_embedding a), <- (ascii_nat_embedding b). now rewrite H.
Qed.

Lemma nat_of_ascii_small (a : ascii) : (nat_of_ascii a < 256)%nat.
Proof. apply nat_ascii_bounded. Qed.

(** The folding of the store identifies exactly the two forms of a
    letter A to Z. *)
Lemma same_letter_iff (a b : ascii) :
  Spec.same_letter a b <-> lower_ascii a = lower_ascii b.
Proof.
  unfold Spec.same_letter, lower_ascii.
  pose proof (nat_of_ascii_small a) as Ha. pose proof (nat_of_ascii_small b) as Hb.
  split.
  - intros [->|(i & Hi & [[-> ->]|[-> ->]])]; [reflexivity| |].
    + rewrite !nat_ascii_embedding by lia.
      replace ((65 <=? 65 + i) && (65 + i <=? 90))%nat with true
        by (symmetry; apply andb_true_iff; split; apply Nat.leb_le; lia).
      replace ((65 <=? 97 + i) && (97 + i <=? 90))%nat with false
        by (symmetry; apply andb_false_iff; right; apply Nat.leb_gt; lia).
      f_equal. lia.
    + rewrite !nat_ascii_embedding by lia.
      replace ((65 <=? 65 + i) && (65 + i <=? 90))%nat with true
        by (symmetry; apply andb_true_iff; split; apply Nat.leb_le; lia).
      replace ((65 <=? 97 + i) && (97 + i <=? 90))%nat with false
        by (symmetry; apply andb_false_iff; right; apply Nat.leb_gt; lia).
      f_equal. lia.
  - destruct ((65 <=? nat_of_ascii a) && (nat_of_ascii a <=? 90))%nat eqn:Ea;
      destruct ((65 <=? nat_of_ascii b) && (nat_of_ascii b <=? 90))%nat eqn:Eb;
      intros H.
    + apply andb_true_iff in Ea. destruct Ea as [E1 E2].
      apply Nat.leb_le in E1. apply Nat.leb_le in E2.
      apply andb_true_iff in Eb. destruct Eb as [E3 E4].
      apply Nat.leb_le in E3. apply Nat.leb_le in E4.
      left. apply nat_of_ascii_inj.
      apply (f_equal nat_of_ascii) in H. rewrite !nat_ascii_embedding in H by lia. lia.
    + apply andb_true_iff in Ea. destruct Ea as [E1 E2].
      apply Nat.leb_le in E1. apply Nat.leb_le in E2.
      right. exists (nat_of_ascii a - 65)%nat. split; [lia|]. left. split.
      * replace (65 + (nat_of_ascii a - 65))%nat with (nat_of_ascii a) by lia.
        symmetry. apply ascii_nat_embedding.
      * rewrite <- H. f_equal. lia.
    + apply andb_true_iff in Eb. destruct Eb as [E1 E2].
      apply Nat.leb_le in E1. apply Nat.leb_le in E2.
      right. exists (nat_of_ascii b - 65)%nat. split; [lia|]. right. split.
      * rewrite H. f_equal. lia.
      * replace (65 + (nat_of_ascii b - 65))%nat with (nat_of_ascii b) by lia.
        symmetry. apply ascii_nat_embedding.
    + now left.
Qed.

Lemma same_ignoring_case_iff (a b : string) :
  Spec.same_ignoring_case a b <-> lower a = lower b.
Proof.
  split.
  - induction 1 as [|c d s t Hl _ IH]; [reflexivity|].
    cbn [lower]. apply same_letter_iff in Hl. now rewrite Hl, IH.
  - revert b. induction a as [|c s IH]; intros [|d t] H; cbn [lower] in H;
      try discriminate H; [constructor|].
    injection H as Hl Hr. constructor; [now apply same_letter_iff|now apply IH].
Qed.

Lemma same_ignoring_case_refl (a : string) : Spec.same_ignoring_case a a.
Proof. now apply same_ignoring_case_iff. Qed.

Lemma same_ignoring_case_sym (a b : string) :
  Spec.same_ignoring_case a b -> Spec.same_ignoring_case b a.
Proof. rewrite !same_ignoring_case_iff. congruence. Qed.

Lemma iexact_same (a b : string) : iexact a b = true <-> Spec.same_ignoring_case a b.
Proof. now rewrite iexact_iff, same_ignoring_case_iff. Qed.

Lemma lower_app (a b : string) : lower (a ++ b) = lower a ++ lower b.
Proof. induction a as [|c a IH]; [reflexivity|]. cbn. now rewrite IH. Qed.

Lemma lower_split (s a b : string) :
  lower s = a ++ b -> exists s1 s2, s = s1 ++ s2 /\ lower s1 = a /\ lower s2 = b.
Proof.
  revert s. induction a as [|c a IH]; intros s H.
  - exists "", s. now repeat split.
  - destruct s as [|d s]; [discriminate H|]. cbn in H. injection H as Hc H.
    destruct (IH s H) as (s1 & s2 & -> & H1 & H2).
    exists (String d s1), s2. cbn. now rewrite Hc, H1.
Qed.

(** Occurrence ignoring case is occurrence of the folded query in the
    folded text. *)
Lemma contains_ignoring_case_lower (q s : string) :
  Spec.contains_ignoring_case q s <-> Spec.occurs_in (lower q) (lower s).
Proof.
  unfold Spec.contains_ignoring_case, Spec.occurs_in. split.
  - intros (pre & mid & post & -> & Hsame). apply same_ignoring_case_iff in Hsame.
    exists (lower pre), (lower post). now rewrite !lower_app, Hsame.
  - intros (pre & post & H).
    destruct (lower_split _ _ _ H) as (s1 & r & -> & H1 & H2).
    destruct (lower_split _ _ _ H2) as (s2 & s3 & -> & H3 & H4).
    exists s1, s2, s3. split; [reflexivity|]. now apply same_ignoring_case_iff.
Qed.

Lemma icontains_iff (q s : string) :
  icontains q s = true <-> Spec.contains_ignoring_case q s.
Proof. unfold icontains. now rewrite contains_iff, contains_ignoring_case_lower. Qed.

(** A text contains its own pieces, whatever their case. *)
Lemma contains_piece (q pre mid post : string) :
  lower q = lower mid -> Spec.contains_ignoring_case q (pre ++ mid ++ post).
Proof.
  intros H. exists pre, mid, post. split; [reflexivity|]. now apply same_ignoring_case_iff.
Qed.

End PyStrFacts.

(** ** Form cleaning *)

Module FormsFacts.
Import Models Req Forms Spec.
Local Open Scope list_scope.

Lemma clean_field_errors (name : string) (input : cleaned string)
    (hook : string -> checked string) (f : option string) (m : string) :
  In (f, m) (snd (clean_field name input hook)) -> f = Some name.
Proof.
  unfold clean_field. destruct input as [v|e more].
  - destruct (hook v); simpl; [tauto|]. intros [H|[]]. congruence.
  - cbn [snd]. rewrite in_map_iff. intros [x [H _]]. congruence.
Qed.

Lemma clean_field_valid (name v : string) (hook : string -> checked string) :
  clean_field name (Valid v) hook
  = match hook v with
    | Pass v' => (Some v', [])
    | ValidationError m => (None, [(Some name, m)])
    end.
Proof. reflexivity. Qed.

Lemma clean_field_no_hook (name : string) (input : cleaned string) (v : string) :
  fst (clean_field name input no_hook) = Some v <-> input = Valid v.
Proof.
  unfold clean_field, no_hook. destruct input; simpl; split; congruence.
Qed.

(** The errors of a cleaned form: those of the four fields in order, then
    the error of [clean], if any. *)
Lemma errors_full_clean (hook : string -> checked string)
    (clean : CleanedData -> checked CleanedData) (data : UserData) :
  errors (full_clean hook clean data)
  = (snd (clean_field "username" (in_username data) hook)
     ++ snd (clean_field "email" (in_email data) no_hook)
     ++ snd (clean_field "password" (in_password data) no_hook)
     ++ snd (clean_field "password_confirm" (in_password_confirm data) no_hook))
    ++ match clean (mkCleaned
                 (fst (clean_field "username" (in_username data) hook))
                 (fst (clean_field "email" (in_email data) no_hook))
                 (fst (clean_field "password" (in_password data) no_hook))
                 (fst (clean_field "password_confirm" (in_password_confirm data) no_hook)))
       with
       | Pass _ => []
       | ValidationError msg => [(None, msg)]
       end.
Proof.
  unfold full_clean.
  destruct (clean_field "username" (in_username data) hook) as [u e1].
  destruct (clean_field "email" (in_email data) no_hook) as [m e2].
  destruct (clean_field "password" (in_password data) no_hook) as [p e3].
  destruct (clean_field "password_confirm" (in_password_confirm data) no_hook) as [c e4].
  cbn [fst snd].
  destruct (clean (mkCleaned u m p c)); cbn [errors]; [now rewrite app_nil_r|reflexivity].
Qed.

(** An error recorded under the username comes from the username's round
    of [_clean_fields]. *)
Lemma username_error_iff (hook : string -> checked string)
    (clean : CleanedData -> checked CleanedData) (data : UserData) (m : string) :
  In (Some "username", m) (errors (full_clean hook clean data))
  <-> In (Some "username", m) (snd (clean_field "username" (in_username data) hook)).
Proof.
  rewrite errors_full_clean. rewrite !in_app_iff. split.
  - intros [[H|[H|[H|H]]]|H]; try assumption.
    + apply clean_field_errors in H. discriminate H.
    + apply clean_field_errors in H. discriminate H.
    + apply clean_field_errors in H. discriminate H.
    + destruct clean; simpl in H; [contradiction|].
      destruct H as [H|[]]. discriminate H.
  - intros H. left. left. exact H.
Qed.

(** An error of the form as a whole comes from [clean]. *)
Lemma form_error_iff (hook : string -> checked string)
    (clean : CleanedData -> checked CleanedData) (data : UserData) (m : string) :
  In (None, m) (errors (full_clean hook clean data))
  <-> clean (mkCleaned
        (fst (clean_field "username" (in_username data) hook))
        (fst (clean_field "email" (in_email data) no_hook))
        (fst (clean_field "password" (in_password data) no_hook))
        (fst (clean_field "password_confirm" (in_password_confirm data) no_hook)))
      = ValidationError m.
Proof.
  rewrite errors_full_clean. rewrite !in_app_iff. split.
  - intros [[H|[H|[H|H]]]|H];
      try (apply clean_field_errors in H; discriminate H).
    destruct clean; simpl in H; [contradiction|].
    destruct H as [H|[]]. congruence.
  - intros ->. right. left. reflexivity.
Qed.

Lemma is_valid_false (f : Form) (e : option string * string) :
  In e (errors f) -> is_valid f = false.
Proof. unfold is_valid. destruct (errors f); [contradiction|reflexivity]. Qed.

(** The lookup of [UserForm.clean_username] finds a row exactly when
    another record has the name. *)
Lemma UserForm_clean_username_spec (s : Store) (instance : option User) (name : string) :
  UserForm_clean_username s instance name = ValidationError duplicate_username
  <-> taken_by_another s instance name.
Proof.
  unfold UserForm_clean_username, taken_by_another.
  destruct (existsb _ (users s)) eqn:E.
  - split; [intros _|reflexivity].
    apply existsb_exists in E. destruct E as [u [Hin Hu]].
    apply andb_true_iff in Hu. destruct Hu as [Hname Hid].
    apply PyStrFacts.iexact_iff in Hname.
    exists u. split; [assumption|].
    split; [apply PyStrFacts.same_ignoring_case_iff; congruence|].
    intros i ->. apply negb_true_iff in Hid. apply Z.eqb_neq in Hid. exact Hid.
  - split; [discriminate|]. intros [u [Hin [Hname Hid]]]. exfalso.
    apply PyStrFacts.same_ignoring_case_iff in Hname.
    apply not_true_iff_false in E. apply E. apply existsb_exists.
    exists u. split; [assumption|]. apply andb_true_iff. split.
    + apply PyStrFacts.iexact_iff. congruence.
    + apply negb_true_iff. destruct instance as [i|]; [|reflexivity].
      apply Z.eqb_neq. now apply Hid.
Qed.

Lemma SimpleRegisterForm_clean_username_spec (s : Store) (name : string) :
  SimpleRegisterForm_clean_username s name = ValidationError duplicate_username
  <-> taken_by_another s None name.
Proof.
  unfold SimpleRegisterForm_clean_username, taken_by_another.
  destruct (existsb _ (users s)) eqn:E.
  - split; [intros _|reflexivity].
    apply existsb_exists in E. destruct E as [u [Hin Hname]].
    apply PyStrFacts.iexact_iff in Hname.
    exists u. split; [assumption|].
    split; [apply PyStrFacts.same_ignoring_case_iff; congruence|discriminate].
  - split; [discriminate|]. intros [u [Hin [Hname _]]]. exfalso.
    apply PyStrFacts.same_ignoring_case_iff in Hname.
    apply not_true_iff_false in E. apply E. apply existsb_exists.
    exists u. split; [assumption|]. apply PyStrFacts.iexact_iff. congruence.
Qed.

(** Both hooks raise nothing but the duplicate-username error. *)
Lemma UserForm_clean_username_error (s : Store) (instance : option User) (name m : string) :
  UserForm_clean_username s instance name = ValidationError m -> m = duplicate_username.
Proof. unfold UserForm_clean_username. destruct existsb; congruence. Qed.

Lemma SimpleRegisterForm_clean_username_error (s : Store) (name m : string) :
  SimpleRegisterForm_clean_username s name = ValidationError m -> m = duplicate_username.
Proof. unfold SimpleRegisterForm_clean_username. destruct existsb; congruence. Qed.

Lemma hook_error_iff (hook : string -> checked string) (name m : string) :
  In (Some "username", m) (snd (clean_field "username" (Valid name) hook))
  <-> hook name = ValidationError m.
Proof.
  rewrite clean_field_valid. destruct (hook name); simpl; split.
  - contradiction.
  - discriminate.
  - intros [H|[]]. congruence.
  - intros H. left. congruence.
Qed.

(** [clean] of either form raises exactly when both values are there, not
    empty, and different, and then with the mismatch error. *)
Lemma UserForm_clean_spec (cd : CleanedData) (m : string) :
  UserForm_clean cd = ValidationError m
  <-> m = passwords_mismatch
      /\ exists p c, cd_password cd = Some p /\ cd_password_confirm cd = Some c
                     /\ p <> "" /\ c <> "" /\ p <> c.
Proof.
  unfold UserForm_clean, truthy_opt, differ.
  destruct (cd_password cd) as [p|], (cd_password_confirm cd) as [c|]; cbn.
  - destruct (PyStr.truthy p) eqn:Ep; cbn.
    + destruct (PyStr.truthy c) eqn:Ec; cbn.
      * destruct (String.eqb_spec p c) as [Heq|Hne]; cbn.
        -- split; [discriminate|]. intros (_ & p' & c' & Hp & Hc & _ & _ & Hd).
           congruence.
        -- split.
           ++ intros H. split; [congruence|]. exists p, c.
              apply PyStrFacts.truthy_iff in Ep, Ec. repeat split; assumption.
           ++ intros [-> _]. reflexivity.
      * split; [discriminate|]. intros (_ & p' & c' & Hp & Hc & _ & Hc' & _).
        apply PyStrFacts.truthy_false_iff in Ec. congruence.
    + split; [discriminate|]. intros (_ & p' & c' & Hp & Hc & Hp' & _).
      apply PyStrFacts.truthy_false_iff in Ep. congruence.
  - destruct (PyStr.truthy p); cbn; (split; [discriminate|]);
      intros (_ & p' & c' & _ & Hc & _); discriminate.
  - split; [discriminate|]. intros (_ & p' & c' & Hp & _); discriminate.
  - split; [discriminate|]. intros (_ & p' & c' & Hp & _); discriminate.
Qed.

Lemma SimpleRegisterForm_clean_eq (cd : CleanedData) :
  SimpleRegisterForm_clean cd = UserForm_clean cd.
Proof. reflexivity. Qed.

(** The error the form as a whole can carry is the mismatch error, and it
    is there exactly when the two passwords are supplied and differ. *)
Lemma form_mismatch_iff (hook : string -> checked string) (data : UserData) (m : string) :
  In (None, m) (errors (full_clean hook UserForm_clean data))
  <-> m = passwords_mismatch /\ supplied_and_differ data.
Proof.
  rewrite form_error_iff, UserForm_clean_spec. cbn [cd_password cd_password_confirm].
  unfold supplied_and_differ.
  split; intros (Hm & p & c & Hp & Hc & H); (split; [exact Hm|]); exists p, c.
  - apply clean_field_no_hook in Hp, Hc. now split.
  - split; [now apply clean_field_no_hook|]. split; [now apply clean_field_no_hook|exact H].
Qed.

End FormsFacts.

(** ** The request monad *)

Module ReqFacts.
Import Models Req.

Lemma bind_ok_inv {A B : Type} (m : M A) (k : A -> M B) (w w' : World) (b : B) :
  bind m k w = (Ok b, w') ->
  exists a w1, m w = (Ok a, w1) /\ k a w1 = (Ok b, w').
Proof.
  unfold bind. destruct (m w) as [[a|e] w1]; intros H.
  - exists a, w1. split; [reflexivity|exact H].
  - discriminate H.
Qed.

Lemma bind_ok {A B : Type} (m : M A) (k : A -> M B) (w w1 : World) (a : A) :
  m w = (Ok a, w1) -> bind m k w = k a w1.
Proof. unfold bind. intros ->. reflexivity. Qed.

Lemma bind_raise {A B : Type} (m : M A) (k : A -> M B) (w w1 : World) (e : Exn) :
  m w = (Raise e, w1) -> bind m k w = (Raise e, w1).
Proof. unfold bind. intros ->. reflexivity. Qed.

Lemma store_op_ok_inv {A : Type} (env : Env) (op : DbOp) (m : M A)
    (w w' : World) (a : A) :
  store_op env op m w = (Ok a, w') -> fault env op = None /\ m w = (Ok a, w').
Proof.
  unfold store_op. destruct (fault env op); [discriminate|]. intros H. now split.
Qed.

Lemma store_op_no_fault {A : Type} (env : Env) (op : DbOp) (m : M A) :
  fault env op = None -> store_op env op m = m.
Proof. unfold store_op. intros ->. reflexivity. Qed.

Lemma store_op_fault {A : Type} (env : Env) (op : DbOp) (m : M A) (e : Exn) (w : World) :
  fault env op = Some e -> store_op env op m w = (Raise e, w).
Proof. unfold store_op. intros ->. reflexivity. Qed.

(** A transaction inside [try ... except]: either the body went through
    and its world stands, or it raised and the handler runs on the
    store rolled back to its state on entry. *)
Lemma try_atomic_cases {A : Type} (body : M A) (handler : Exn -> M A) (w : World) :
  (exists a w', body w = (Ok a, w')
                /\ try_except (atomic body) handler w = (Ok a, w'))
  \/ (exists e w', body w = (Raise e, w')
                   /\ try_except (atomic body) handler w
                      = handler e (mkWorld (db w) (messages w') (session w'))).
Proof.
  unfold try_except, atomic. destruct (body w) as [[a|e] w'].
  - left. exists a, w'. now split.
  - right. exists e, w'. now split.
Qed.

Lemma add_message_db (l : Level) (t : string) (w : World) :
  db (snd (add_message l t w)) = db w.
Proof. reflexivity. Qed.

End ReqFacts.

(** ** Writes to the store *)

Module ManagersFacts.
Import Models ORM Req Managers Spec ReqFacts.
Local Open Scope list_scope.

Lemma next_id_above (k : nat) (ids : list Z) (i : Z) : In i ids -> (i < next_id k ids)%Z.
Proof.
  unfold next_id. induction ids as [|j ids IH]; simpl; [contradiction|].
  intros [->|Hin]; [lia|]. specialize (IH Hin). lia.
Qed.

Lemma create_user_ok (env : Env) (name mail raw : string) (w w1 : World) (u : User) :
  create_user env name mail raw w = (Ok u, w1) ->
  fault env OpCreateUser = None
  /\ u = mkUser (next_id (user_keys_skipped env) (map user_id (users (db w)))) (normalize_username env name)
           (normalize_email env mail) (make_password env raw) None (now env)
  /\ w1 = mkWorld (with_users (db w) (users (db w) ++ [u])) (messages w) (session w).
Proof.
  unfold create_user. destruct (negb (PyStr.truthy name)); [discriminate|].
  intros H. apply store_op_ok_inv in H. destruct H as [Hf H]. split; [exact Hf|].
  unfold bind, get_db in H.
  destruct (existsb _ (users (db w))); [discriminate|].
  unfold put_db, ret in H. injection H as Hu Hw. subst u. split; [reflexivity|].
  now subst w1.
Qed.

Lemma get_or_create_profile_ok (env : Env) (u : User) (w w1 : World)
    (p : UserProfile) (created : bool) :
  get_or_create_profile env u w = (Ok (p, created), w1) ->
  fault env OpGetOrCreateProfile = None
  /\ profile_user p = user_id u
  /\ (w1 = w /\ In p (profiles (db w))
      \/ w1 = mkWorld (with_profiles (db w) (profiles (db w) ++ [p]))
                (messages w) (session w)).
Proof.
  unfold get_or_create_profile. intros H.
  apply store_op_ok_inv in H. destruct H as [Hf H]. split; [exact Hf|].
  unfold bind, get_db in H.
  destruct (profiles_of (db w) u) as [|p0 [|p1 rest]] eqn:E.
  - unfold put_db, ret in H. injection H as Hp _ Hw. subst p. split; [reflexivity|].
    right. now subst w1.
  - unfold ret in H. injection H as Hp _ Hw. subst p0 w1.
    assert (Hin : In p (profiles_of (db w) u)) by (rewrite E; left; reflexivity).
    unfold profiles_of in Hin. apply filter_In in Hin. destruct Hin as [Hin Hk].
    apply Z.eqb_eq in Hk. split; [exact Hk|]. left. now split.
  - discriminate H.
Qed.

Lemma save_profile_ok (env : Env) (p : UserProfile) (w w1 : World) :
  save_profile env p w = (Ok tt, w1) ->
  fault env OpProfileSave = None
  /\ users (db w1) = users (db w)
  /\ In p (profiles (db w1))
  /\ (forall q, In q (profiles (db w1)) -> q = p \/ In q (profiles (db w))).
Proof.
  unfold save_profile. intros H.
  apply store_op_ok_inv in H. destruct H as [Hf H]. split; [exact Hf|].
  unfold bind, get_db in H.
  destruct (existsb _ (profiles (db w))) eqn:E;
    unfold put_db in H; injection H as Hw; subst w1; cbn [db users profiles with_profiles].
  - split; [reflexivity|]. split.
    + apply existsb_exists in E. destruct E as [q [Hin Hq]].
      apply in_map_iff. exists q. rewrite Hq. now split.
    + intros q Hq. apply in_map_iff in Hq. destruct Hq as [q0 [Hq0 Hin]].
      destruct (profile_id q0 =? profile_id p)%Z; [left|right]; congruence.
  - split; [reflexivity|]. split.
    + apply in_or_app. right. left. reflexivity.
    + intros q Hq. apply in_app_or in Hq. destruct Hq as [Hq|[Hq|[]]]; auto.
Qed.

Lemma login_ok (env : Env) (u : User) (w w1 : World) :
  login env u w = (Ok tt, w1) ->
  fault env OpLogin = None
  /\ profiles (db w1) = profiles (db w)
  /\ (forall v, In v (users (db w1)) ->
        user_id v = user_id u \/ In v (users (db w)))
  /\ (forall v, In v (users (db w)) ->
        exists v', In v' (users (db w1)) /\ user_id v' = user_id v).
Proof.
  unfold login. intros H. unfold bind at 1 in H. unfold set_session at 1 in H.
  apply store_op_ok_inv in H. destruct H as [Hf H]. split; [exact Hf|].
  unfold bind, get_db, put_db in H. cbn [db messages session] in H.
  injection H as Hw. subst w1. cbn [db users profiles with_users].
  split; [reflexivity|]. split.
  - intros v Hv. apply in_map_iff in Hv. destruct Hv as [v0 [Hv0 Hin]].
    destruct (Z.eqb_spec (user_id v0) (user_id u)) as [Heq|Hne].
    + left. subst v. exact Heq.
    + right. now subst v.
  - intros v Hv.
    eexists. split; [apply in_map; exact Hv|].
    destruct (user_id v =? user_id u)%Z; reflexivity.
Qed.

End ManagersFacts.

(** ** Creating users: [register] and [add_user] *)

Module CreationFacts.
Import Models ORM Req Managers Forms Views Spec ReqFacts ManagersFacts.
Local Open Scope list_scope.

Lemma item_ok_inv (key : string) (v : option string) (w w1 : World) (s : string) :
  item key v w = (Ok s, w1) -> v = Some s /\ w1 = w.
Proof.
  unfold item. destruct v; unfold ret, raise; intros H; [|discriminate].
  injection H as -> ->. now split.
Qed.

Lemma SimpleRegisterForm_save_ok (env : Env) (f : Form) (w w1 : World) (u : User) :
  SimpleRegisterForm_save env f w = (Ok u, w1) ->
  exists name mail raw, create_user env name mail raw w = (Ok u, w1).
Proof.
  unfold SimpleRegisterForm_save. intros H.
  apply bind_ok_inv in H. destruct H as (name & w0 & Hn & H).
  apply item_ok_inv in Hn. destruct Hn as [_ ->].
  apply bind_ok_inv in H. destruct H as (raw & w0 & Hr & H).
  apply item_ok_inv in Hr. destruct Hr as [_ ->].
  eauto.
Qed.

Lemma fresh_user_id (k : nat) (s : Store) :
  ~ In (next_id k (map user_id (users s))) (map user_id (users s)).
Proof. intros H. apply (next_id_above k) in H. lia. Qed.

Lemma register_block_ok (env : Env) (form : Form) (w w' : World)
    (resp : Response (option Form)) :
  register_block env form w = (Ok resp, w') ->
  resp = Redirect "home"
  /\ fault env OpCreateUser = None
  /\ fault env OpGetOrCreateProfile = None
  /\ fault env OpLogin = None
  /\ committed (db w) (db w').
Proof.
  unfold register_block. intros H.
  apply bind_ok_inv in H. destruct H as (u & w1 & Hsave & H).
  apply SimpleRegisterForm_save_ok in Hsave. destruct Hsave as (name & mail & raw & Hc).
  apply create_user_ok in Hc. destruct Hc as (Hf1 & Hu & Hw1).
  apply bind_ok_inv in H. destruct H as ([p created] & w2 & Hg & H).
  apply get_or_create_profile_ok in Hg. destruct Hg as (Hf2 & Hp & Hw2).
  apply bind_ok_inv in H. destruct H as ([] & w3 & Hl & H).
  apply login_ok in Hl. destruct Hl as (Hf3 & Hprof & Husers & Hkept).
  unfold bind, add_message, ret in H. injection H as Hr Hw'.
  split; [now subst resp|]. repeat (split; [assumption|]).
  assert (Hdb : db w' = db w3) by (now subst w').
  assert (Hu2 : users (db w2) = users (db w) ++ [u]).
  { destruct Hw2 as [[-> _]| ->]; subst w1; reflexivity. }
  assert (Hp2 : In p (profiles (db w2))).
  { destruct Hw2 as [[-> Hin]| ->]; [exact Hin|].
    cbn [db profiles with_profiles]. apply in_or_app. right. left. reflexivity. }
  assert (Hpold : forall q, In q (profiles (db w2)) -> q = p \/ In q (profiles (db w))).
  { intros q Hq. destruct Hw2 as [[-> _]| ->]; subst w1.
    - right. exact Hq.
    - cbn [db profiles with_profiles with_users] in Hq.
      apply in_app_or in Hq. destruct Hq as [Hq|[Hq|[]]]; auto. }
  assert (Hid : user_id u = next_id (user_keys_skipped env) (map user_id (users (db w)))) by (now subst u).
  unfold committed. rewrite Hdb. split; [|split].
  - intros v Hv. apply Husers in Hv. destruct Hv as [Hv|Hv].
    + right. exists p. rewrite Hprof. split; [exact Hp2|congruence].
    + rewrite Hu2 in Hv. apply in_app_or in Hv. destruct Hv as [Hv|[Hv|[]]].
      * left. exact Hv.
      * right. exists p. rewrite Hprof. split; [exact Hp2|congruence].
  - intros q Hq. rewrite Hprof in Hq. apply Hpold in Hq. destruct Hq as [->|Hq].
    + right. destruct (Hkept u) as (v' & Hv' & Hidv').
      { rewrite Hu2. apply in_or_app. right. left. reflexivity. }
      exists v'. split; [exact Hv'|congruence].
    + left. exact Hq.
  - destruct (Hkept u) as (v' & Hv' & Hidv').
    { rewrite Hu2. apply in_or_app. right. left. reflexivity. }
    exists v'. split; [exact Hv'|]. split.
    + rewrite Hidv', Hid. apply fresh_user_id.
    + exists p. rewrite Hprof. split; [exact Hp2|congruence].
Qed.

Lemma register_except_db (form : Form) (e : Exn) (w : World) :
  exists resp, fst (register_except form e w) = Ok resp
               /\ resp <> Redirect "home"
               /\ db (snd (register_except form e w)) = db w.
Proof.
  exists (Render "register.html" (Some form)).
  unfold register_except. destruct e; cbn; (split; [reflexivity|split; [discriminate|reflexivity]]).
Qed.

Lemma register_eq (env : Env) (method : Method) (data : UserData) (w : World) :
  register env method data w
  = match request_user w, method with
    | Some _, _ => (Ok (Redirect "home"), w)
    | None, GET => (Ok (Render "register.html" None), w)
    | None, POST =>
        let form := SimpleRegisterForm (db w) data in
        if is_valid form
        then try_except (atomic (register_block env form)) (register_except form) w
        else (Ok (Render "register.html" (Some form)),
              mkWorld (db w)
                (messages w ++ [(Error, "Please correct the errors below."%string)])
                (session w))
    end.
Proof.
  unfold register, bind, current_user.
  destruct (request_user w); [reflexivity|].
  destruct method; [reflexivity|].
  unfold get_db. cbv zeta.
  destruct (is_valid (SimpleRegisterForm (db w) data)); reflexivity.
Qed.

(** [register]: the store is as before the request, or the block went
    through whole. *)
Lemma register_cases (env : Env) (method : Method) (data : UserData) (w : World) :
  let r := register env method data w in
  (exists resp, fst r = Ok resp /\ db (snd r) = db w)
  \/ (fst r = Ok (Redirect "home")
      /\ fault env OpCreateUser = None
      /\ fault env OpGetOrCreateProfile = None
      /\ fault env OpLogin = None
      /\ committed (db w) (db (snd r))).
Proof.
  rewrite register_eq.
  destruct (request_user w).
  { left. eexists. split; reflexivity. }
  destruct method.
  { left. eexists. split; reflexivity. }
  cbv zeta.
  destruct (is_valid (SimpleRegisterForm (db w) data)).
  - destruct (try_atomic_cases (register_block env (SimpleRegisterForm (db w) data))
                (register_except (SimpleRegisterForm (db w) data)) w)
      as [(a & w' & Hb & Hr)|(e & w' & Hb & Hr)]; cbv zeta; rewrite Hr.
    + right. apply register_block_ok in Hb. destruct Hb as (-> & H). exact (conj eq_refl H).
    + left. destruct (register_except_db (SimpleRegisterForm (db w) data) e
                        (mkWorld (db w) (messages w') (session w'))) as (resp & H1 & _ & H2).
      exists resp. split; assumption.
  - left. eexists. split; reflexivity.
Qed.

Lemma add_user_block_ok (env : Env) (uf : Form) (pf : ProfileForm) (w w' : World)
    (resp : Response UserFormContext) :
  add_user_block env uf pf w = (Ok resp, w') ->
  resp = Redirect "user_list"
  /\ fault env OpCreateUser = None
  /\ fault env OpGetOrCreateProfile = None
  /\ fault env OpProfileSave = None
  /\ committed (db w) (db w').
Proof.
  unfold add_user_block. intros H.
  apply bind_ok_inv in H. destruct H as (name & w0 & Hn & H).
  apply item_ok_inv in Hn. destruct Hn as [_ ->].
  apply bind_ok_inv in H. destruct H as (u & w1 & Hc & H).
  apply create_user_ok in Hc. destruct Hc as (Hf1 & Hu & Hw1).
  apply bind_ok_inv in H. destruct H as ([p created] & w2 & Hg & H).
  apply get_or_create_profile_ok in Hg. destruct Hg as (Hf2 & Hp & Hw2).
  apply bind_ok_inv in H. destruct H as ([] & w3 & Hs & H).
  apply save_profile_ok in Hs. destruct Hs as (Hf3 & Husers & Hin' & Hold).
  unfold bind, add_message, ret in H. injection H as Hr Hw'.
  split; [now subst resp|]. repeat (split; [assumption|]).
  assert (Hdb : db w' = db w3) by (now subst w').
  cbn [fst profile_id profile_user] in Hin', Hold.
  set (p' := mkProfile (profile_id p) (profile_user p) _ _ _) in *.
  assert (Hp' : profile_user p' = user_id u) by exact Hp.
  assert (Hu2 : users (db w2) = users (db w) ++ [u]).
  { destruct Hw2 as [[-> _]| ->]; subst w1; reflexivity. }
  assert (Hpold : forall q, In q (profiles (db w2)) -> q = p \/ In q (profiles (db w))).
  { intros q Hq. destruct Hw2 as [[-> _]| ->]; subst w1.
    - right. exact Hq.
    - cbn [db profiles with_profiles with_users] in Hq.
      apply in_app_or in Hq. destruct Hq as [Hq|[Hq|[]]]; auto. }
  assert (Hid : user_id u = next_id (user_keys_skipped env) (map user_id (users (db w)))) by (now subst u).
  assert (Huin : In u (users (db w3))).
  { rewrite Husers, Hu2. apply in_or_app. right. left. reflexivity. }
  unfold committed. rewrite Hdb. split; [|split].
  - intros v Hv. rewrite Husers, Hu2 in Hv.
    apply in_app_or in Hv. destruct Hv as [Hv|[Hv|[]]].
    + left. exact Hv.
    + right. exists p'. split; [exact Hin'|congruence].
  - intros q Hq. apply Hold in Hq. destruct Hq as [->|Hq].
    + right. exists u. split; [exact Huin|congruence].
    + apply Hpold in Hq. destruct Hq as [->|Hq].
      * right. exists u. split; [exact Huin|congruence].
      * left. exact Hq.
  - exists u. split; [exact Huin|]. split.
    + rewrite Hid. apply fresh_user_id.
    + exists p'. split; [exact Hin'|exact Hp'].
Qed.

Lemma report_errors_ok (who : string) (errs : Errors) (w : World) :
  fst (report_errors who errs w) = Ok tt
  /\ db (snd (report_errors who errs w)) = db w.
Proof.
  revert w. induction errs as [|[f e] rest IH]; intros w; [now split|].
  cbn [report_errors]. unfold bind at 1. unfold add_message at 1.
  match goal with |- context [report_errors who rest ?w1] => destruct (IH w1) as [H1 H2] end.
  cbn [db] in H2. now split.
Qed.

Lemma user_form_except_db (doing : string) (page : Response UserFormContext)
    (e : Exn) (w : World) :
  fst (user_form_except doing page e w) = Ok page
  /\ db (snd (user_form_except doing page e w)) = db w.
Proof. unfold user_form_except. destruct e; cbn; now split. Qed.

Lemma add_user_eq (env : Env) (method : Method) (data : UserData)
    (pdata : ProfileData) (w : World) :
  add_user env method data pdata w
  = match request_user w, method with
    | None, _ => (Ok (Redirect "login"), w)
    | Some _, GET =>
        (Ok (Render "user_form.html" (mkUserFormContext None None "Add User")), w)
    | Some _, POST =>
        let user_form := UserForm (db w) None data in
        let profile_form := UserProfileForm pdata in
        let page := Render "user_form.html"
                      (mkUserFormContext (Some user_form) (Some profile_form) "Add User") in
        if is_valid user_form && profile_is_valid profile_form
        then try_except (atomic (add_user_block env user_form profile_form))
               (user_form_except "creating" page) w
        else (report_errors "User" (errors user_form) ;;;
              report_errors "Profile" (pf_errors profile_form) ;;;
              ret page) w
    end.
Proof.
  unfold add_user, login_required. unfold bind at 1. unfold current_user.
  destruct (request_user w); [|reflexivity].
  destruct method; [reflexivity|].
  unfold bind at 1. unfold get_db. cbv zeta.
  destruct (is_valid _ && profile_is_valid _); reflexivity.
Qed.

(** [add_user]: the store is as before the request and the response is
    not the success redirect, or the block went through whole. *)
Lemma add_user_cases (env : Env) (method : Method) (data : UserData)
    (pdata : ProfileData) (w : World) :
  let r := add_user env method data pdata w in
  (exists resp, fst r = Ok resp /\ resp <> Redirect "user_list" /\ db (snd r) = db w)
  \/ (fst r = Ok (Redirect "user_list")
      /\ fault env OpCreateUser = None
      /\ fault env OpGetOrCreateProfile = None
      /\ fault env OpProfileSave = None
      /\ committed (db w) (db (snd r))).
Proof.
  cbv zeta. rewrite add_user_eq.
  destruct (request_user w).
  2:{ left. eexists. split; [reflexivity|]. split; [discriminate|reflexivity]. }
  destruct method.
  { left. eexists. split; [reflexivity|]. split; [discriminate|reflexivity]. }
  cbv zeta.
  set (uf := UserForm (db w) None data). set (pf := UserProfileForm pdata).
  set (page := Render "user_form.html" _).
  destruct (is_valid uf && profile_is_valid pf).
  - destruct (try_atomic_cases (add_user_block env uf pf)
                (user_form_except "creating" page) w)
      as [(a & w' & Hb & Hr)|(e & w' & Hb & Hr)]; rewrite Hr.
    + right. apply add_user_block_ok in Hb. destruct Hb as (-> & H). exact (conj eq_refl H).
    + left. exists page.
      destruct (user_form_except_db "creating" page e
                  (mkWorld (db w) (messages w') (session w'))) as [H1 H2].
      split; [exact H1|]. split; [discriminate|exact H2].
  - left. exists page.
    destruct (report_errors_ok "User" (errors uf) w) as [H1 H2].
    destruct (report_errors "User" (errors uf) w) as [o1 w1] eqn:E1.
    cbn [fst snd] in H1, H2. subst o1.
    destruct (report_errors_ok "Profile" (pf_errors pf) w1) as [H3 H4].
    destruct (report_errors "Profile" (pf_errors pf) w1) as [o2 w2] eqn:E2.
    cbn [fst snd] in H3, H4. subst o2.
    unfold bind. rewrite E1, E2. cbn. split; [reflexivity|].
    split; [discriminate|congruence].
Qed.

End CreationFacts.

(** ** Deleting a user *)

Module DeleteFacts.
Import Models ORM Req Managers Views Spec ReqFacts.
Local Open Scope list_scope.

(** The session's user is the row of the session's key. *)
Lemma request_user_find (w : World) (me : User) :
  request_user w = Some me ->
  find (fun u => (user_id u =? user_id me)%Z) (users (db w)) = Some me.
Proof.
  unfold request_user. destruct (session w) as [i|]; [|discriminate].
  intros H. pose proof (find_some _ _ H) as [_ Hid].
  apply Z.eqb_eq in Hid. rewrite Hid. exact H.
Qed.

Lemma delete_user_eq (env : Env) (pk : Z) (method : Method) (w : World) :
  delete_user env pk method w
  = match request_user w with
    | None => (Ok (Redirect "login"), w)
    | Some me =>
        match find (fun u => (user_id u =? pk)%Z) (users (db w)) with
        | None => (Raise Http404, w)
        | Some user =>
            if (user_id me =? user_id user)%Z then
              (Ok (Redirect "user_list"),
               mkWorld (db w)
                 (messages w
                  ++ [(Error, "You can't delete the currently logged in user."%string)])
                 (session w))
            else
              match method with
              | GET => (Ok (Render "user_confirm_delete.html" user), w)
              | POST =>
                  match fault env OpDelete with
                  | Some e =>
                      (Ok (Redirect "user_list"),
                       mkWorld (db w)
                         (messages w
                          ++ [(Error, ("Error deleting user: " ++ exn_str e)%string)])
                         (session w))
                  | None =>
                      (Ok (Redirect "user_list"),
                       mkWorld
                         (mkStore
                            (filter (fun v => negb (user_id v =? user_id user)%Z)
                               (users (db w)))
                            (filter (fun p => negb (profile_user p =? user_id user)%Z)
                               (profiles (db w)))
                            (authors (db w)) (categories (db w)) (books (db w)))
                         (messages w
                          ++ [(Success, ("User " ++ dq ++ username user ++ dq
                                         ++ " deleted successfully!")%string)])
                         (session w))
                  end
              end
        end
    end.
Proof.
  unfold delete_user, login_required. unfold bind at 1. unfold current_user at 1.
  destruct (request_user w) as [me|] eqn:Hme; [|reflexivity].
  unfold bind at 1. unfold get_user_or_404. unfold bind at 1. unfold get_db at 1.
  destruct (find _ (users (db w))) as [user|]; [|reflexivity].
  unfold ret at 1. unfold bind at 1. unfold current_user. rewrite Hme.
  unfold same_user.
  destruct (user_id me =? user_id user)%Z; [reflexivity|].
  destruct method; [reflexivity|].
  unfold bind at 1. unfold try_except, delete_user_row, store_op.
  destruct (fault env OpDelete); reflexivity.
Qed.

End DeleteFacts.

(** ** Query sets *)

Module QueryFacts.
Import Models ORM.
Local Open Scope list_scope.

(** *** Ordering rearranges and nothing more *)

Lemma insert_desc_perm {A : Type} (key : A -> Z) (x : A) (l : list A) :
  Permutation (insert_desc key x l) (x :: l).
Proof.
  induction l as [|y r IH]; simpl; [reflexivity|].
  destruct (key y <=? key x)%Z; [reflexivity|].
  rewrite IH. apply perm_swap.
Qed.

Lemma order_by_desc_perm {A : Type} (key : A -> Z) (l : list A) :
  Permutation (order_by_desc key l) l.
Proof.
  unfold order_by_desc. induction l as [|x r IH]; simpl; [reflexivity|].
  rewrite insert_desc_perm. now rewrite IH.
Qed.

Lemma order_by_desc_In {A : Type} (key : A -> Z) (l : list A) (x : A) :
  In x (order_by_desc key l) <-> In x l.
Proof.
  split; apply Permutation_in;
    [apply order_by_desc_perm|symmetry; apply order_by_desc_perm].
Qed.

Lemma order_by_desc_NoDup {A B : Type} (key : A -> Z) (f : A -> B) (l : list A) :
  NoDup (map f l) -> NoDup (map f (order_by_desc key l)).
Proof.
  apply Permutation_NoDup. apply Permutation_map. symmetry. apply order_by_desc_perm.
Qed.

(** *** Filtering and slicing keep keys distinct *)

Lemma distinct_keys_filter {K R : Type} (key : R -> K) (keep : R -> bool)
    (rows : list R) (Hkeys : NoDup (map key rows)) :
  NoDup (map key (filter keep rows)).
Proof.
  induction rows as [|x r IH]; simpl; [constructor|].
  simpl in Hkeys. apply NoDup_cons_iff in Hkeys. destruct Hkeys as [Hnin Hr].
  destruct (keep x); simpl; [|now apply IH].
  apply NoDup_cons; [|now apply IH].
  rewrite in_map_iff. intros [y [Hy Hin]].
  apply filter_In in Hin. apply Hnin. apply in_map_iff. exists y. tauto.
Qed.

Lemma NoDup_firstn {A : Type} (n : nat) (l : list A) : NoDup l -> NoDup (firstn n l).
Proof.
  intros H. rewrite <- (firstn_skipn n l) in H. now apply NoDup_app_remove_r in H.
Qed.

Lemma In_firstn {A : Type} (n : nat) (l : list A) (x : A) : In x (firstn n l) -> In x l.
Proof.
  intros H. rewrite <- (firstn_skipn n l). apply in_or_app. now left.
Qed.

(** *** [distinct] *)

Section Distinct.
Context {A : Type} (eq_dec : forall a b : A, {a = b} + {a <> b}).

Lemma distinct_In (l : list A) (x : A) : In x (distinct eq_dec l) <-> In x l.
Proof.
  induction l as [|y r IH]; simpl; [tauto|].
  rewrite filter_In, IH. destruct (eq_dec y x) as [->|Hne]; [tauto|].
  split; [tauto|]. intros [H|H]; [contradiction|]. right. now split.
Qed.

Lemma distinct_NoDup (l : list A) : NoDup (distinct eq_dec l).
Proof.
  induction l as [|y r IH]; simpl; [constructor|].
  constructor.
  - rewrite filter_In. intros [_ H]. destruct (eq_dec y y); [discriminate|contradiction].
  - now apply NoDup_filter.
Qed.

Lemma distinct_id (l : list A) : NoDup l -> distinct eq_dec l = l.
Proof.
  induction l as [|y r IH]; simpl; [reflexivity|].
  intros H. inversion H as [|? ? Hnin Hr]; subst. rewrite (IH Hr). f_equal.
  apply forallb_filter_id. apply forallb_forall. intros z Hz.
  destruct (eq_dec y z) as [->|_]; [contradiction|reflexivity].
Qed.

End Distinct.

(** *** The joins *)

Lemma filter_none {A : Type} (p : A -> bool) (l : list A) :
  (forall x, In x l -> p x = false) -> filter p l = [].
Proof.
  induction l as [|y r IH]; simpl; [reflexivity|]. intros H.
  rewrite (H y (or_introl eq_refl)). apply IH. intros x Hx. apply H. now right.
Qed.

(** With distinct keys at most one row carries a given key. *)
Lemma filter_key {A : Type} (key : A -> Z) (k : Z) (l : list A) :
  NoDup (map key l) ->
  filter (fun x => (key x =? k)%Z) l
  = match find (fun x => (key x =? k)%Z) l with
    | Some x => [x]
    | None => []
    end.
Proof.
  induction l as [|y r IH]; simpl; [reflexivity|].
  intros H. inversion H as [|? ? Hnin Hr]; subst.
  destruct (Z.eqb_spec (key y) k) as [Heq|Hne]; [|now apply IH].
  f_equal. rewrite <- Heq. apply filter_none.
  intros z Hz. apply Z.eqb_neq. intros Hk. apply Hnin.
  apply in_map_iff. exists z. now split.
Qed.

Lemma in_user_rows (db : Store) (us : list User) (row : User * option UserProfile) :
  In row (user_rows db us)
  <-> In (fst row) us
      /\ match snd row with
         | Some p => In p (profiles db) /\ profile_user p = user_id (fst row)
         | None => forall p, In p (profiles db) -> profile_user p <> user_id (fst row)
         end.
Proof.
  unfold user_rows. rewrite in_flat_map. destruct row as [u o]. cbn [fst snd].
  split.
  - intros [v [Hv Hrow]]. unfold join_profile in Hrow.
    destruct (profiles_of db v) as [|p0 ps] eqn:E.
    + destruct Hrow as [Hrow|[]]. injection Hrow as -> <-. split; [exact Hv|].
      intros p Hp Hk.
      assert (Hin : In p (profiles_of db u)).
      { unfold profiles_of. apply filter_In. split; [exact Hp|now apply Z.eqb_eq]. }
      rewrite E in Hin. exact Hin.
    + rewrite <- E in Hrow. apply in_map_iff in Hrow. destruct Hrow as [p [Hrow Hp]].
      injection Hrow as -> <-. split; [exact Hv|].
      unfold profiles_of in Hp. apply filter_In in Hp. destruct Hp as [Hp Hk].
      apply Z.eqb_eq in Hk. now split.
  - intros [Hu Ho]. exists u. split; [exact Hu|]. unfold join_profile.
    destruct o as [p|].
    + destruct Ho as [Hp Hk].
      assert (Hin : In p (profiles_of db u)).
      { unfold profiles_of. apply filter_In. split; [exact Hp|now apply Z.eqb_eq]. }
      destruct (profiles_of db u) as [|p0 ps] eqn:E; [contradiction|].
      rewrite <- E. apply in_map_iff. exists p. rewrite E. now split.
    + destruct (profiles_of db u) as [|p0 ps] eqn:E; [left; reflexivity|].
      exfalso. assert (Hin : In p0 (profiles_of db u)) by (rewrite E; left; reflexivity).
      unfold profiles_of in Hin. apply filter_In in Hin. destruct Hin as [Hp Hk].
      apply Z.eqb_eq in Hk. exact (Ho p0 Hp Hk).
Qed.

(** With one profile per user at most, the join has one row per user. *)
Lemma user_rows_one_per_user (db : Store) (us : list User) :
  NoDup (map profile_user (profiles db)) ->
  map fst (user_rows db us) = us.
Proof.
  intros Hnd. unfold user_rows. induction us as [|u r IH]; simpl; [reflexivity|].
  rewrite map_app, IH. unfold join_profile, profiles_of.
  rewrite (filter_key profile_user (user_id u) (profiles db) Hnd).
  destruct (find _ (profiles db)); reflexivity.
Qed.

Lemma map_fst_filter_NoDup {A B : Type} (key : A -> Z) (p : A * B -> bool)
    (rows : list (A * B)) :
  NoDup (map key (map fst rows)) -> NoDup (map key (map fst (filter p rows))).
Proof.
  rewrite !map_map. apply distinct_keys_filter.
Qed.

End QueryFacts.

(** ** Search *)

Module SearchFacts.
Import Models ORM Req Views Spec QueryFacts.
Local Open Scope list_scope.

Lemma on_profile_iff (f : UserProfile -> bool) (row : User * option UserProfile) :
  on_profile f row = true <-> exists p, snd row = Some p /\ f p = true.
Proof.
  unfold on_profile. destruct (snd row) as [p|].
  - split; [intros H; exists p; now split|]. intros [p' [Hp H]]. congruence.
  - split; [discriminate|]. intros [p' [Hp _]]. discriminate Hp.
Qed.

(** Every user of the list has a row in the join. *)
Lemma user_has_row (db : Store) (us : list User) (u : User) :
  In u us -> exists o, In (u, o) (user_rows db us).
Proof.
  intros Hu. unfold user_rows.
  destruct (profiles_of db u) as [|p ps] eqn:E.
  - exists None. apply in_flat_map. exists u. split; [exact Hu|].
    unfold join_profile. rewrite E. left. reflexivity.
  - exists (Some p). apply in_flat_map. exists u. split; [exact Hu|].
    unfold join_profile. rewrite E. left. reflexivity.
Qed.

Lemma user_all_fields_In (s : Store) (q : string) (us : list User) (u : User) :
  In u (map fst (filter (Q_user_all_fields q) (user_rows s us)))
  <-> In u us /\ user_matches_all_fields s q u.
Proof.
  rewrite in_map_iff. unfold user_matches_all_fields. split.
  - intros [[v o] [Hfst Hrow]]. cbn [fst] in Hfst. subst v.
    apply filter_In in Hrow. destruct Hrow as [Hrow HQ].
    apply in_user_rows in Hrow. cbn [fst snd] in Hrow. destruct Hrow as [Hu Ho].
    split; [exact Hu|].
    unfold Q_user_all_fields in HQ. rewrite !orb_true_iff in HQ. cbn [fst] in HQ.
    destruct HQ as [[[H|H]|H]|H].
    + left. now apply PyStrFacts.icontains_iff.
    + right. left. now apply PyStrFacts.icontains_iff.
    + apply on_profile_iff in H. destruct H as [p [Hp H]]. cbn [snd] in Hp. subst o.
      right. right. exists p. destruct Ho as [Hin Hk].
      repeat split; try assumption. left. now apply PyStrFacts.icontains_iff.
    + apply on_profile_iff in H. destruct H as [p [Hp H]]. cbn [snd] in Hp. subst o.
      right. right. exists p. destruct Ho as [Hin Hk].
      repeat split; try assumption. right. now apply PyStrFacts.icontains_iff.
  - intros [Hu Hm]. destruct Hm as [H|[H|[p [Hp [Hk H]]]]].
    + destruct (user_has_row s us u Hu) as [o Ho]. exists (u, o).
      split; [reflexivity|]. apply filter_In. split; [exact Ho|].
      unfold Q_user_all_fields. cbn [fst]. apply PyStrFacts.icontains_iff in H.
      now rewrite H.
    + destruct (user_has_row s us u Hu) as [o Ho]. exists (u, o).
      split; [reflexivity|]. apply filter_In. split; [exact Ho|].
      unfold Q_user_all_fields. cbn [fst]. apply PyStrFacts.icontains_iff in H.
      rewrite H. now rewrite orb_true_r.
    + exists (u, Some p). split; [reflexivity|]. apply filter_In. split.
      * apply in_user_rows. cbn [fst snd]. now repeat split.
      * unfold Q_user_all_fields, on_profile. cbn [fst snd].
        destruct H as [H|H]; apply PyStrFacts.icontains_iff in H; rewrite H;
          now rewrite ?orb_true_r.
Qed.

Lemma user_global_In (s : Store) (q : string) (us : list User) (u : User) :
  In u (map fst (filter (Q_search_users q) (user_rows s us)))
  <-> In u us /\ user_matches_global s q u.
Proof.
  rewrite in_map_iff. unfold user_matches_global. split.
  - intros [[v o] [Hfst Hrow]]. cbn [fst] in Hfst. subst v.
    apply filter_In in Hrow. destruct Hrow as [Hrow HQ].
    apply in_user_rows in Hrow. cbn [fst snd] in Hrow. destruct Hrow as [Hu Ho].
    split; [exact Hu|].
    unfold Q_search_users in HQ. rewrite !orb_true_iff in HQ. cbn [fst] in HQ.
    destruct HQ as [[H|H]|H].
    + left. now apply PyStrFacts.icontains_iff.
    + right. left. now apply PyStrFacts.icontains_iff.
    + apply on_profile_iff in H. destruct H as [p [Hp H]]. cbn [snd] in Hp. subst o.
      right. right. exists p. destruct Ho as [Hin Hk].
      repeat split; try assumption. now apply PyStrFacts.icontains_iff.
  - intros [Hu Hm]. destruct Hm as [H|[H|[p [Hp [Hk H]]]]].
    + destruct (user_has_row s us u Hu) as [o Ho]. exists (u, o).
      split; [reflexivity|]. apply filter_In. split; [exact Ho|].
      unfold Q_search_users. cbn [fst]. apply PyStrFacts.icontains_iff in H.
      now rewrite H.
    + destruct (user_has_row s us u Hu) as [o Ho]. exists (u, o).
      split; [reflexivity|]. apply filter_In. split; [exact Ho|].
      unfold Q_search_users. cbn [fst]. apply PyStrFacts.icontains_iff in H.
      rewrite H. now rewrite orb_true_r.
    + exists (u, Some p). split; [reflexivity|]. apply filter_In. split.
      * apply in_user_rows. cbn [fst snd]. now repeat split.
      * unfold Q_search_users, on_profile. cbn [fst snd].
        apply PyStrFacts.icontains_iff in H. rewrite H. now rewrite ?orb_true_r.
Qed.

Lemma in_book_rows (s : Store) (bs : list Book) (b : Book) (a : Author) (c : Category) :
  In (b, a, c) (book_rows s bs)
  <-> In b bs
      /\ In a (authors s) /\ author_id a = book_author b
      /\ In c (categories s) /\ category_id c = book_category b.
Proof.
  unfold book_rows, join_book, authors_of, categories_of.
  rewrite in_flat_map. split.
  - intros [b' [Hb H]]. apply in_flat_map in H. destruct H as [a' [Ha H]].
    apply in_map_iff in H. destruct H as [c' [Heq Hc]]. injection Heq as -> -> ->.
    apply filter_In in Ha, Hc. destruct Ha as [Ha Hak], Hc as [Hc Hck].
    apply Z.eqb_eq in Hak, Hck. tauto.
  - intros (Hb & Ha & Hak & Hc & Hck). exists b. split; [exact Hb|].
    apply in_flat_map. exists a. split.
    + apply filter_In. split; [exact Ha|now apply Z.eqb_eq].
    + apply in_map_iff. exists c. split; [reflexivity|].
      apply filter_In. split; [exact Hc|now apply Z.eqb_eq].
Qed.

Lemma book_all_fields_In (s : Store) (q : string) (bs : list Book) (b : Book) :
  In b (map book_of (filter (Q_book_all_fields q) (book_rows s bs)))
  <-> In b bs /\ book_matches_all_fields s q b.
Proof.
  rewrite in_map_iff. unfold book_matches_all_fields. split.
  - intros [[[b' a] c] [Hb Hrow]]. unfold book_of in Hb. cbn [fst] in Hb. subst b'.
    apply filter_In in Hrow. destruct Hrow as [Hrow HQ].
    apply in_book_rows in Hrow. destruct Hrow as (Hb & Ha & Hak & Hc & Hck).
    split; [exact Hb|]. exists a, c. repeat (split; [assumption|]).
    unfold Q_book_all_fields, book_of, author_of, category_of in HQ.
    cbn [fst snd] in HQ. rewrite !orb_true_iff in HQ.
    rewrite !PyStrFacts.icontains_iff in HQ. tauto.
  - intros [Hb (a & c & Ha & Hak & Hc & Hck & H)].
    exists (b, a, c). split; [reflexivity|]. apply filter_In. split.
    + apply in_book_rows. tauto.
    + unfold Q_book_all_fields, book_of, author_of, category_of.
      cbn [fst snd]. rewrite !orb_true_iff. rewrite !PyStrFacts.icontains_iff. tauto.
Qed.

Lemma user_search_qs_all_In (s : Store) (query f : string) (u : User) :
  query <> ""%string ->
  f <> "username"%string -> f <> "email"%string -> f <> "address"%string ->
  In u (user_search_qs s query f)
  <-> In u (users s) /\ user_matches_all_fields s query u.
Proof.
  intros Hq H1 H2 H3. unfold user_search_qs.
  apply PyStrFacts.truthy_iff in Hq. rewrite Hq.
  apply String.eqb_neq in H1, H2, H3. rewrite H1, H2, H3.
  rewrite user_all_fields_In, order_by_desc_In. reflexivity.
Qed.

Lemma user_search_qs_username_In (s : Store) (query : string) (u : User) :
  query <> ""%string ->
  In u (user_search_qs s query "username")
  <-> In u (users s) /\ contains_ignoring_case query (username u).
Proof.
  intros Hq. unfold user_search_qs.
  apply PyStrFacts.truthy_iff in Hq. rewrite Hq. cbn [String.eqb Ascii.eqb Bool.eqb].
  cbn. rewrite filter_In, order_by_desc_In, PyStrFacts.icontains_iff. reflexivity.
Qed.

(** With distinct user keys and one profile per user at most, no search
    lists a user twice. *)
Lemma user_search_qs_NoDup (s : Store) (query f : string) :
  wf_store s -> NoDup (map user_id (user_search_qs s query f)).
Proof.
  intros (Hu & Hp & _).
  assert (Ho : NoDup (map user_id (order_by_desc date_joined (users s))))
    by now apply order_by_desc_NoDup.
  assert (Hrows : forall p, NoDup (map user_id (map fst
             (filter p (user_rows s (order_by_desc date_joined (users s))))))).
  { intros p. apply map_fst_filter_NoDup. now rewrite user_rows_one_per_user. }
  unfold user_search_qs. destruct (PyStr.truthy query); [|exact Ho].
  destruct (String.eqb f "username"); [now apply distinct_keys_filter|].
  destruct (String.eqb f "email"); [now apply distinct_keys_filter|].
  destruct (String.eqb f "address"); apply Hrows.
Qed.

Lemma book_search_qs_all_In (s : Store) (query f : string) (b : Book) :
  query <> ""%string ->
  f <> "title"%string -> f <> "author"%string -> f <> "category"%string ->
  In b (book_search_qs s query f)
  <-> In b (books s) /\ book_matches_all_fields s query b.
Proof.
  intros Hq H1 H2 H3. unfold book_search_qs, books_qs.
  apply PyStrFacts.truthy_iff in Hq. rewrite Hq.
  apply String.eqb_neq in H1, H2, H3. rewrite H1, H2, H3.
  rewrite book_all_fields_In, order_by_desc_In. reflexivity.
Qed.

(** A filter outside the recognised ones selects the branch of all. *)
Lemma user_search_qs_other (s : Store) (query f : string) :
  f <> "username"%string -> f <> "email"%string -> f <> "address"%string ->
  user_search_qs s query f = user_search_qs s query "all".
Proof.
  intros H1 H2 H3. unfold user_search_qs.
  apply String.eqb_neq in H1, H2, H3. rewrite H1, H2, H3. reflexivity.
Qed.

Lemma book_search_qs_other (s : Store) (query f : string) :
  f <> "title"%string -> f <> "author"%string -> f <> "category"%string ->
  book_search_qs s query f = book_search_qs s query "all".
Proof.
  intros H1 H2 H3. unfold book_search_qs.
  apply String.eqb_neq in H1, H2, H3. rewrite H1, H2, H3. reflexivity.
Qed.

(** [distinct] then [[:10]] is a capped preview of what the list holds. *)
Lemma limit10_distinct_preview {A : Type} (eq_dec : forall a b : A, {a = b} + {a <> b})
    (matches : A -> Prop) (l : list A) :
  (forall x, In x l <-> matches x) ->
  capped_preview matches (limit10 (distinct eq_dec l))
  /\ (List.length (limit10 (distinct eq_dec l)) <= 10)%nat
  /\ NoDup (limit10 (distinct eq_dec l)).
Proof.
  intros H. split; [|split].
  - exists (distinct eq_dec l). split; [apply distinct_NoDup|]. split; [|reflexivity].
    intros x. rewrite distinct_In. apply H.
  - unfold limit10. apply firstn_le_length.
  - unfold limit10. apply NoDup_firstn. apply distinct_NoDup.
Qed.

End SearchFacts.

(** ** Editing a user *)

Module EditFacts.
Import Models ORM Req Managers Forms Views Spec ReqFacts.
Local Open Scope list_scope.

(** With one profile per user at most and a store that answers,
    [get_or_create] returns a profile and leaves the users alone. *)
Lemma get_or_create_profile_run (env : Env) (u : User) (w : World) :
  fault env OpGetOrCreateProfile = None ->
  NoDup (map profile_user (profiles (db w))) ->
  exists p created w1,
    get_or_create_profile env u w = (Ok (p, created), w1)
    /\ users (db w1) = users (db w).
Proof.
  intros Hf Hnd. unfold get_or_create_profile. rewrite store_op_no_fault by exact Hf.
  unfold bind, get_db, profiles_of.
  rewrite (QueryFacts.filter_key profile_user (user_id u) (profiles (db w)) Hnd).
  destruct (find _ (profiles (db w))) as [p|].
  - exists p, false, w. now split.
  - eexists _, true, _. split; reflexivity.
Qed.

Lemma find_replace (pk : Z) (u : User) (l : list User) (x : User) :
  find (fun v => (user_id v =? pk)%Z) l = Some x ->
  user_id u = pk ->
  find (fun v => (user_id v =? pk)%Z)
       (map (fun v => if (user_id v =? user_id u)%Z then u else v) l) = Some u.
Proof.
  intros Hfind Hu. rewrite Hu. induction l as [|y r IH]; simpl in *; [discriminate|].
  destruct (Z.eqb_spec (user_id y) pk) as [Hy|Hy].
  - rewrite Hu, Z.eqb_refl. reflexivity.
  - destruct (Z.eqb_spec (user_id y) pk); [contradiction|]. now apply IH.
Qed.

(** [user.save()] goes through when the store answers, the row exists and
    no other row has the username. *)
Lemma save_user_run (env : Env) (u x : User) (w : World) :
  fault env OpUserSave = None ->
  find (fun v => (user_id v =? user_id u)%Z) (users (db w)) = Some x ->
  (forall v, In v (users (db w)) -> username v = username u -> user_id v = user_id u) ->
  save_user env u w
  = (Ok tt,
     mkWorld (with_users (db w)
                (map (fun v => if (user_id v =? user_id u)%Z then u else v) (users (db w))))
       (messages w) (session w)).
Proof.
  intros Hf Hfind Huniq. unfold save_user. rewrite store_op_no_fault by exact Hf.
  unfold bind, get_db.
  assert (E1 : existsb (fun v => String.eqb (username v) (username u)
                                 && negb (user_id v =? user_id u)%Z) (users (db w)) = false).
  { apply not_true_iff_false. intros H. apply existsb_exists in H.
    destruct H as [v [Hin Hv]]. apply andb_true_iff in Hv. destruct Hv as [Hn Hi].
    apply String.eqb_eq in Hn. apply negb_true_iff in Hi. apply Z.eqb_neq in Hi.
    apply Hi. now apply Huniq. }
  assert (E2 : existsb (fun v => (user_id v =? user_id u)%Z) (users (db w)) = true).
  { apply existsb_exists. exists x. apply find_some in Hfind. exact Hfind. }
  rewrite E1, E2. reflexivity.
Qed.

Lemma save_profile_run (env : Env) (p : UserProfile) (w : World) :
  fault env OpProfileSave = None ->
  exists w', save_profile env p w = (Ok tt, w')
             /\ users (db w') = users (db w).
Proof.
  intros Hf. unfold save_profile. rewrite store_op_no_fault by exact Hf.
  unfold bind, get_db. destruct (existsb _ (profiles (db w)));
    eexists; split; reflexivity.
Qed.

(** The username hook looks at the users of the store only. *)
Lemma UserForm_users_only (s s' : Store) (instance : option User) (data : UserData) :
  users s' = users s -> UserForm s' instance data = UserForm s instance data.
Proof.
  intros H. unfold UserForm, UserForm_clean_username. now rewrite H.
Qed.

(** A submission with a free username, a valid email, a password and an
    empty confirmation cleans without error. *)
Lemma UserForm_password_only (s : Store) (instance : option User) (data : UserData)
    (name mail raw : string) :
  in_username data = Valid name ->
  ~ taken_by_another s instance name ->
  in_email data = Valid mail ->
  in_password data = Valid raw ->
  in_password_confirm data = Valid ""%string ->
  UserForm s instance data
  = mkForm (mkCleaned (Some name) (Some mail) (Some raw) (Some ""%string)) [].
Proof.
  intros Hn Hfree Hm Hp Hc. unfold UserForm, full_clean.
  rewrite Hn, Hm, Hp, Hc. cbn [clean_field no_hook].
  destruct (UserForm_clean_username s instance name) as [v|m] eqn:E.
  - assert (v = name).
    { unfold UserForm_clean_username in E. destruct existsb; congruence. }
    subst v. unfold UserForm_clean. cbn [cd_password cd_password_confirm truthy_opt].
    cbn [PyStr.truthy]. rewrite andb_false_r. reflexivity.
  - exfalso. apply Hfree. apply FormsFacts.UserForm_clean_username_spec.
    rewrite E. f_equal. eapply FormsFacts.UserForm_clean_username_error. exact E.
Qed.

Lemma bind_get_db {A : Type} (k : Store -> M A) (w : World) :
  bind get_db k w = k (db w) w.
Proof. reflexivity. Qed.

(** The transaction block of [edit_user] on a clean submission that
    carries a password. *)
Lemma edit_user_block_run (env : Env) (user : User) (profile : UserProfile)
    (pf : ProfileForm) (name mail raw : string) (w : World) :
  (forall op, fault env op = None) ->
  In user (users (db w)) ->
  find (fun v => (user_id v =? user_id user)%Z) (users (db w)) = Some user ->
  ~ taken_by_another (db w) (Some user) name ->
  raw <> ""%string ->
  profile_is_valid pf = true ->
  exists w',
    edit_user_block env user profile
      (mkForm (mkCleaned (Some name) (Some mail) (Some raw) (Some ""%string)) []) pf w
    = (Ok (Redirect "user_list"), w')
    /\ find (fun v => (user_id v =? user_id user)%Z) (users (db w'))
       = Some (mkUser (user_id user) name mail (make_password env raw)
                 (last_login user) (date_joined user)).
Proof.
  intros Hf Hin Hfind Hfree Hraw Hpf.
  unfold edit_user_block. cbn [cleaned_data cd_username item].
  rewrite (bind_ok _ _ w w name eq_refl).
  unfold edited_user. cbn [cleaned_data cd_email cd_password get_or_empty].
  apply PyStrFacts.truthy_iff in Hraw. rewrite Hraw. unfold set_password.
  cbn [user_id username email last_login date_joined].
  set (u2 := mkUser (user_id user) name mail (make_password env raw)
               (last_login user) (date_joined user)).
  assert (Hsave : save_user env u2 w
                  = (Ok tt, mkWorld (with_users (db w)
                       (map (fun v => if (user_id v =? user_id u2)%Z then u2 else v)
                          (users (db w)))) (messages w) (session w))).
  { apply (save_user_run env u2 user w (Hf OpUserSave)); [exact Hfind|].
    intros v Hv Hname. cbn [u2 username user_id] in *.
    destruct (Z.eq_dec (user_id v) (user_id user)) as [Heq|Hne]; [exact Heq|].
    exfalso. apply Hfree. exists v. split; [exact Hv|]. split.
    - apply PyStrFacts.same_ignoring_case_iff. now rewrite Hname.
    - intros i Hi. injection Hi as <-. exact Hne. }
  rewrite (bind_ok _ _ _ _ tt Hsave).
  unfold UserProfileForm_save. rewrite Hpf.
  match goal with |- context [bind (save_profile env ?p) _ ?w1] =>
    destruct (save_profile_run env p w1 (Hf OpProfileSave)) as (w3 & Hprof & Husers)
  end.
  rewrite (bind_ok _ _ _ _ tt Hprof).
  eexists. split; [reflexivity|].
  cbn [snd db users add_message]. rewrite Husers. cbn [db users with_users].
  apply (find_replace (user_id user) u2 (users (db w)) user Hfind). reflexivity.
Qed.

Lemma edit_user_sets_password (env : Env) (pk : Z) (data : UserData)
    (pdata : ProfileData) (w : World) (user : User) (name mail raw : string) :
  authenticated w ->
  NoDup (map profile_user (profiles (db w))) ->
  find (fun u => (user_id u =? pk)%Z) (users (db w)) = Some user ->
  in_username data = Valid name ->
  ~ taken_by_another (db w) (Some user) name ->
  in_email data = Valid mail ->
  in_password data = Valid raw ->
  raw <> ""%string ->
  in_password_confirm data = Valid ""%string ->
  profile_is_valid (UserProfileForm pdata) = true ->
  (forall op, fault env op = None) ->
  exists w',
    edit_user env pk POST data pdata w = (Ok (Redirect "user_list"), w')
    /\ find (fun u => (user_id u =? pk)%Z) (users (db w'))
       = Some (mkUser pk name mail (make_password env raw)
                 (last_login user) (date_joined user)).
Proof.
  intros Hu Hnd Hfind Hn Hfree Hm Hp Hraw Hc Hpf Hf.
  pose proof (find_some _ _ Hfind) as [Hin Hpk]. apply Z.eqb_eq in Hpk. subst pk.
  unfold edit_user. rewrite ListViewFacts.login_required_authenticated by exact Hu.
  assert (Hget : get_user_or_404 (user_id user) w = (Ok user, w)).
  { unfold get_user_or_404. rewrite bind_get_db, Hfind. reflexivity. }
  rewrite (bind_ok _ _ _ _ _ Hget).
  destruct (get_or_create_profile_run env user w (Hf OpGetOrCreateProfile) Hnd)
    as (p & created & w1 & Hgoc & Husers).
  assert (Hprof : get_user_profile_or_create env user w = (Ok p, w1)).
  { unfold get_user_profile_or_create. now rewrite (bind_ok _ _ _ _ _ Hgoc). }
  rewrite (bind_ok _ _ _ _ _ Hprof). rewrite bind_get_db. cbv zeta.
  assert (Hfree1 : ~ taken_by_another (db w1) (Some user) name).
  { unfold taken_by_another. now rewrite Husers. }
  rewrite (UserForm_password_only (db w1) (Some user) data name mail raw
             Hn Hfree1 Hm Hp Hc).
  rewrite Hpf. cbn [is_valid errors andb].
  destruct (edit_user_block_run env user p (UserProfileForm pdata) name mail raw w1 Hf)
    as (w' & Hblock & Hfound); try assumption.
  - now rewrite Husers.
  - now rewrite Husers.
  - exists w'. split; [|exact Hfound].
    unfold try_except, atomic. now rewrite Hblock.
Qed.

End EditFacts.

(** ** Pages, continued *)

Module PageFacts.
Import Req Paginator Props PaginatorFacts.
Local Open Scope list_scope.

Lemma firstn_add {A : Type} (a b : nat) (l : list A) :
  firstn (a + b) l = firstn a l ++ firstn b (skipn a l).
Proof.
  revert l. induction a as [|a IH]; intros l; [reflexivity|].
  destruct l as [|x l]; simpl.
  - now rewrite firstn_nil.
  - now rewrite IH.
Qed.

(** The first [m] chunks of [k] items, one after the other, are the first
    [m * k] items. *)
Lemma chunks_concat {A : Type} (k m : nat) (l : list A) :
  List.concat (map (fun i => firstn k (skipn (i * k) l)) (seq 0 m)) = firstn (m * k) l.
Proof.
  induction m as [|m IH]; [reflexivity|].
  rewrite seq_S, map_app, concat_app, IH. cbn [map List.concat Nat.add].
  rewrite app_nil_r. rewrite <- firstn_add. f_equal.
  symmetry. apply Nat.mul_succ_l.
Qed.

Lemma page_of_index {A : Type} (l : list A) (i : nat) :
  (i < Z.to_nat (num_pages l))%nat ->
  page l (PageInt (Z.of_nat i + 1))
  = Ok (mkPage (firstn 10 (skipn (i * 10) l)) (Z.of_nat i + 1)).
Proof.
  intros Hi. rewrite page_items by lia.
  replace (Z.to_nat ((Z.of_nat i + 1 - 1) * per_page)) with (i * 10)%nat
    by (unfold per_page; lia).
  reflexivity.
Qed.

Lemma all_pages_concat {A : Type} (l : list A) :
  List.concat (map items (all_pages l)) = l.
Proof.
  unfold all_pages. rewrite map_map.
  rewrite (map_ext_in _ (fun i => firstn 10 (skipn (i * 10) l))).
  - rewrite chunks_concat. apply firstn_all2.
    pose proof (num_pages_bounds l) as Hb. pose proof (num_pages_pos l) as Hp.
    unfold count, per_page in Hb. lia.
  - intros i Hi. apply in_seq in Hi. rewrite page_of_index by lia. reflexivity.
Qed.

Lemma page_length {A : Type} (l : list A) (n : Z) (p : Page A) :
  (1 <= n <= num_pages l)%Z ->
  page l (PageInt n) = Ok p ->
  Z.of_nat (List.length (object_list p)) = Z.min 10 (count l - (n - 1) * 10).
Proof.
  intros Hn Hp. rewrite page_items in Hp by exact Hn. injection Hp as Hp. subst p.
  change (Z.of_nat (List.length (firstn 10 (skipn (Z.to_nat ((n - 1) * per_page)) l)))
          = Z.min 10 (count l - (n - 1) * 10)).
  rewrite length_firstn, length_skipn.
  pose proof (num_pages_bounds l) as Hb. unfold count, per_page in *. lia.
Qed.

End PageFacts.

(** ** Ordering, continued *)

Module OrderFacts.
Import Models ORM Props QueryFacts.
Local Open Scope list_scope.

Lemma insert_desc_In {A : Type} (key : A -> Z) (x y : A) (l : list A) :
  In y (insert_desc key x l) <-> y = x \/ In y l.
Proof.
  split.
  - intros H. apply (Permutation_in _ (insert_desc_perm key x l)) in H.
    destruct H as [H|H]; auto.
  - intros H. apply (Permutation_in _ (Permutation_sym (insert_desc_perm key x l))).
    destruct H as [H|H]; [left; congruence|now right].
Qed.

Lemma insert_desc_sorted {A : Type} (key : A -> Z) (x : A) (l : list A) :
  newest_first key l -> newest_first key (insert_desc key x l).
Proof.
  induction 1 as [|y r Hy Hr IH]; simpl.
  - constructor; [intros ? []|constructor].
  - destruct (Z.leb_spec (key y) (key x)) as [Hle|Hgt].
    + constructor; [|now constructor].
      intros z [<-|Hz]; [exact Hle|]. specialize (Hy z Hz). lia.
    + constructor; [|exact IH].
      intros z Hz. apply insert_desc_In in Hz. destruct Hz as [->|Hz]; [lia|now apply Hy].
Qed.

Lemma order_by_desc_sorted {A : Type} (key : A -> Z) (l : list A) :
  newest_first key (order_by_desc key l).
Proof.
  unfold order_by_desc. induction l as [|x r IH]; simpl; [constructor|].
  now apply insert_desc_sorted.
Qed.

(** A list that is newest first already is left as it is (the sort is
    stable). *)
Lemma order_by_desc_sorted_id {A : Type} (key : A -> Z) (l : list A) :
  newest_first key l -> order_by_desc key l = l.
Proof.
  unfold order_by_desc. induction 1 as [|x r Hx Hr IH]; simpl; [reflexivity|].
  rewrite IH. destruct r as [|y r']; [reflexivity|]. simpl.
  destruct (Z.leb_spec (key y) (key x)) as [_|Hgt]; [reflexivity|].
  specialize (Hx y (or_introl eq_refl)). lia.
Qed.

(** In a list that is newest first, nothing in a tail is newer than
    anything before it. *)
Lemma newest_first_split {A : Type} (key : A -> Z) (a b : list A) :
  newest_first key (a ++ b) ->
  forall x y, In x a -> In y b -> (key y <= key x)%Z.
Proof.
  induction a as [|h a IH]; simpl; intros H x y Hx Hy; [contradiction|].
  inversion H as [|? ? Hh Ht]; subst. destruct Hx as [<-|Hx].
  - apply Hh. apply in_or_app. now right.
  - now apply IH.
Qed.

Lemma newest_first_prefix {A : Type} (key : A -> Z) (n : nat) (l : list A) :
  newest_first key l -> newest_first key (firstn n l).
Proof.
  intros H. revert n. induction H as [|x l Hx _ IH]; intros n.
  - rewrite firstn_nil. constructor.
  - destruct n as [|n]; [constructor|]. cbn [firstn]. constructor; [|apply IH].
    intros y Hy. apply Hx. now apply QueryFacts.In_firstn in Hy.
Qed.

Lemma newest_first_firstn {A : Type} (key : A -> Z) (n : nat) (l : list A) :
  newest_first key l ->
  forall x y, In x (firstn n l) -> In y (skipn n l) -> (key y <= key x)%Z.
Proof.
  intros H. apply newest_first_split. now rewrite firstn_skipn.
Qed.

End OrderFacts.

(** ** What the writes do to the store, exactly *)

Module EffectFacts.
Import Models ORM Req Managers Forms Views Spec Props ReqFacts.
Local Open Scope list_scope.

Lemma create_user_effect (env : Env) (name mail raw : string) (w : World) :
  match create_user env name mail raw w with
  | (Ok u, w') =>
      name <> ""%string
      /\ u = mkUser (next_id (user_keys_skipped env) (map user_id (users (db w)))) (normalize_username env name)
               (normalize_email env mail) (make_password env raw) None (now env)
      /\ (forall v, In v (users (db w)) -> username v <> normalize_username env name)
      /\ w' = mkWorld (with_users (db w) (users (db w) ++ [u])) (messages w) (session w)
  | (Raise _, w') => w' = w
  end.
Proof.
  unfold create_user. destruct (PyStr.truthy name) eqn:Et; cbn [negb]; [|reflexivity].
  unfold store_op. destruct (fault env OpCreateUser); [reflexivity|].
  unfold bind, get_db.
  destruct (existsb _ (users (db w))) eqn:E; [reflexivity|].
  cbn. split; [now apply PyStrFacts.truthy_iff|]. split; [reflexivity|].
  split; [|reflexivity].
  intros v Hv Hname. apply not_true_iff_false in E. apply E.
  apply existsb_exists. exists v. split; [exact Hv|]. now apply String.eqb_eq.
Qed.

Lemma get_or_create_profile_effect (env : Env) (u : User) (w : World) :
  match get_or_create_profile env u w with
  | (Ok (p, created), w') =>
      profile_user p = user_id u
      /\ (created = false /\ w' = w /\ In p (profiles (db w))
          \/ created = true
             /\ p = mkProfile (next_id (profile_keys_skipped env) (map profile_id (profiles (db w)))) (user_id u)
                      "" "" ""
             /\ (forall q, In q (profiles (db w)) -> profile_user q <> user_id u)
             /\ w' = mkWorld (with_profiles (db w) (profiles (db w) ++ [p]))
                       (messages w) (session w))
  | (Raise _, w') => w' = w
  end.
Proof.
  unfold get_or_create_profile, store_op.
  destruct (fault env OpGetOrCreateProfile); [reflexivity|].
  unfold bind, get_db.
  destruct (profiles_of (db w) u) as [|p0 [|p1 rest]] eqn:E; cbn.
  - split; [reflexivity|]. right. split; [reflexivity|]. split; [reflexivity|].
    split; [|reflexivity]. intros q Hq Hk.
    assert (Hin : In q (profiles_of (db w) u)).
    { unfold profiles_of. apply filter_In. split; [exact Hq|now apply Z.eqb_eq]. }
    rewrite E in Hin. exact Hin.
  - assert (Hin : In p0 (profiles_of (db w) u)) by (rewrite E; left; reflexivity).
    unfold profiles_of in Hin. apply filter_In in Hin. destruct Hin as [Hin Hk].
    apply Z.eqb_eq in Hk. split; [exact Hk|]. left. now repeat split.
  - reflexivity.
Qed.

Lemma login_effect (env : Env) (u : User) (w : World) :
  match login env u w with
  | (Ok _, w') =>
      w' = mkWorld (with_users (db w) (map (stamped env u) (users (db w))))
             (messages w) (Some (user_id u))
  | (Raise _, w') => db w' = db w
  end.
Proof.
  unfold login, bind, set_session, store_op.
  destruct (fault env OpLogin); reflexivity.
Qed.

Lemma save_profile_effect (env : Env) (p : UserProfile) (w : World) :
  match save_profile env p w with
  | (Ok _, w') =>
      w' = mkWorld
             (with_profiles (db w)
                (if existsb (fun q => (profile_id q =? profile_id p)%Z) (profiles (db w))
                 then map (fun q => if (profile_id q =? profile_id p)%Z then p else q)
                        (profiles (db w))
                 else profiles (db w) ++ [p]))
             (messages w) (session w)
  | (Raise _, w') => w' = w
  end.
Proof.
  unfold save_profile, store_op. destruct (fault env OpProfileSave); [reflexivity|].
  unfold bind, get_db. destruct (existsb _ (profiles (db w))); reflexivity.
Qed.

Lemma save_user_effect (env : Env) (u : User) (w : World) :
  match save_user env u w with
  | (Ok _, w') =>
      (forall v, In v (users (db w)) -> username v = username u -> user_id v = user_id u)
      /\ w' = mkWorld
                (with_users (db w)
                   (if existsb (fun v => (user_id v =? user_id u)%Z) (users (db w))
                    then map (fun v => if (user_id v =? user_id u)%Z then u else v)
                           (users (db w))
                    else users (db w) ++ [u]))
                (messages w) (session w)
  | (Raise _, w') => w' = w
  end.
Proof.
  unfold save_user, store_op. destruct (fault env OpUserSave); [reflexivity|].
  unfold bind, get_db.
  destruct (existsb (fun v => (username v =? username u)%string && _) (users (db w))) eqn:E;
    [reflexivity|].
  assert (Huniq : forall v, In v (users (db w)) -> username v = username u ->
                            user_id v = user_id u).
  { intros v Hv Hname. destruct (Z.eq_dec (user_id v) (user_id u)) as [Heq|Hne]; [exact Heq|].
    exfalso. apply not_true_iff_false in E. apply E. apply existsb_exists.
    exists v. split; [exact Hv|]. apply andb_true_iff. split.
    - now apply String.eqb_eq.
    - apply negb_true_iff. now apply Z.eqb_neq. }
  destruct (existsb (fun v => (user_id v =? user_id u)%Z) (users (db w))); cbn;
    (split; [exact Huniq|reflexivity]).
Qed.

End EffectFacts.

(** ** Store transformations that keep the invariant *)

Module InvariantFacts.
Import Models ORM Req Managers Spec Props QueryFacts.
Local Open Scope list_scope.

Lemma NoDup_snoc {A : Type} (l : list A) (x : A) :
  NoDup l -> ~ In x l -> NoDup (l ++ [x]).
Proof.
  intros Hl Hx. apply (Permutation_NoDup (l := x :: l)).
  - apply Permutation_cons_append.
  - now constructor.
Qed.

(** Rows of a table with distinct keys are told apart by their key. *)
Lemma same_key_same_row {A B : Type} (key : A -> B) (l : list A) (x y : A) :
  NoDup (map key l) -> In x l -> In y l -> key x = key y -> x = y.
Proof.
  induction l as [|z r IH]; simpl; [contradiction|].
  intros Hnd Hx Hy Hk. apply NoDup_cons_iff in Hnd. destruct Hnd as [Hz Hr].
  destruct Hx as [->|Hx], Hy as [->|Hy]; [reflexivity| | |now apply IH].
  - exfalso. apply Hz. rewrite Hk. now apply in_map.
  - exfalso. apply Hz. rewrite <- Hk. now apply in_map.
Qed.

Lemma owned_iff (s : Store) :
  profiles_owned s
  <-> forall p, In p (profiles s) -> In (profile_user p) (map user_id (users s)).
Proof.
  unfold profiles_owned. split; intros H p Hp.
  - destruct (H p Hp) as [u [Hu Hid]]. apply in_map_iff. now exists u.
  - apply H in Hp. apply in_map_iff in Hp. destruct Hp as [u [Hid Hu]]. now exists u.
Qed.

(** The invariant reads the key columns only. *)
Lemma invariant_by_keys (s s' : Store) :
  map user_id (users s') = map user_id (users s) ->
  map folded_name (users s') = map folded_name (users s) ->
  map profile_id (profiles s') = map profile_id (profiles s) ->
  map profile_user (profiles s') = map profile_user (profiles s) ->
  authors s' = authors s -> categories s' = categories s -> books s' = books s ->
  site_invariant s -> site_invariant s'.
Proof.
  intros Hu Hn Hpi Hpu Ha Hc Hb ((Hwf & Hpid) & Hnames & Hown).
  destruct Hwf as (W1 & W2 & W3 & W4 & W5).
  unfold site_invariant, store_ok, wf_store, usernames_unique.
  rewrite Hu, Hn, Hpi, Hpu, Ha, Hc, Hb. repeat split; try assumption.
  apply owned_iff. rewrite Hu. intros p Hp.
  apply (in_map profile_user) in Hp. rewrite Hpu in Hp.
  apply in_map_iff in Hp. destruct Hp as [p0 [Hk Hp0]].
  rewrite <- Hk. now apply (proj1 (owned_iff s) Hown).
Qed.

(** A new user of a fresh key and a fresh name. *)
Lemma invariant_new_user (s : Store) (u : User) :
  ~ In (user_id u) (map user_id (users s)) ->
  ~ In (folded_name u) (map folded_name (users s)) ->
  site_invariant s -> site_invariant (with_users s (users s ++ [u])).
Proof.
  intros Hid Hname ((Hwf & Hpid) & Hnames & Hown).
  destruct Hwf as (W1 & W2 & W3 & W4 & W5).
  unfold site_invariant, store_ok, wf_store, usernames_unique.
  cbn [with_users users profiles authors categories books].
  rewrite !map_app. cbn [map].
  repeat split; try assumption; try (now apply NoDup_snoc).
  intros p Hp. destruct (Hown p Hp) as [v [Hv Hk]].
  exists v. split; [apply in_or_app; now left|exact Hk].
Qed.

(** A new profile of a fresh key for a stored user who has none. *)
Lemma invariant_new_profile (s : Store) (p : UserProfile) (u : User) :
  In u (users s) -> profile_user p = user_id u ->
  ~ In (profile_id p) (map profile_id (profiles s)) ->
  (forall q, In q (profiles s) -> profile_user q <> user_id u) ->
  site_invariant s -> site_invariant (with_profiles s (profiles s ++ [p])).
Proof.
  intros Hu Hk Hid Hnone ((Hwf & Hpid) & Hnames & Hown).
  destruct Hwf as (W1 & W2 & W3 & W4 & W5).
  unfold site_invariant, store_ok, wf_store, usernames_unique.
  cbn [with_profiles users profiles authors categories books].
  rewrite !map_app. cbn [map].
  repeat split; try assumption; try (now apply NoDup_snoc).
  - apply NoDup_snoc; [exact W2|]. rewrite in_map_iff. intros [q [Hq Hin]].
    apply (Hnone q Hin). congruence.
  - intros q Hq. apply in_app_or in Hq. destruct Hq as [Hq|[<-|[]]].
    + now apply Hown.
    + exists u. now split.
Qed.

Lemma map_replace_key {A B : Type} (test : A -> bool) (x : A) (key : A -> B) (l : list A) :
  (forall y, In y l -> test y = true -> key y = key x) ->
  map key (map (fun y => if test y then x else y) l) = map key l.
Proof.
  intros H. rewrite map_map. apply map_ext_in. intros y Hy.
  destruct (test y) eqn:E; [|reflexivity]. symmetry. now apply H.
Qed.

(** A profile row saved over the row of its key, the owner kept. *)
Lemma invariant_replace_profile (s : Store) (p p0 : UserProfile) :
  In p0 (profiles s) -> profile_id p0 = profile_id p -> profile_user p0 = profile_user p ->
  site_invariant s ->
  site_invariant
    (with_profiles s
       (map (fun q => if (profile_id q =? profile_id p)%Z then p else q) (profiles s))).
Proof.
  intros Hin Hid Hk Hinv. pose proof Hinv as ((_ & Hpid) & _).
  apply (invariant_by_keys s); try reflexivity; try exact Hinv;
    cbn [with_profiles profiles users].
  - apply map_replace_key. intros q Hq Heq. apply Z.eqb_eq in Heq. exact Heq.
  - apply map_replace_key. intros q Hq Heq. apply Z.eqb_eq in Heq.
    assert (q = p0); [|congruence].
    apply (same_key_same_row profile_id (profiles s)); [exact Hpid|exact Hq|exact Hin|congruence].
Qed.

(** The rows of a user's key stamped by [login]. *)
Lemma invariant_stamped (env : Env) (s : Store) (u : User) :
  site_invariant s -> site_invariant (with_users s (map (stamped env u) (users s))).
Proof.
  apply invariant_by_keys; try reflexivity; cbn [with_users users];
    rewrite map_map; apply map_ext; intros v; unfold stamped;
    destruct (user_id v =? user_id u)%Z; reflexivity.
Qed.

(** Replacing the row of a key keeps the names distinct when no row of
    another key has the new name. *)
Lemma replace_keeps_names (u : User) (l : list User) :
  NoDup (map user_id l) ->
  NoDup (map folded_name l) ->
  (forall v, In v l -> folded_name v = folded_name u -> user_id v = user_id u) ->
  NoDup (map folded_name
           (map (fun v => if (user_id v =? user_id u)%Z then u else v) l)).
Proof.
  induction l as [|v r IH]; simpl; [constructor|].
  intros Hid Hname Hfree.
  apply NoDup_cons_iff in Hid. destruct Hid as [Hvid Hid].
  apply NoDup_cons_iff in Hname. destruct Hname as [Hvname Hname].
  assert (IH' := IH Hid Hname (fun x Hx => Hfree x (or_intror Hx))).
  constructor; [|exact IH'].
  rewrite in_map_iff. intros [x [Hx Hin]].
  apply in_map_iff in Hin. destruct Hin as [y [Hy Hyin]].
  destruct (Z.eqb_spec (user_id v) (user_id u)) as [Hv|Hv];
    destruct (Z.eqb_spec (user_id y) (user_id u)) as [Hyu|Hyu]; subst x.
  - apply Hvid. rewrite Hv, <- Hyu. now apply in_map.
  - apply Hvid. rewrite Hv. rewrite <- (Hfree y (or_intror Hyin) Hx). now apply in_map.
  - apply Hv. apply Hfree; [now left|]. now symmetry.
  - apply Hvname. rewrite <- Hx. now apply in_map.
Qed.

(** A user row saved over the row of its key, under a name that no row
    of another key has. *)
Lemma invariant_replace_user (s : Store) (u : User) :
  (forall v, In v (users s) -> folded_name v = folded_name u -> user_id v = user_id u) ->
  site_invariant s ->
  site_invariant
    (with_users s (map (fun v => if (user_id v =? user_id u)%Z then u else v) (users s))).
Proof.
  intros Hfree ((Hwf & Hpid) & Hnames & Hown).
  destruct Hwf as (W1 & W2 & W3 & W4 & W5).
  assert (Hids : map user_id
                   (map (fun v => if (user_id v =? user_id u)%Z then u else v) (users s))
                 = map user_id (users s)).
  { apply map_replace_key. intros v _ Hv. now apply Z.eqb_eq in Hv. }
  unfold site_invariant, store_ok, wf_store, usernames_unique.
  cbn [with_users users profiles authors categories books]. rewrite Hids.
  repeat split; try assumption.
  - now apply replace_keeps_names.
  - apply owned_iff. cbn [with_users users profiles]. rewrite Hids.
    now apply (proj1 (owned_iff s)).
Qed.

(** A user deleted together with the profile rows of its key. *)
Lemma invariant_delete_user (s : Store) (pk : Z) :
  site_invariant s ->
  site_invariant
    (mkStore (filter (fun v => negb (user_id v =? pk)%Z) (users s))
       (filter (fun p => negb (profile_user p =? pk)%Z) (profiles s))
       (authors s) (categories s) (books s)).
Proof.
  intros ((Hwf & Hpid) & Hnames & Hown).
  destruct Hwf as (W1 & W2 & W3 & W4 & W5).
  unfold site_invariant, store_ok, wf_store, usernames_unique.
  cbn [users profiles authors categories books].
  repeat split; try assumption; try (now apply distinct_keys_filter).
  intros p Hp. apply filter_In in Hp. destruct Hp as [Hp Hk].
  destruct (Hown p Hp) as [u [Hu Hid]]. exists u. split; [|exact Hid].
  apply filter_In. split; [exact Hu|]. now rewrite Hid.
Qed.

(** A book deleted. *)
Lemma invariant_delete_book (s : Store) (pk : Z) :
  site_invariant s ->
  site_invariant
    (mkStore (users s) (profiles s) (authors s) (categories s)
       (filter (fun b => negb (book_id b =? pk)%Z) (books s))).
Proof.
  intros ((Hwf & Hpid) & Hnames & Hown).
  destruct Hwf as (W1 & W2 & W3 & W4 & W5).
  unfold site_invariant, store_ok, wf_store, usernames_unique.
  cbn [users profiles authors categories books].
  repeat split; try assumption. now apply distinct_keys_filter.
Qed.

End InvariantFacts.

(** ** Valid forms *)

Module ValidFacts.
Import Models Req Forms Spec Props FormsFacts.
Local Open Scope list_scope.

Lemma clean_field_no_errors (name : string) (input : cleaned string)
    (hook : string -> checked string) :
  snd (clean_field name input hook) = [] ->
  exists v v', input = Valid v /\ hook v = Pass v'
               /\ clean_field name input hook = (Some v', []).
Proof.
  unfold clean_field. destruct input as [v|e more]; [|discriminate].
  destruct (hook v) as [v'|m] eqn:E; [|discriminate]. intros _. now exists v, v'.
Qed.

(** A valid form: every field arrived valid, the username hook and
    [clean] passed, and [cleaned_data] holds the four values. *)
Lemma is_valid_inv (hook : string -> checked string)
    (clean : CleanedData -> checked CleanedData) (data : UserData) :
  is_valid (full_clean hook clean data) = true ->
  exists name name' mail p c cd,
    in_username data = Valid name /\ hook name = Pass name'
    /\ in_email data = Valid mail
    /\ in_password data = Valid p
    /\ in_password_confirm data = Valid c
    /\ clean (mkCleaned (Some name') (Some mail) (Some p) (Some c)) = Pass cd
    /\ full_clean hook clean data = mkForm cd [].
Proof.
  unfold is_valid. destruct (errors (full_clean hook clean data)) eqn:E; [|discriminate].
  intros _. rewrite errors_full_clean in E.
  apply app_eq_nil in E. destruct E as [E Ec].
  apply app_eq_nil in E. destruct E as [E1 E].
  apply app_eq_nil in E. destruct E as [E2 E].
  apply app_eq_nil in E. destruct E as [E3 E4].
  destruct (clean_field_no_errors _ _ _ E1) as (name & name' & Hn & Hh & C1).
  destruct (clean_field_no_errors _ _ _ E2) as (mail & mail' & Hm & Hm' & C2).
  destruct (clean_field_no_errors _ _ _ E3) as (p & p' & Hp & Hp' & C3).
  destruct (clean_field_no_errors _ _ _ E4) as (c & c' & Hc & Hc' & C4).
  unfold no_hook in Hm', Hp', Hc'. injection Hm' as <-. injection Hp' as <-.
  injection Hc' as <-.
  rewrite C1, C2, C3, C4 in Ec. cbn [fst] in Ec.
  exists name, name', mail, p, c.
  destruct (clean (mkCleaned (Some name') (Some mail) (Some p) (Some c))) as [cd|msg] eqn:Ecl;
    [|discriminate].
  exists cd. repeat (split; [assumption|]). split; [reflexivity|].
  unfold full_clean. rewrite C1, C2, C3, C4, Ecl. reflexivity.
Qed.

Lemma passes_iff (p c : string) (cd : CleanedData) :
  cd_password cd = Some p -> cd_password_confirm cd = Some c ->
  (UserForm_clean cd = Pass cd <-> ~ (p <> ""%string /\ c <> ""%string /\ p <> c)).
Proof.
  intros Hp Hc. split.
  - intros Hpass (H1 & H2 & H3).
    assert (Herr : UserForm_clean cd = ValidationError passwords_mismatch).
    { apply UserForm_clean_spec. split; [reflexivity|]. now exists p, c. }
    congruence.
  - intros Hno. destruct (UserForm_clean cd) as [cd'|m] eqn:E.
    + unfold UserForm_clean in E. destruct (_ && _); congruence.
    + exfalso. apply UserForm_clean_spec in E. destruct E as (_ & p' & c' & Hp' & Hc' & H).
      apply Hno. congruence.
Qed.

(** Validity of [UserForm], read off the submission and the store. *)
Lemma UserForm_valid_iff (s : Store) (instance : option User) (data : UserData) :
  is_valid (UserForm s instance data) = true
  <-> exists name mail p c,
        in_username data = Valid name /\ in_email data = Valid mail
        /\ in_password data = Valid p /\ in_password_confirm data = Valid c
        /\ ~ taken_by_another s instance name
        /\ ~ (p <> ""%string /\ c <> ""%string /\ p <> c).
Proof.
  split.
  - intros Hv. unfold UserForm in Hv. apply is_valid_inv in Hv.
    destruct Hv as (name & name' & mail & p & c & cd & Hn & Hh & Hm & Hp & Hc & Hcl & _).
    exists name, mail, p, c. repeat (split; [assumption|]). split.
    + intros Ht. apply UserForm_clean_username_spec in Ht. congruence.
    + assert (cd = mkCleaned (Some name') (Some mail) (Some p) (Some c)).
      { unfold UserForm_clean in Hcl. destruct (_ && _); congruence. }
      subst cd. now apply (passes_iff p c) in Hcl.
  - intros (name & mail & p & c & Hn & Hm & Hp & Hc & Hfree & Hpw).
    unfold UserForm, full_clean. rewrite Hn, Hm, Hp, Hc. cbn [clean_field no_hook].
    destruct (UserForm_clean_username s instance name) as [v|m] eqn:E.
    + assert (Hcl : UserForm_clean (mkCleaned (Some v) (Some mail) (Some p) (Some c))
                    = Pass (mkCleaned (Some v) (Some mail) (Some p) (Some c)))
        by now apply (passes_iff p c).
      rewrite Hcl. reflexivity.
    + exfalso. apply Hfree. apply UserForm_clean_username_spec.
      rewrite E. f_equal. eapply UserForm_clean_username_error. exact E.
Qed.

Lemma existsb_same {A : Type} (f g : A -> bool) (l : list A) :
  (forall x, f x = g x) -> existsb f l = existsb g l.
Proof.
  intros H. induction l as [|x r IH]; simpl; [reflexivity|]. now rewrite H, IH.
Qed.

(** [SimpleRegisterForm] is [UserForm] without an instance. *)
Lemma SimpleRegisterForm_is_UserForm (s : Store) (data : UserData) :
  SimpleRegisterForm s data = UserForm s None data.
Proof.
  unfold SimpleRegisterForm, UserForm.
  change SimpleRegisterForm_clean with UserForm_clean.
  unfold full_clean.
  assert (Hh : forall name, SimpleRegisterForm_clean_username s name
                            = UserForm_clean_username s None name).
  { intros name. unfold SimpleRegisterForm_clean_username, UserForm_clean_username.
    rewrite (existsb_same (fun u => PyStr.iexact name (username u) && negb false)
               (fun u => PyStr.iexact name (username u))); [reflexivity|].
    intros u. cbn [negb]. now rewrite andb_true_r. }
  destruct (in_username data) as [v|e more]; cbn [clean_field]; [|reflexivity].
  now rewrite Hh.
Qed.

(** The cleaned data of a valid form. *)
Lemma UserForm_valid_data (s : Store) (instance : option User) (data : UserData) :
  is_valid (UserForm s instance data) = true ->
  exists name mail p c,
    in_username data = Valid name /\ in_email data = Valid mail
    /\ in_password data = Valid p /\ in_password_confirm data = Valid c
    /\ ~ taken_by_another s instance name
    /\ UserForm s instance data
       = mkForm (mkCleaned (Some name) (Some mail) (Some p) (Some c)) [].
Proof.
  intros Hv. pose proof Hv as Hv'. unfold UserForm in Hv'. apply is_valid_inv in Hv'.
  destruct Hv' as (name & name' & mail & p & c & cd & Hn & Hh & Hm & Hp & Hc & Hcl & Hform).
  assert (name' = name).
  { unfold UserForm_clean_username in Hh. destruct existsb; congruence. }
  subst name'.
  assert (cd = mkCleaned (Some name) (Some mail) (Some p) (Some c)).
  { unfold UserForm_clean in Hcl. destruct (_ && _); congruence. }
  subst cd. exists name, mail, p, c. repeat (split; [assumption|]). split; [|exact Hform].
  intros Ht. apply UserForm_clean_username_spec in Ht. congruence.
Qed.

End ValidFacts.

(** ** The handlers keep the invariant *)

Module HandlerFacts.
Import Models ORM Req Managers Forms Views Site Spec Props.
Import ReqFacts ManagersFacts CreationFacts EffectFacts InvariantFacts ValidFacts.
Local Open Scope list_scope.

Lemma fresh_profile_id (k : nat) (s : Store) :
  ~ In (next_id k (map profile_id (profiles s))) (map profile_id (profiles s)).
Proof. intros H. apply (next_id_above k) in H. lia. Qed.

(** A name that no other record has is a fresh folded name. *)
Lemma free_name_fresh (s : Store) (name : string) :
  ~ taken_by_another s None name ->
  ~ In (PyStr.lower name) (map folded_name (users s)).
Proof.
  intros Hfree Hin. apply in_map_iff in Hin. destruct Hin as [v [Hv Hin]].
  apply Hfree. exists v. split; [exact Hin|].
  split; [now apply PyStrFacts.same_ignoring_case_iff|discriminate].
Qed.

(** [create_user] under a free name keeps the invariant and stores the
    user. *)
Lemma create_user_invariant (env : Env) (name mail raw : string) (w w1 : World) (u : User) :
  keeps_username env name ->
  site_invariant (db w) ->
  ~ taken_by_another (db w) None name ->
  create_user env name mail raw w = (Ok u, w1) ->
  site_invariant (db w1) /\ In u (users (db w1)).
Proof.
  intros Hkeep Hinv Hfree Hc.
  pose proof (create_user_effect env name mail raw w) as He. rewrite Hc in He.
  destruct He as (_ & Hu & _ & ->). cbn [db]. split.
  - apply invariant_new_user; [| |exact Hinv].
    + subst u. cbn [user_id]. apply fresh_user_id.
    + subst u. unfold folded_name at 1. cbn [username]. rewrite Hkeep.
      now apply free_name_fresh.
  - cbn [with_users users]. apply in_or_app. right. now left.
Qed.

(** [get_or_create] for a stored user keeps the invariant and returns a
    stored profile of that user. *)
Lemma get_or_create_invariant (env : Env) (u : User) (w w1 : World)
    (p : UserProfile) (created : bool) :
  site_invariant (db w) ->
  In u (users (db w)) ->
  get_or_create_profile env u w = (Ok (p, created), w1) ->
  site_invariant (db w1) /\ In p (profiles (db w1)) /\ users (db w1) = users (db w)
  /\ profile_user p = user_id u.
Proof.
  intros Hinv Hu Hg.
  pose proof (get_or_create_profile_effect env u w) as He. rewrite Hg in He.
  destruct He as (Hk & [(_ & -> & Hin)|(_ & Hp & Hnone & ->)]).
  - split; [exact Hinv|]. split; [exact Hin|]. split; [reflexivity|exact Hk].
  - cbn [db with_profiles users profiles]. split; [|split; [|split]].
    + apply (invariant_new_profile (db w) p u); try assumption.
      subst p. cbn [profile_id]. apply fresh_profile_id.
    + apply in_or_app. right. now left.
    + reflexivity.
    + exact Hk.
Qed.

(** [profile.save()] over a stored profile's row, key and owner kept. *)
Lemma save_profile_invariant (env : Env) (p p0 : UserProfile) (w w1 : World) :
  site_invariant (db w) ->
  In p0 (profiles (db w)) ->
  profile_id p0 = profile_id p -> profile_user p0 = profile_user p ->
  save_profile env p w = (Ok tt, w1) ->
  site_invariant (db w1) /\ users (db w1) = users (db w).
Proof.
  intros Hinv Hin Hid Hk Hs.
  pose proof (save_profile_effect env p w) as He. rewrite Hs in He. subst w1.
  assert (Hex : existsb (fun q => (profile_id q =? profile_id p)%Z) (profiles (db w)) = true).
  { apply existsb_exists. exists p0. split; [exact Hin|]. now apply Z.eqb_eq. }
  rewrite Hex. cbn [db]. split; [|reflexivity].
  now apply (invariant_replace_profile (db w) p p0).
Qed.

Lemma login_invariant (env : Env) (u : User) (w : World) :
  site_invariant (db w) -> site_invariant (db (snd (login env u w))).
Proof.
  intros Hinv. pose proof (login_effect env u w) as He.
  destruct (login env u w) as [[[]|e] w1]; cbn [snd].
  - subst w1. cbn [db]. now apply invariant_stamped.
  - now rewrite He.
Qed.

Lemma register_block_invariant (env : Env) (form : Form) (name : string)
    (w w' : World) (resp : Response (option Form)) :
  keeps_username env name ->
  site_invariant (db w) ->
  cd_username (cleaned_data form) = Some name ->
  ~ taken_by_another (db w) None name ->
  register_block env form w = (Ok resp, w') ->
  site_invariant (db w').
Proof.
  intros Hkeep Hinv Hcd Hfree H. unfold register_block in H.
  apply bind_ok_inv in H. destruct H as (u & w1 & Hsave & H).
  unfold SimpleRegisterForm_save in Hsave.
  apply bind_ok_inv in Hsave. destruct Hsave as (name0 & w0 & Hn & Hsave).
  apply item_ok_inv in Hn. destruct Hn as [Hn ->].
  assert (name0 = name) by congruence. subst name0.
  apply bind_ok_inv in Hsave. destruct Hsave as (raw & w0 & Hr & Hc).
  apply item_ok_inv in Hr. destruct Hr as [_ ->].
  destruct (create_user_invariant env _ _ _ _ _ _ Hkeep Hinv Hfree Hc) as [Hinv1 Hu1].
  apply bind_ok_inv in H. destruct H as ([p created] & w2 & Hg & H).
  destruct (get_or_create_invariant env u w1 w2 p created Hinv1 Hu1 Hg) as (Hinv2 & _).
  apply bind_ok_inv in H. destruct H as ([] & w3 & Hl & H).
  pose proof (login_invariant env u w2 Hinv2) as Hinv3. rewrite Hl in Hinv3.
  cbn [snd] in Hinv3.
  unfold bind, add_message, ret in H. injection H as _ <-. exact Hinv3.
Qed.

Lemma add_user_block_invariant (env : Env) (uf : Form) (pf : ProfileForm) (name : string)
    (w w' : World) (resp : Response UserFormContext) :
  keeps_username env name ->
  site_invariant (db w) ->
  cd_username (cleaned_data uf) = Some name ->
  ~ taken_by_another (db w) None name ->
  add_user_block env uf pf w = (Ok resp, w') ->
  site_invariant (db w').
Proof.
  intros Hkeep Hinv Hcd Hfree H. unfold add_user_block in H.
  apply bind_ok_inv in H. destruct H as (name0 & w0 & Hn & H).
  apply item_ok_inv in Hn. destruct Hn as [Hn ->].
  assert (name0 = name) by congruence. subst name0.
  apply bind_ok_inv in H. destruct H as (u & w1 & Hc & H).
  destruct (create_user_invariant env _ _ _ _ _ _ Hkeep Hinv Hfree Hc) as [Hinv1 Hu1].
  apply bind_ok_inv in H. destruct H as ([p created] & w2 & Hg & H).
  destruct (get_or_create_invariant env u w1 w2 p created Hinv1 Hu1 Hg)
    as (Hinv2 & Hp2 & _ & _).
  apply bind_ok_inv in H. destruct H as ([] & w3 & Hs & H).
  cbn [fst] in Hs.
  pose proof (fun Hid Hk => save_profile_invariant env _ p w2 w3 Hinv2 Hp2 Hid Hk Hs) as Hsp.
  destruct (Hsp eq_refl eq_refl) as [Hinv3 _].
  unfold bind, add_message, ret in H. injection H as _ <-. exact Hinv3.
Qed.

Lemma edited_user_keys (env : Env) (user : User) (name : string) (uf : Form) :
  user_id (edited_user env user name uf) = user_id user
  /\ username (edited_user env user name uf) = name.
Proof.
  unfold edited_user, set_password. destruct (PyStr.truthy _); now split.
Qed.

Lemma edit_user_block_invariant (env : Env) (user : User) (profile : UserProfile)
    (uf : Form) (pf : ProfileForm) (name : string) (w w' : World)
    (resp : Response UserFormContext) :
  site_invariant (db w) ->
  In user (users (db w)) ->
  In profile (profiles (db w)) ->
  cd_username (cleaned_data uf) = Some name ->
  ~ taken_by_another (db w) (Some user) name ->
  edit_user_block env user profile uf pf w = (Ok resp, w') ->
  site_invariant (db w').
Proof.
  intros Hinv Hu Hp Hcd Hfree H. unfold edit_user_block in H.
  apply bind_ok_inv in H. destruct H as (name0 & w0 & Hn & H).
  apply item_ok_inv in Hn. destruct Hn as [Hn ->].
  assert (name0 = name) by congruence. subst name0.
  destruct (edited_user_keys env user name uf) as [Hid Hname].
  set (u' := edited_user env user name uf) in *.
  apply bind_ok_inv in H. destruct H as ([] & w1 & Hs & H).
  pose proof (save_user_effect env u' w) as He. rewrite Hs in He.
  destruct He as [_ Hw1].
  assert (Hex : existsb (fun v => (user_id v =? user_id u')%Z) (users (db w)) = true).
  { apply existsb_exists. exists user. split; [exact Hu|]. apply Z.eqb_eq. now rewrite Hid. }
  rewrite Hex in Hw1.
  assert (Hinv1 : site_invariant (db w1)).
  { subst w1. cbn [db]. apply invariant_replace_user; [|exact Hinv].
    intros v Hv Hfold. rewrite Hid.
    destruct (Z.eq_dec (user_id v) (user_id user)) as [Heq|Hne]; [exact Heq|].
    exfalso. apply Hfree. exists v. split; [exact Hv|]. split.
    - apply PyStrFacts.same_ignoring_case_iff. unfold folded_name in Hfold.
      now rewrite Hname in Hfold.
    - intros i Hi. injection Hi as <-. exact Hne. }
  assert (Hp1 : In profile (profiles (db w1))) by (subst w1; exact Hp).
  apply bind_ok_inv in H. destruct H as ([] & w2 & Hsp & H).
  unfold UserProfileForm_save in Hsp.
  destruct (profile_is_valid pf); [|discriminate Hsp].
  pose proof (fun Hi Hk => save_profile_invariant env _ profile w1 w2 Hinv1 Hp1 Hi Hk Hsp)
    as Hsave.
  destruct (Hsave eq_refl eq_refl) as [Hinv2 _].
  unfold bind, add_message, ret in H. injection H as _ <-. exact Hinv2.
Qed.

Lemma edit_user_eq (env : Env) (pk : Z) (method : Method) (data : UserData)
    (pdata : ProfileData) (w : World) :
  edit_user env pk method data pdata w
  = match request_user w with
    | None => (Ok (Redirect "login"), w)
    | Some _ =>
        match find (fun u => (user_id u =? pk)%Z) (users (db w)) with
        | None => (Raise Http404, w)
        | Some user =>
            match get_or_create_profile env user w with
            | (Raise e, w1) => (Raise e, w1)
            | (Ok (profile, _), w1) =>
                let user_form := UserForm (db w1) (Some user) data in
                let profile_form := UserProfileForm pdata in
                match method with
                | GET =>
                    (Ok (Render "user_form.html"
                           (mkUserFormContext None None ("Edit " ++ username user))), w1)
                | POST =>
                    if is_valid user_form && profile_is_valid profile_form
                    then
                      try_except
                        (atomic (edit_user_block env user profile user_form profile_form))
                        (user_form_except "updating"
                           (Render "user_form.html"
                              (mkUserFormContext (Some user_form) (Some profile_form)
                                 ("Edit "
                                  ++ match cd_username (cleaned_data user_form) with
                                     | Some name => name
                                     | None => username user
                                     end)))) w1
                    else
                      (report_errors "User" (errors user_form) ;;;
                       report_errors "Profile" (pf_errors profile_form) ;;;
                       ret (Render "user_form.html"
                              (mkUserFormContext (Some user_form) (Some profile_form)
                                 ("Edit " ++ username user)))) w1
                end
            end
        end
    end%string.
Proof.
  unfold edit_user, login_required. unfold bind at 1. unfold current_user.
  destruct (request_user w); [|reflexivity].
  unfold bind at 1. unfold get_user_or_404. unfold bind at 1. unfold get_db at 1.
  destruct (find _ (users (db w))) as [user|]; [|reflexivity].
  unfold ret at 1. unfold bind at 1. unfold get_user_profile_or_create. unfold bind at 1.
  destruct (get_or_create_profile env user w) as [[[profile created]|e] w1]; [|reflexivity].
  unfold ret at 1. cbn [fst]. destruct method; [reflexivity|].
  unfold bind at 1. unfold get_db at 1. cbv zeta.
  destruct (is_valid _ && profile_is_valid _); reflexivity.
Qed.

(** A transaction under [try ... except]: a property of the store that
    the block establishes when it goes through holds afterwards, the
    handler of the exception leaving the store alone. *)
Lemma try_block_keeps {A : Type} (I : Store -> Prop) (body : M A)
    (handler : Exn -> M A) (w : World) :
  I (db w) ->
  (forall a w', body w = (Ok a, w') -> I (db w')) ->
  (forall e w1, db (snd (handler e w1)) = db w1) ->
  I (db (snd (try_except (atomic body) handler w))).
Proof.
  intros Hw Hbody Hh.
  destruct (try_atomic_cases body handler w)
    as [(a & w' & Hb & ->)|(e & w' & Hb & ->)].
  - cbn [snd]. now apply (Hbody a).
  - rewrite Hh. exact Hw.
Qed.

Lemma reports_keep_db {C : Type} (e1 e2 : Errors) (page : Response C) (w : World) :
  db (snd ((report_errors "User" e1 ;;; report_errors "Profile" e2 ;;; ret page) w)) = db w.
Proof.
  destruct (report_errors_ok "User" e1 w) as [H1 H2].
  destruct (report_errors "User" e1 w) as [o1 w1] eqn:E1.
  cbn [fst snd] in H1, H2. subst o1.
  destruct (report_errors_ok "Profile" e2 w1) as [H3 H4].
  destruct (report_errors "Profile" e2 w1) as [o2 w2] eqn:E2.
  cbn [fst snd] in H3, H4. subst o2.
  unfold bind. rewrite E1, E2. cbn. congruence.
Qed.

Lemma register_invariant (env : Env) (method : Method) (data : UserData) (w : World) :
  keeps_submitted_username env data ->
  site_invariant (db w) ->
  site_invariant (db (snd (register env method data w))).
Proof.
  intros Hkeep Hinv. rewrite register_eq.
  destruct (request_user w); [exact Hinv|]. destruct method; [exact Hinv|].
  cbv zeta. destruct (is_valid (SimpleRegisterForm (db w) data)) eqn:Hv; [|exact Hinv].
  rewrite SimpleRegisterForm_is_UserForm in Hv.
  destruct (UserForm_valid_data _ _ _ Hv) as (name & mail & p & c & Hname & _ & _ & _ & Hfree & Hf).
  apply try_block_keeps; [exact Hinv| |].
  - intros resp w' Hb.
    apply (register_block_invariant env (SimpleRegisterForm (db w) data) name w w' resp
             (Hkeep name Hname) Hinv); [|exact Hfree|exact Hb].
    rewrite SimpleRegisterForm_is_UserForm, Hf. reflexivity.
  - intros e w1. now destruct (register_except_db (SimpleRegisterForm (db w) data) e w1)
                   as (? & _ & _ & ?).
Qed.

Lemma add_user_invariant (env : Env) (method : Method) (data : UserData)
    (pdata : ProfileData) (w : World) :
  keeps_submitted_username env data ->
  site_invariant (db w) ->
  site_invariant (db (snd (add_user env method data pdata w))).
Proof.
  intros Hkeep Hinv. rewrite add_user_eq.
  destruct (request_user w); [|exact Hinv]. destruct method; [exact Hinv|].
  cbv zeta.
  destruct (is_valid (UserForm (db w) None data)) eqn:Hv; cbn [andb].
  - destruct (profile_is_valid (UserProfileForm pdata)).
    + destruct (UserForm_valid_data _ _ _ Hv)
        as (name & mail & p & c & Hname & _ & _ & _ & Hfree & Hf).
      apply try_block_keeps; [exact Hinv| |].
      * intros resp w' Hb.
        apply (add_user_block_invariant env (UserForm (db w) None data)
                 (UserProfileForm pdata) name w w' resp (Hkeep name Hname) Hinv);
          [|exact Hfree|exact Hb].
        rewrite Hf. reflexivity.
      * intros e w1. apply user_form_except_db.
    + now rewrite reports_keep_db.
  - now rewrite reports_keep_db.
Qed.

Lemma edit_user_invariant (env : Env) (pk : Z) (method : Method) (data : UserData)
    (pdata : ProfileData) (w : World) :
  site_invariant (db w) ->
  site_invariant (db (snd (edit_user env pk method data pdata w))).
Proof.
  intros Hinv. rewrite edit_user_eq.
  destruct (request_user w); [|exact Hinv].
  destruct (find _ (users (db w))) as [user|] eqn:Hfind; [|exact Hinv].
  apply find_some in Hfind. destruct Hfind as [Hu _].
  pose proof (get_or_create_profile_effect env user w) as He.
  destruct (get_or_create_profile env user w) as [[[profile created]|e] w1] eqn:Hg.
  2:{ subst w1. exact Hinv. }
  clear He.
  destruct (get_or_create_invariant env user w w1 profile created Hinv Hu Hg)
    as (Hinv1 & Hp1 & Husers & _).
  cbv zeta. destruct method; [exact Hinv1|].
  destruct (is_valid (UserForm (db w1) (Some user) data)) eqn:Hv; cbn [andb].
  - destruct (profile_is_valid (UserProfileForm pdata)).
    + destruct (UserForm_valid_data _ _ _ Hv)
        as (name & mail & p & c & Hname & _ & _ & _ & Hfree & Hf).
      apply try_block_keeps; [exact Hinv1| |].
      * intros resp w' Hb.
        apply (edit_user_block_invariant env user profile
                 (UserForm (db w1) (Some user) data) (UserProfileForm pdata)
                 name w1 w' resp Hinv1);
          [now rewrite Husers|exact Hp1| |exact Hfree|exact Hb].
        rewrite Hf. reflexivity.
      * intros e w2. apply user_form_except_db.
    + now rewrite reports_keep_db.
  - now rewrite reports_keep_db.
Qed.

Lemma delete_user_invariant (env : Env) (pk : Z) (method : Method) (w : World) :
  site_invariant (db w) ->
  site_invariant (db (snd (delete_user env pk method w))).
Proof.
  intros Hinv. rewrite DeleteFacts.delete_user_eq.
  destruct (request_user w); [|exact Hinv].
  destruct (find _ (users (db w))) as [user|]; [|exact Hinv].
  destruct (_ =? _)%Z; [exact Hinv|]. destruct method; [exact Hinv|].
  destruct (fault env OpDelete); [exact Hinv|].
  cbn [snd db]. now apply invariant_delete_user.
Qed.

End HandlerFacts.

(** ** The remaining handlers *)

Module SiteFacts.
Import Models ORM Req Managers Forms Views Site Spec Props.
Import ReqFacts EffectFacts InvariantFacts HandlerFacts.
Local Open Scope list_scope.

Lemma user_profile_eq (env : Env) (pk : Z) (w : World) :
  user_profile env pk w
  = match request_user w with
    | None => (Ok (Redirect "login"), w)
    | Some _ =>
        match find (fun u => (user_id u =? pk)%Z) (users (db w)) with
        | None => (Raise Http404, w)
        | Some user =>
            match get_or_create_profile env user w with
            | (Raise e, w1) => (Raise e, w1)
            | (Ok (profile, _), w1) =>
                (Ok (Render "user_profile.html" (user, profile)), w1)
            end
        end
    end.
Proof.
  unfold user_profile, login_required. unfold bind at 1. unfold current_user.
  destruct (request_user w); [|reflexivity].
  unfold bind at 1. unfold get_user_or_404. unfold bind at 1. unfold get_db at 1.
  destruct (find _ (users (db w))) as [user|]; [|reflexivity].
  unfold ret at 1. unfold bind at 1. unfold get_user_profile_or_create. unfold bind at 1.
  destruct (get_or_create_profile env user w) as [[[profile created]|e] w1]; reflexivity.
Qed.

Lemma login_view_eq (env : Env) (authenticate : Store -> string -> string -> option User)
    (method : Method) (username_ password_ : option string) (w : World) :
  login_view env authenticate method username_ password_ w
  = match request_user w, method with
    | Some _, _ => (Ok (Redirect "home"), w)
    | None, GET => (Ok (Render "login.html" tt), w)
    | None, POST =>
        match authenticate (db w) (PyStr.strip (post_get username_)) (post_get password_) with
        | None =>
            (Ok (Render "login.html" tt),
             mkWorld (db w)
               (messages w ++ [(Error, "Invalid username or password."%string)])
               (session w))
        | Some user =>
            match fault env OpLogin with
            | Some e => (Raise e, mkWorld (db w) (messages w) (Some (user_id user)))
            | None =>
                (Ok (Redirect "home"),
                 mkWorld (with_users (db w) (map (stamped env user) (users (db w))))
                   (messages w
                    ++ [(Success, ("Welcome back, " ++ username user ++ "!")%string)])
                   (Some (user_id user)))
            end
        end
    end.
Proof.
  unfold login_view. unfold bind at 1. unfold current_user.
  destruct (request_user w); [reflexivity|].
  destruct method; [reflexivity|].
  unfold bind at 1. unfold get_db at 1.
  destruct (authenticate _ _ _) as [user|]; [|reflexivity].
  unfold bind, login, set_session, store_op.
  destruct (fault env OpLogin); reflexivity.
Qed.

Lemma delete_book_eq (env : Env) (pk : Z) (method : Method) (w : World) :
  delete_book env pk method w
  = match request_user w with
    | None => (Ok (Redirect "login"), w)
    | Some _ =>
        match find (fun b => (book_id b =? pk)%Z) (books (db w)) with
        | None => (Raise Http404, w)
        | Some book =>
            match method with
            | GET => (Ok (Render "book_confirm_delete.html" book), w)
            | POST =>
                match fault env OpDelete with
                | Some e =>
                    (Ok (Redirect "book_list"),
                     mkWorld (db w)
                       (messages w
                        ++ [(Error, ("Error deleting book: " ++ exn_str e)%string)])
                       (session w))
                | None =>
                    (Ok (Redirect "book_list"),
                     mkWorld
                       (mkStore (users (db w)) (profiles (db w)) (authors (db w))
                          (categories (db w))
                          (filter (fun x => negb (book_id x =? book_id book)%Z)
                             (books (db w))))
                       (messages w
                        ++ [(Success, ("Book " ++ dq ++ title book ++ dq
                                       ++ " deleted successfully!")%string)])
                       (session w))
                end
            end
        end
    end.
Proof.
  unfold delete_book, login_required. unfold bind at 1. unfold current_user at 1.
  destruct (request_user w); [|reflexivity].
  unfold bind at 1. unfold get_book_or_404. unfold bind at 1. unfold get_db at 1.
  destruct (find _ (books (db w))) as [book|]; [|reflexivity].
  unfold ret at 1. destruct method; [reflexivity|].
  unfold bind at 1. unfold try_except, delete_book_row, store_op.
  destruct (fault env OpDelete); reflexivity.
Qed.

Lemma book_detail_eq (pk : Z) (w : World) :
  book_detail pk w
  = match find (fun b => (book_id b =? pk)%Z) (books (db w)) with
    | Some book => (Ok (Render "book_view.html" book), w)
    | None => (Raise Http404, w)
    end.
Proof.
  unfold book_detail, get_book_or_404, bind, get_db.
  destruct (find _ (books (db w))); reflexivity.
Qed.

Lemma user_profile_invariant (env : Env) (pk : Z) (w : World) :
  site_invariant (db w) -> site_invariant (db (snd (user_profile env pk w))).
Proof.
  intros Hinv. rewrite user_profile_eq.
  destruct (request_user w); [|exact Hinv].
  destruct (find _ (users (db w))) as [user|] eqn:Hfind; [|exact Hinv].
  apply find_some in Hfind. destruct Hfind as [Hu _].
  pose proof (get_or_create_profile_effect env user w) as He.
  destruct (get_or_create_profile env user w) as [[[profile created]|e] w1] eqn:Hg.
  - now destruct (get_or_create_invariant env user w w1 profile created Hinv Hu Hg).
  - now subst w1.
Qed.

Lemma login_view_invariant (env : Env)
    (authenticate : Store -> string -> string -> option User)
    (method : Method) (username_ password_ : option string) (w : World) :
  site_invariant (db w) ->
  site_invariant (db (snd (login_view env authenticate method username_ password_ w))).
Proof.
  intros Hinv. rewrite login_view_eq.
  destruct (request_user w); [exact Hinv|]. destruct method; [exact Hinv|].
  destruct (authenticate _ _ _) as [user|]; [|exact Hinv].
  destruct (fault env OpLogin); [exact Hinv|].
  cbn [snd db]. now apply invariant_stamped.
Qed.

Lemma delete_book_invariant (env : Env) (pk : Z) (method : Method) (w : World) :
  site_invariant (db w) -> site_invariant (db (snd (delete_book env pk method w))).
Proof.
  intros Hinv. rewrite delete_book_eq.
  destruct (request_user w); [|exact Hinv].
  destruct (find _ (books (db w))) as [book|]; [|exact Hinv].
  destruct method; [exact Hinv|].
  destruct (fault env OpDelete); [exact Hinv|].
  cbn [snd db]. now apply invariant_delete_book.
Qed.

End SiteFacts.

(** ** Requests that go through *)

Module RunFacts.
Import Models ORM Req Managers Forms Views Site Spec Props.
Import ReqFacts ManagersFacts CreationFacts EffectFacts InvariantFacts ValidFacts HandlerFacts.
Local Open Scope list_scope.

Lemma create_user_run (env : Env) (name mail raw : string) (w : World) :
  fault env OpCreateUser = None ->
  name <> ""%string ->
  (forall v, In v (users (db w)) -> username v <> normalize_username env name) ->
  create_user env name mail raw w
  = (Ok (created_user env (db w) name mail raw),
     mkWorld (with_users (db w) (users (db w) ++ [created_user env (db w) name mail raw]))
       (messages w) (session w)).
Proof.
  intros Hf Hname Hfree. unfold create_user.
  apply PyStrFacts.truthy_iff in Hname. rewrite Hname. cbn [negb].
  rewrite store_op_no_fault by exact Hf. unfold bind, get_db.
  assert (E : existsb (fun u => (username u =? normalize_username env name)%string)
                (users (db w)) = false).
  { apply not_true_iff_false. intros H. apply existsb_exists in H.
    destruct H as [v [Hv Hn]]. apply String.eqb_eq in Hn. exact (Hfree v Hv Hn). }
  rewrite E. reflexivity.
Qed.

Lemma get_or_create_profile_new (env : Env) (u : User) (w : World) :
  fault env OpGetOrCreateProfile = None ->
  (forall q, In q (profiles (db w)) -> profile_user q <> user_id u) ->
  get_or_create_profile env u w
  = (Ok (created_profile env (db w) u, true),
     mkWorld (with_profiles (db w) (profiles (db w) ++ [created_profile env (db w) u]))
       (messages w) (session w)).
Proof.
  intros Hf Hnone. unfold get_or_create_profile.
  rewrite store_op_no_fault by exact Hf. unfold bind, get_db.
  assert (E : profiles_of (db w) u = []).
  { unfold profiles_of. apply QueryFacts.filter_none. intros q Hq.
    apply Z.eqb_neq. now apply Hnone. }
  rewrite E. reflexivity.
Qed.

(** Asking again for the profile of a user returns the same profile and
    writes nothing. *)
Lemma get_or_create_profile_again (env : Env) (u : User) (w w1 : World)
    (p : UserProfile) (created : bool) :
  get_or_create_profile env u w = (Ok (p, created), w1) ->
  get_or_create_profile env u w1 = (Ok (p, false), w1).
Proof.
  unfold get_or_create_profile, store_op.
  destruct (fault env OpGetOrCreateProfile); [discriminate|].
  unfold bind, get_db.
  destruct (profiles_of (db w) u) as [|p0 [|p1 rest]] eqn:E; cbn; intros H;
    [| |discriminate H].
  - injection H as <- _ <-.
    unfold profiles_of in *. cbn [db with_profiles profiles]. rewrite filter_app, E.
    cbn [filter created_profile profile_user app]. rewrite Z.eqb_refl. reflexivity.
  - injection H as <- _ <-. rewrite E. reflexivity.
Qed.

Lemma login_run (env : Env) (u : User) (w : World) :
  fault env OpLogin = None ->
  login env u w
  = (Ok tt, mkWorld (with_users (db w) (map (stamped env u) (users (db w))))
              (messages w) (Some (user_id u))).
Proof.
  intros Hf. unfold login, bind, set_session. rewrite store_op_no_fault by exact Hf.
  reflexivity.
Qed.

(** [login] stamps the new user's row and no other when the key is the
    fresh one. *)
Lemma stamped_new_user (env : Env) (l : list User) (u : User) :
  user_id u = next_id (user_keys_skipped env) (map user_id l) ->
  map (stamped env u) (l ++ [u])
  = l ++ [mkUser (user_id u) (username u) (email u) (password u)
            (Some (now env)) (date_joined u)].
Proof.
  intros Hid. rewrite map_app. f_equal.
  - rewrite <- (map_id l) at 2. apply map_ext_in. intros v Hv. unfold stamped.
    destruct (Z.eqb_spec (user_id v) (user_id u)) as [Heq|_]; [|reflexivity].
    exfalso. apply (in_map user_id) in Hv.
    apply (next_id_above (user_keys_skipped env)) in Hv. lia.
  - cbn. unfold stamped. now rewrite Z.eqb_refl.
Qed.

(** A profile owned by a stored user does not belong to the next key. *)
Lemma owned_not_next (k : nat) (s : Store) :
  profiles_owned s ->
  forall q, In q (profiles s) -> profile_user q <> next_id k (map user_id (users s)).
Proof.
  intros Hown q Hq Hk. destruct (Hown q Hq) as [v [Hv Hid]].
  apply (in_map user_id) in Hv. apply (next_id_above k) in Hv. lia.
Qed.

(** An unused name is not stored under any casing, so not exactly. *)
Lemma free_name_exact (env : Env) (s : Store) (name : string) :
  keeps_username env name ->
  ~ taken_by_another s None name ->
  forall v, In v (users s) -> username v <> normalize_username env name.
Proof.
  intros Hkeep Hfree v Hv Hn. rewrite Hkeep in Hn. apply Hfree.
  exists v. split; [exact Hv|]. split; [|discriminate].
  apply PyStrFacts.same_ignoring_case_iff. now rewrite Hn.
Qed.

(** The form of a clean submission. *)
Lemma UserForm_clean_data (s : Store) (instance : option User) (data : UserData)
    (name mail p c : string) :
  in_username data = Valid name -> in_email data = Valid mail ->
  in_password data = Valid p -> in_password_confirm data = Valid c ->
  ~ taken_by_another s instance name ->
  ~ (p <> ""%string /\ c <> ""%string /\ p <> c) ->
  UserForm s instance data
  = mkForm (mkCleaned (Some name) (Some mail) (Some p) (Some c)) [].
Proof.
  intros Hn Hm Hp Hc Hfree Hpw.
  assert (Hv : is_valid (UserForm s instance data) = true).
  { apply UserForm_valid_iff. exists name, mail, p, c. now repeat split. }
  destruct (UserForm_valid_data _ _ _ Hv)
    as (name' & mail' & p' & c' & Hn' & Hm' & Hp' & Hc' & _ & Hf).
  rewrite Hf. congruence.
Qed.

Lemma register_block_run (env : Env) (name mail raw c : string) (w : World) :
  (forall op, fault env op = None) ->
  keeps_username env name ->
  profiles_owned (db w) ->
  name <> ""%string ->
  ~ taken_by_another (db w) None name ->
  register_block env (mkForm (mkCleaned (Some name) (Some mail) (Some raw) (Some c)) []) w
  = (Ok (Redirect "home"),
     mkWorld (registered env (db w) name mail raw)
       (messages w ++ [(Success, "Registration successful!"%string)])
       (Some (next_id (user_keys_skipped env) (map user_id (users (db w)))))).
Proof.
  intros Hf Hkeep Hown Hname Hfree. unfold register_block.
  pose proof (create_user_run env name mail raw w (Hf OpCreateUser) Hname
                (free_name_exact env (db w) name Hkeep Hfree)) as Hc.
  set (u := created_user env (db w) name mail raw) in *.
  assert (Hsave : SimpleRegisterForm_save env
                    (mkForm (mkCleaned (Some name) (Some mail) (Some raw) (Some c)) []) w
                  = (Ok u, mkWorld (with_users (db w) (users (db w) ++ [u]))
                             (messages w) (session w))) by exact Hc.
  rewrite (bind_ok _ _ _ _ _ Hsave).
  match goal with |- context [bind (get_or_create_profile env u) _ ?w1] =>
    pose proof (get_or_create_profile_new env u w1 (Hf OpGetOrCreateProfile)) as Hg
  end.
  cbn [db with_users profiles users] in Hg.
  rewrite (bind_ok _ _ _ _ _ (Hg (owned_not_next _ (db w) Hown))).
  rewrite (bind_ok _ _ _ _ _ (login_run env u _ (Hf OpLogin))).
  unfold bind, add_message, ret. cbn [db messages session with_users with_profiles users
    profiles authors categories books].
  rewrite (stamped_new_user env (users (db w)) u eq_refl).
  reflexivity.
Qed.

Lemma replace_last_profile (k : nat) (l : list UserProfile) (p0 p : UserProfile) :
  profile_id p0 = next_id k (map profile_id l) ->
  profile_id p = profile_id p0 ->
  map (fun q => if (profile_id q =? profile_id p)%Z then p else q) (l ++ [p0])
  = l ++ [p].
Proof.
  intros H0 Hp. rewrite map_app. f_equal.
  - rewrite <- (map_id l) at 2. apply map_ext_in. intros q Hq.
    destruct (Z.eqb_spec (profile_id q) (profile_id p)) as [Heq|_]; [|reflexivity].
    exfalso. apply (in_map profile_id) in Hq. apply (next_id_above k) in Hq. lia.
  - cbn. rewrite Hp, Z.eqb_refl. reflexivity.
Qed.

Lemma save_profile_writes_last (env : Env) (p p0 : UserProfile) (w : World) :
  fault env OpProfileSave = None ->
  In p0 (profiles (db w)) -> profile_id p0 = profile_id p ->
  save_profile env p w
  = (Ok tt,
     mkWorld (with_profiles (db w)
                (map (fun q => if (profile_id q =? profile_id p)%Z then p else q)
                   (profiles (db w))))
       (messages w) (session w)).
Proof.
  intros Hf Hin Hid. unfold save_profile. rewrite store_op_no_fault by exact Hf.
  unfold bind, get_db.
  assert (E : existsb (fun q => (profile_id q =? profile_id p)%Z) (profiles (db w)) = true).
  { apply existsb_exists. exists p0. split; [exact Hin|]. now apply Z.eqb_eq. }
  rewrite E. reflexivity.
Qed.

Lemma add_user_block_run (env : Env) (pf : ProfileForm) (name mail raw c : string)
    (w : World) :
  (forall op, fault env op = None) ->
  keeps_username env name ->
  profiles_owned (db w) ->
  name <> ""%string ->
  ~ taken_by_another (db w) None name ->
  add_user_block env (mkForm (mkCleaned (Some name) (Some mail) (Some raw) (Some c)) []) pf w
  = (Ok (Redirect "user_list"),
     mkWorld (added env (db w) name mail raw pf)
       (messages w ++ [(Success, ("User " ++ dq ++ name ++ dq
                                  ++ " created successfully!")%string)])
       (session w)).
Proof.
  intros Hf Hkeep Hown Hname Hfree. unfold add_user_block.
  cbn [cleaned_data cd_username cd_email cd_password item get_or_empty].
  rewrite (bind_ok _ _ w w name eq_refl).
  pose proof (create_user_run env name mail (password_or_random env (Some raw)) w
                (Hf OpCreateUser) Hname
                (free_name_exact env (db w) name Hkeep Hfree)) as Hc.
  set (u := created_user env (db w) name mail (password_or_random env (Some raw))) in *.
  rewrite (bind_ok _ _ _ _ _ Hc).
  match goal with |- context [bind (get_or_create_profile env u) _ ?w1] =>
    pose proof (get_or_create_profile_new env u w1 (Hf OpGetOrCreateProfile)) as Hg
  end.
  cbn [db with_users profiles users] in Hg.
  rewrite (bind_ok _ _ _ _ _ (Hg (owned_not_next _ (db w) Hown))).
  cbn [fst].
  set (cp := created_profile env (with_users (db w) (users (db w) ++ [u])) u).
  match goal with |- context [bind (save_profile env ?q) _ ?w2] =>
    set (p' := q);
    pose proof (save_profile_writes_last env p' cp w2 (Hf OpProfileSave)) as Hsp
  end.
  cbn [db with_profiles profiles] in Hsp.
  rewrite (bind_ok _ _ _ _ _ (Hsp (in_elt cp _ []) eq_refl)).
  unfold bind, add_message, ret.
  cbn [db messages session with_users with_profiles users profiles authors categories books].
  rewrite (replace_last_profile _ (profiles (db w)) cp p' eq_refl eq_refl).
  unfold added. fold u.
  assert (Hn : username u = name) by (cbn; apply Hkeep). rewrite Hn. reflexivity.
Qed.

Lemma find_exists {A : Type} (f : A -> bool) (l : list A) (x : A) :
  In x l -> f x = true -> exists y, find f l = Some y.
Proof.
  intros Hin Hf. destruct (find f l) as [y|] eqn:E; [now exists y|].
  rewrite (find_none _ _ E x Hin) in Hf. discriminate Hf.
Qed.

(** The transaction block of [edit_user] on a valid submission: the
    user's row and the profile's row are replaced, nothing else. *)
Lemma edit_user_block_done (env : Env) (user : User) (profile : UserProfile)
    (uf : Form) (pf : ProfileForm) (name : string) (w : World) :
  (forall op, fault env op = None) ->
  In user (users (db w)) ->
  In profile (profiles (db w)) ->
  cd_username (cleaned_data uf) = Some name ->
  ~ taken_by_another (db w) (Some user) name ->
  profile_is_valid pf = true ->
  edit_user_block env user profile uf pf w
  = (Ok (Redirect "user_list"),
     mkWorld
       (mkStore
          (map (fun v => if (user_id v =? user_id user)%Z
                         then edited_user env user name uf else v) (users (db w)))
          (map (fun q => if (profile_id q =? profile_id profile)%Z
                         then construct_instance pf profile else q) (profiles (db w)))
          (authors (db w)) (categories (db w)) (books (db w)))
       (messages w ++ [(Success, ("User " ++ dq ++ name ++ dq
                                  ++ " updated successfully!")%string)])
       (session w)).
Proof.
  intros Hf Hu Hp Hcd Hfree Hpf. unfold edit_user_block. rewrite Hcd. cbn [item].
  rewrite (bind_ok _ _ w w name eq_refl).
  destruct (edited_user_keys env user name uf) as [Hid Hname].
  set (u' := edited_user env user name uf) in *.
  destruct (find_exists (fun v => (user_id v =? user_id u')%Z) (users (db w)) user Hu)
    as [x Hx]; [rewrite Hid; apply Z.eqb_refl|].
  assert (Huniq : forall v, In v (users (db w)) -> username v = username u' ->
                            user_id v = user_id u').
  { intros v Hv Hn.
    destruct (Z.eq_dec (user_id v) (user_id u')) as [Heq|Hne]; [exact Heq|].
    exfalso. apply Hfree. exists v. split; [exact Hv|]. split.
    - apply PyStrFacts.same_ignoring_case_iff. rewrite Hn. now rewrite Hname.
    - intros i Hi. injection Hi as <-. now rewrite <- Hid. }
  rewrite (bind_ok _ _ _ _ _ (EditFacts.save_user_run env u' x w (Hf OpUserSave) Hx Huniq)).
  unfold UserProfileForm_save. rewrite Hpf.
  match goal with |- context [bind (save_profile env ?q) _ ?w2] =>
    pose proof (save_profile_writes_last env q profile w2 (Hf OpProfileSave)) as Hsp
  end.
  cbn [db with_users profiles] in Hsp.
  rewrite (bind_ok _ _ _ _ _ (Hsp Hp eq_refl)).
  unfold bind, add_message, ret.
  cbn [db messages session with_users with_profiles users profiles authors categories
       books construct_instance profile_id].
  rewrite Hid, Hname. reflexivity.
Qed.

End RunFacts.

(** ** Sessions and profiles *)

Module SessionFacts.
Import Models ORM Req Managers Forms Paginator Views Site Spec Props.
Import ReqFacts EffectFacts RunFacts.
Local Open Scope list_scope.

Lemma stamped_id (env : Env) (u v : User) : user_id (stamped env u v) = user_id v.
Proof. unfold stamped. destruct (user_id v =? user_id u)%Z; reflexivity. Qed.

(** After [login] for a stored user the session's user is found. *)
Lemma logged_in_after_login (env : Env) (s : Store) (msgs : list (Level * string))
    (u : User) :
  In u (users s) ->
  authenticated (mkWorld (with_users s (map (stamped env u) (users s))) msgs
                   (Some (user_id u))).
Proof.
  intros Hu. unfold authenticated, request_user. cbn [session db with_users users].
  destruct (find_exists (fun v => (user_id v =? user_id u)%Z)
              (map (stamped env u) (users s)) (stamped env u u)) as [y Hy].
  - now apply in_map.
  - rewrite stamped_id. apply Z.eqb_refl.
  - rewrite Hy. discriminate.
Qed.

Lemma get_or_create_profile_existing (env : Env) (u : User) (p : UserProfile) (w : World) :
  fault env OpGetOrCreateProfile = None ->
  profiles_of (db w) u = [p] ->
  get_or_create_profile env u w = (Ok (p, false), w).
Proof.
  intros Hf Hp. unfold get_or_create_profile. rewrite store_op_no_fault by exact Hf.
  unfold bind, get_db. rewrite Hp. reflexivity.
Qed.

(** What [get_or_create] can have done to a world. *)
Lemma get_or_create_profile_world (env : Env) (u : User) (w : World) :
  let r := get_or_create_profile env u w in
  snd r = w
  \/ (forall q, In q (profiles (db w)) -> profile_user q <> user_id u)
     /\ snd r = mkWorld (with_profiles (db w) (profiles (db w) ++ [created_profile env (db w) u]))
                  (messages w) (session w).
Proof.
  cbv zeta. pose proof (get_or_create_profile_effect env u w) as He.
  destruct (get_or_create_profile env u w) as [[[p created]|e] w1]; cbn [snd].
  - destruct He as (_ & [(_ & -> & _)|(_ & -> & Hnone & ->)]); [now left|].
    right. split; [exact Hnone|reflexivity].
  - left. exact He.
Qed.

Lemma edit_user_block_resp (env : Env) (user : User) (profile : UserProfile)
    (uf : Form) (pf : ProfileForm) (w w' : World) (resp : Response UserFormContext) :
  edit_user_block env user profile uf pf w = (Ok resp, w') ->
  resp = Redirect "user_list".
Proof.
  unfold edit_user_block. intros H.
  apply bind_ok_inv in H. destruct H as (name & w0 & _ & H).
  apply bind_ok_inv in H. destruct H as ([] & w1 & _ & H).
  apply bind_ok_inv in H. destruct H as ([] & w2 & _ & H).
  unfold bind, add_message, ret in H. now injection H as <- _.
Qed.

End SessionFacts.

(** ** Notices *)

Module NoticeFacts.
Import Models Req Forms Views Props.
Local Open Scope list_scope.

Lemma report_errors_run (who : string) (errs : Errors) (w : World) :
  report_errors who errs w
  = (Ok tt, mkWorld (db w) (messages w ++ map (error_notice who) errs) (session w)).
Proof.
  revert w. induction errs as [|[f e] rest IH]; intros w.
  - cbn. rewrite app_nil_r. now destruct w.
  - cbn [report_errors]. unfold bind at 1. unfold add_message at 1.
    rewrite IH. cbn [db messages session map]. rewrite <- app_assoc. reflexivity.
Qed.

End NoticeFacts.

(** ** Books *)

Module BookFacts.
Import Models ORM.
Local Open Scope list_scope.

(** Removing the rows of one key leaves the lookup of another key alone. *)
Lemma find_after_delete (pk other : Z) (l : list Book) :
  other <> pk ->
  find (fun b => (book_id b =? other)%Z)
       (filter (fun b => negb (book_id b =? pk)%Z) l)
  = find (fun b => (book_id b =? other)%Z) l.
Proof.
  intros Hother. induction l as [|b l IH]; [reflexivity|]. cbn [filter find].
  destruct (Z.eqb_spec (book_id b) pk) as [Hb|Hb]; cbn [negb find].
  - destruct (Z.eqb_spec (book_id b) other) as [Hbo|_]; [congruence|exact IH].
  - destruct (book_id b =? other)%Z; [reflexivity|exact IH].
Qed.

End BookFacts.

(** ** [strip] and case folding *)

Module StripFacts.
Import PyStr Spec Props.

Lemma append_assoc (a b c : string) : (a ++ b) ++ c = a ++ b ++ c.
Proof. induction a as [|x a IH]; [reflexivity|]. cbn. now rewrite IH. Qed.

Lemma append_empty (a : string) : a ++ "" = a.
Proof. induction a as [|x a IH]; [reflexivity|]. cbn. now rewrite IH. Qed.

Lemma length_append (a b : string) : length (a ++ b) = (length a + length b)%nat.
Proof. induction a as [|x a IH]; [reflexivity|]. cbn. now rewrite IH. Qed.

Lemma byte_of_nat (c : ascii) (n : nat) : nat_of_ascii c = n -> c = ascii_of_nat n.
Proof. intros <-. symmetry. apply ascii_nat_embedding. Qed.

Ltac in_white_space :=
  vm_compute; repeat (first [left; reflexivity | right]).

(** A white space code point is not empty. *)
Lemma white_space_length (x : string) : In x white_space -> (0 < length x)%nat.
Proof.
  intros H. vm_compute in H.
  repeat (destruct H as [<-|H]; [cbn; lia|]). contradiction.
Qed.

(** [lstrip] drops a white space code point at the start. *)
Lemma lstrip_white (x s : string) : In x white_space -> lstrip (x ++ s) = lstrip s.
Proof.
  intros H. vm_compute in H.
  repeat (destruct H as [<-|H]; [reflexivity|]). contradiction.
Qed.

Lemma space1_white (c : ascii) : is_space1 c = true -> In (String c "") white_space.
Proof.
  unfold is_space1. intros H.
  assert (Hn : exists n, nat_of_ascii c = n
                 /\ ((9 <= n <= 13)%nat \/ (28 <= n <= 32)%nat)).
  { exists (nat_of_ascii c). split; [reflexivity|].
    apply orb_true_iff in H. destruct H as [H|H]; apply andb_true_iff in H;
      destruct H as [H1 H2]; apply Nat.leb_le in H1; apply Nat.leb_le in H2; lia. }
  destruct Hn as (n & Hc & Hn). apply byte_of_nat in Hc. subst c.
  assert (Hcases : In n [9; 10; 11; 12; 13; 28; 29; 30; 31; 32]%nat) by (cbn; lia).
  cbn in Hcases.
  repeat (destruct Hcases as [<-|Hcases]; [in_white_space|]). contradiction.
Qed.

Lemma space2_white (c d : ascii) :
  is_space2 c d = true -> In (String c (String d "")) white_space.
Proof.
  unfold is_space2. intros H. apply andb_true_iff in H. destruct H as [Hc Hd].
  apply Nat.eqb_eq, byte_of_nat in Hc. subst c.
  apply orb_true_iff in Hd.
  destruct Hd as [Hd|Hd]; apply Nat.eqb_eq, byte_of_nat in Hd; subst d; in_white_space.
Qed.

Lemma space3_white (c d e : ascii) :
  is_space3 c d e = true -> In (String c (String d (String e ""))) white_space.
Proof.
  unfold is_space3. intros H.
  repeat (apply orb_true_iff in H; destruct H as [H|H]).
  - apply andb_true_iff in H. destruct H as [H He].
    apply andb_true_iff in H. destruct H as [Hc Hd].
    apply Nat.eqb_eq, byte_of_nat in Hc. apply Nat.eqb_eq, byte_of_nat in Hd.
    apply Nat.eqb_eq, byte_of_nat in He. subst. in_white_space.
  - apply andb_true_iff in H. destruct H as [H He].
    apply andb_true_iff in H. destruct H as [Hc Hd].
    apply Nat.eqb_eq, byte_of_nat in Hc. apply Nat.eqb_eq, byte_of_nat in Hd. subst c d.
    assert (Hn : exists n, nat_of_ascii e = n
                   /\ In n [128; 129; 130; 131; 132; 133; 134; 135; 136; 137; 138;
                            168; 169; 175]%nat).
    { exists (nat_of_ascii e). split; [reflexivity|].
      repeat (apply orb_true_iff in He; destruct He as [He|He]).
      - apply andb_true_iff in He. destruct He as [H1 H2].
        apply Nat.leb_le in H1. apply Nat.leb_le in H2. cbn. lia.
      - apply Nat.eqb_eq in He. cbn. lia.
      - apply Nat.eqb_eq in He. cbn. lia.
      - apply Nat.eqb_eq in He. cbn. lia. }
    destruct Hn as (n & Hn & Hcases). apply byte_of_nat in Hn. subst e.
    cbn in Hcases.
    repeat (destruct Hcases as [<-|Hcases]; [in_white_space|]). contradiction.
  - apply andb_true_iff in H. destruct H as [H He].
    apply andb_true_iff in H. destruct H as [Hc Hd].
    apply Nat.eqb_eq, byte_of_nat in Hc. apply Nat.eqb_eq, byte_of_nat in Hd.
    apply Nat.eqb_eq, byte_of_nat in He. subst. in_white_space.
  - apply andb_true_iff in H. destruct H as [H He].
    apply andb_true_iff in H. destruct H as [Hc Hd].
    apply Nat.eqb_eq, byte_of_nat in Hc. apply Nat.eqb_eq, byte_of_nat in Hd.
    apply Nat.eqb_eq, byte_of_nat in He. subst. in_white_space.
Qed.

(** [lstrip] leaves the string alone or finds a white space code point at
    its start. *)
Lemma lstrip_step (s : string) :
  lstrip s = s \/ exists x r, In x white_space /\ s = x ++ r.
Proof.
  destruct s as [|c r]; [now left|]. cbn [lstrip].
  destruct (is_space1 c) eqn:E1.
  { right. exists (String c ""), r. split; [now apply space1_white|reflexivity]. }
  destruct r as [|d r2]; [now left|].
  destruct (is_space2 c d) eqn:E2.
  { right. exists (String c (String d "")), r2. split; [now apply space2_white|reflexivity]. }
  destruct r2 as [|e r3]; [now left|].
  destruct (is_space3 c d e) eqn:E3; [|now left].
  right. exists (String c (String d (String e ""))), r3.
  split; [now apply space3_white|reflexivity].
Qed.

Lemma lstrip_shorter (s : string) : (length (lstrip s) <= length s)%nat.
Proof.
  remember (length s) as n eqn:Hn. revert s Hn.
  induction n as [n IH] using lt_wf_ind. intros s ->.
  destruct (lstrip_step s) as [->|(x & r & Hx & ->)]; [lia|].
  rewrite lstrip_white by exact Hx. rewrite length_append.
  pose proof (white_space_length x Hx).
  specialize (IH (length r)). rewrite length_append in IH.
  specialize (IH ltac:(lia) r eq_refl). lia.
Qed.

(** What [lstrip] returns does not start with white space. *)
Lemma lstrip_head (s x r : string) : In x white_space -> lstrip s <> x ++ r.
Proof.
  intros Hx. remember (length s) as n eqn:Hn. revert s Hn.
  induction n as [n IH] using lt_wf_ind. intros s -> H.
  destruct (lstrip_step s) as [Hs|(y & r' & Hy & ->)].
  - pose proof (lstrip_shorter r) as Hr.
    rewrite Hs in H. subst s. rewrite lstrip_white in Hs by exact Hx.
    rewrite Hs, length_append in Hr. pose proof (white_space_length x Hx). lia.
  - rewrite lstrip_white in H by exact Hy.
    refine (IH (length r') _ r' eq_refl H).
    rewrite length_append. pose proof (white_space_length y Hy). lia.
Qed.

Lemma lstrip_fixed (s : string) :
  (forall x r, In x white_space -> s <> x ++ r) -> lstrip s = s.
Proof.
  intros H. destruct (lstrip_step s) as [Hs|(x & r & Hx & Hr)]; [exact Hs|].
  now apply H in Hr.
Qed.

Lemma lstrip_idempotent (s : string) : lstrip (lstrip s) = lstrip s.
Proof. apply lstrip_fixed. intros x r. apply lstrip_head. Qed.

Lemma blank_append (a b : string) : blank a -> blank b -> blank (a ++ b).
Proof.
  induction 1 as [|x a Hx _ IH]; intros Hb; [exact Hb|].
  rewrite append_assoc. constructor; [exact Hx|now apply IH].
Qed.

(** [lstrip] leaves nothing exactly of a blank string. *)
Lemma lstrip_empty_iff (s : string) : lstrip s = "" <-> blank s.
Proof.
  split.
  - remember (length s) as n eqn:Hn. revert s Hn.
    induction n as [n IH] using lt_wf_ind. intros s -> H.
    destruct (lstrip_step s) as [Hs|(x & r & Hx & ->)].
    + rewrite Hs in H. subst s. constructor.
    + rewrite lstrip_white in H by exact Hx. constructor; [exact Hx|].
      apply (IH (length r)); [|reflexivity|exact H].
      rewrite length_append. pose proof (white_space_length x Hx). lia.
  - induction 1 as [|x s Hx _ IH]; [reflexivity|]. now rewrite lstrip_white.
Qed.

(** [rstrip] cuts a blank end off. *)
Lemma rstrip_cut (s : string) : exists t, s = rstrip s ++ t /\ blank t.
Proof.
  induction s as [|c r (t & Ht & Hb)]; [exists ""; split; [reflexivity|constructor]|].
  cbn [rstrip]. destruct (lstrip (String c r)) as [|d u] eqn:E.
  - exists (String c r). split; [reflexivity|]. now apply lstrip_empty_iff.
  - exists t. split; [|exact Hb]. cbn. now rewrite <- Ht.
Qed.

Lemma rstrip_empty_iff (s : string) : rstrip s = "" <-> blank s.
Proof.
  rewrite <- lstrip_empty_iff. destruct s as [|c r]; [tauto|]. cbn [rstrip].
  destruct (lstrip (String c r)) as [|d u] eqn:E; [tauto|]. split; discriminate.
Qed.

(** What [rstrip] returns does not end with white space. *)
Lemma rstrip_last (s pre x : string) : In x white_space -> rstrip s <> pre ++ x.
Proof.
  intros Hx. pose proof (white_space_length x Hx) as Hlen.
  revert pre. induction s as [|c r IH]; intros pre H.
  - cbn in H. destruct pre; cbn in H; [subst x; cbn in Hlen; lia|discriminate H].
  - cbn [rstrip] in H. destruct (lstrip (String c r)) as [|d u] eqn:E.
    + destruct pre; cbn in H; [subst x; cbn in Hlen; lia|discriminate H].
    + destruct pre as [|p pre].
      * cbn in H. destruct (rstrip_cut r) as (t & Ht & Hb).
        assert (Hblank : blank (String c r)).
        { rewrite Ht. change (String c (rstrip r ++ t)) with (String c (rstrip r) ++ t).
          rewrite H. now constructor. }
        apply lstrip_empty_iff in Hblank. rewrite Hblank in E. discriminate E.
      * cbn in H. injection H as _ H. now apply IH in H.
Qed.

Lemma rstrip_idempotent (s : string) : rstrip (rstrip s) = rstrip s.
Proof.
  induction s as [|c r IH]; [reflexivity|]. cbn [rstrip].
  destruct (lstrip (String c r)) as [|d u] eqn:E; [reflexivity|].
  cbn [rstrip]. destruct (lstrip (String c (rstrip r))) as [|d' u'] eqn:E'.
  - exfalso. apply lstrip_empty_iff in E'.
    destruct (rstrip_cut r) as (t & Ht & Hb).
    assert (Hblank : blank (String c r)).
    { rewrite Ht. change (String c (rstrip r ++ t)) with (String c (rstrip r) ++ t).
      now apply blank_append. }
    apply lstrip_empty_iff in Hblank. rewrite Hblank in E. discriminate E.
  - now rewrite IH.
Qed.

(** [lstrip] cuts a blank start off. *)
Lemma lstrip_cut (s : string) : exists l, s = l ++ lstrip s /\ blank l.
Proof.
  remember (length s) as n eqn:Hn. revert s Hn.
  induction n as [n IH] using lt_wf_ind. intros s ->.
  destruct (lstrip_step s) as [Hs|(x & r & Hx & ->)].
  - exists "". split; [now rewrite Hs|constructor].
  - rewrite lstrip_white by exact Hx.
    destruct (IH (length r)) with (s := r) as (l & Hl & Hb); [|reflexivity|].
    + rewrite length_append. pose proof (white_space_length x Hx). lia.
    + exists (x ++ l). split; [|now constructor].
      rewrite append_assoc. now rewrite <- Hl.
Qed.

(** [strip] leaves nothing exactly of a blank string. *)
Lemma strip_empty_iff (s : string) : strip s = "" <-> blank s.
Proof.
  unfold strip. rewrite rstrip_empty_iff, <- !lstrip_empty_iff. now rewrite lstrip_idempotent.
Qed.

(** What [strip] returns neither starts nor ends with white space. *)
Lemma strip_head (s x r : string) : In x white_space -> strip s <> x ++ r.
Proof.
  intros Hx H. unfold strip in H.
  destruct (rstrip_cut (lstrip s)) as (t & Ht & _).
  rewrite H, append_assoc in Ht. now apply lstrip_head in Ht.
Qed.

Lemma strip_last (s pre x : string) : In x white_space -> strip s <> pre ++ x.
Proof. unfold strip. apply rstrip_last. Qed.

Lemma strip_idempotent (s : string) : strip (strip s) = strip s.
Proof.
  unfold strip at 1. rewrite lstrip_fixed by (intros x r; apply strip_head).
  unfold strip. apply rstrip_idempotent.
Qed.

(** [strip] returns the text without the white space around it. *)
Lemma strip_stripped (s : string) : stripped s (strip s).
Proof.
  split; [|split].
  - destruct (lstrip_cut s) as (l & Hl & Hbl).
    destruct (rstrip_cut (lstrip s)) as (r & Hr & Hbr).
    exists l, r. split; [|now split]. unfold strip. now rewrite <- Hr.
  - intros x t Hx. now apply strip_head.
  - intros x t Hx. now apply strip_last.
Qed.

Lemma get_query_stripped (q : option string) : stripped (sent q) (Views.get_query q).
Proof. unfold Views.get_query. destruct q; apply strip_stripped. Qed.

Lemma to_python_stripped (raw : option string) : stripped (sent raw) (Fields.to_python raw).
Proof.
  destruct raw as [v|]; [apply strip_stripped|].
  change (stripped "" (strip "")). apply strip_stripped.
Qed.

Lemma lower_empty_iff (s : string) : lower s = EmptyString <-> s = EmptyString.
Proof. destruct s; cbn; split; congruence. Qed.

Lemma truthy_lower (q q' : string) : lower q = lower q' -> truthy q = truthy q'.
Proof.
  intros H. destruct q, q'; cbn in *; congruence.
Qed.

End StripFacts.

(** ** Search, continued *)

Module FilterFacts.
Import Models ORM Req Views Spec Props QueryFacts SearchFacts.
Local Open Scope list_scope.

Lemma book_filter_In (s : Store) (P : Book * Author * Category -> bool)
    (bs : list Book) (b : Book) :
  In b (map book_of (filter P (book_rows s bs)))
  <-> In b bs /\ exists a c, book_joined s b a c /\ P (b, a, c) = true.
Proof.
  rewrite in_map_iff. unfold book_joined. split.
  - intros [[[b' a] c] [Hb Hrow]]. unfold book_of in Hb. cbn [fst] in Hb. subst b'.
    apply filter_In in Hrow. destruct Hrow as [Hrow HP].
    apply in_book_rows in Hrow. destruct Hrow as (Hb & Hj).
    split; [exact Hb|]. now exists a, c.
  - intros [Hb (a & c & Hj & HP)]. exists (b, a, c). split; [reflexivity|].
    apply filter_In. split; [|exact HP]. apply in_book_rows. tauto.
Qed.

Lemma user_profile_filter_In (s : Store) (f : UserProfile -> bool)
    (us : list User) (u : User) :
  In u (map fst (filter (on_profile f) (user_rows s us)))
  <-> In u us /\ exists p, In p (profiles s) /\ profile_user p = user_id u /\ f p = true.
Proof.
  rewrite in_map_iff. split.
  - intros [[v o] [Hfst Hrow]]. cbn [fst] in Hfst. subst v.
    apply filter_In in Hrow. destruct Hrow as [Hrow HP].
    apply in_user_rows in Hrow. cbn [fst snd] in Hrow. destruct Hrow as [Hu Ho].
    apply on_profile_iff in HP. destruct HP as [p [Hp Hf]]. cbn [snd] in Hp. subst o.
    split; [exact Hu|]. exists p. tauto.
  - intros [Hu (p & Hp & Hk & Hf)]. exists (u, Some p). split; [reflexivity|].
    apply filter_In. split.
    + apply in_user_rows. cbn [fst snd]. tauto.
    + unfold on_profile. cbn [snd]. exact Hf.
Qed.

(** One author and one category per book when the keys are distinct and
    the references hold: the join has one row per book. *)
Lemma book_rows_one_per_book (s : Store) (bs : list Book) :
  wf_store s -> references_ok s -> incl bs (books s) ->
  map book_of (book_rows s bs) = bs.
Proof.
  intros (_ & _ & Ha & Hc & _) Href Hincl.
  unfold book_rows. induction bs as [|b r IH]; [reflexivity|].
  cbn [flat_map]. rewrite map_app, IH by (intros x Hx; apply Hincl; now right).
  assert (Hb : In b (books s)) by (apply Hincl; now left).
  destruct (Href b Hb) as [[a [Hain Hak]] [c [Hcin Hck]]].
  unfold join_book, authors_of, categories_of.
  rewrite (filter_key author_id (book_author b) (authors s) Ha).
  rewrite (filter_key category_id (book_category b) (categories s) Hc).
  destruct (find _ (authors s)) as [a'|] eqn:Ea.
  - destruct (find _ (categories s)) as [c'|] eqn:Ec; [reflexivity|].
    exfalso. apply (find_none _ _ Ec) in Hcin. apply Z.eqb_neq in Hcin. contradiction.
  - exfalso. apply (find_none _ _ Ea) in Hain. apply Z.eqb_neq in Hain. contradiction.
Qed.

(** The query sets read the query through its case folding only. *)
Lemma user_search_qs_folded (s : Store) (q q' f : string) :
  PyStr.lower q = PyStr.lower q' -> user_search_qs s q f = user_search_qs s q' f.
Proof.
  intros H. unfold user_search_qs, Q_user_all_fields, PyStr.icontains.
  rewrite (StripFacts.truthy_lower q q' H). now rewrite H.
Qed.

Lemma book_search_qs_folded (s : Store) (q q' f : string) :
  PyStr.lower q = PyStr.lower q' -> book_search_qs s q f = book_search_qs s q' f.
Proof.
  intros H. unfold book_search_qs, Q_book_all_fields, PyStr.icontains.
  rewrite (StripFacts.truthy_lower q q' H). now rewrite H.
Qed.

End FilterFacts.

(** ** The global search against the per-table searches *)

Module GlobalFacts.
Import Models ORM Req Views Spec Props QueryFacts SearchFacts.
Local Open Scope list_scope.

Lemma search_users_folded (s : Store) (q q' : string) :
  PyStr.lower q = PyStr.lower q' -> search_users s q = search_users s q'.
Proof.
  intros H. unfold search_users, Q_search_users, PyStr.icontains. now rewrite H.
Qed.

Lemma search_books_folded (s : Store) (q q' : string) :
  PyStr.lower q = PyStr.lower q' -> search_books s q = search_books s q'.
Proof.
  intros H. unfold search_books, Q_book_all_fields, PyStr.icontains. now rewrite H.
Qed.

Lemma search_authors_folded (s : Store) (q q' : string) :
  PyStr.lower q = PyStr.lower q' -> search_authors s q = search_authors s q'.
Proof.
  intros H. unfold search_authors, PyStr.icontains. now rewrite H.
Qed.

Lemma search_categories_folded (s : Store) (q q' : string) :
  PyStr.lower q = PyStr.lower q' -> search_categories s q = search_categories s q'.
Proof.
  intros H. unfold search_categories, PyStr.icontains. now rewrite H.
Qed.

Lemma kept_rows_perm {A : Type} (keep : A -> bool) (l l' : list A) :
  Permutation l l' -> Permutation (filter keep l) (filter keep l').
Proof.
  induction 1 as [|x l l' _ IH|x y l|l l' l'' _ IH1 _ IH2]; cbn [filter].
  - constructor.
  - destruct (keep x); [now constructor|exact IH].
  - destruct (keep x), (keep y); try apply Permutation_refl. apply perm_swap.
  - now transitivity (filter keep l').
Qed.

Lemma distinct_shorter {A : Type} (eq_dec : forall a b : A, {a = b} + {a <> b})
    (l : list A) :
  (List.length (distinct eq_dec l) <= List.length l)%nat.
Proof.
  induction l as [|x r IH]; [apply Nat.le_refl|]. cbn [distinct List.length].
  apply le_n_S. etransitivity; [apply filter_length_le|exact IH].
Qed.

(** The global book matches are the matches of the book search, listed in
    table order instead of newest first. *)
Lemma book_matches_perm (s : Store) (q : string) :
  q <> ""%string ->
  Permutation (map book_of (filter (Q_book_all_fields q) (book_rows s (books s))))
              (book_search_qs s q "all").
Proof.
  intros Hq. apply PyStrFacts.truthy_iff in Hq.
  unfold book_search_qs, books_qs. rewrite Hq. cbn [String.eqb Ascii.eqb Bool.eqb].
  apply Permutation_map, kept_rows_perm. unfold book_rows.
  apply Permutation_flat_map. symmetry. apply order_by_desc_perm.
Qed.

Lemma limit10_short {A : Type} (l : list A) :
  (List.length l <= 10)%nat -> limit10 l = l.
Proof. intros H. unfold limit10. now apply firstn_all2. Qed.

Lemma user_global_all_fields (s : Store) (q : string) (u : User) :
  user_matches_global s q u -> user_matches_all_fields s q u.
Proof.
  unfold user_matches_global, user_matches_all_fields.
  intros [H|[H|(p & Hp & Hk & H)]]; [now left|right; now left|].
  right; right. exists p. tauto.
Qed.

End GlobalFacts.

(** ** Ordered query sets *)

Module SortFacts.
Import Models ORM Req Views Spec Props QueryFacts OrderFacts.
Local Open Scope list_scope.

Lemma insert_asc_perm {A : Type} (key : A -> string) (x : A) (l : list A) :
  Permutation (x :: l) (insert_asc key x l).
Proof.
  induction l as [|y r IH]; cbn [insert_asc]; [apply Permutation_refl|].
  destruct (String.leb (key x) (key y)); [apply Permutation_refl|].
  etransitivity; [apply perm_swap|]. now constructor.
Qed.

Lemma order_by_asc_perm {A : Type} (key : A -> string) (l : list A) :
  Permutation l (order_by_asc key l).
Proof.
  unfold order_by_asc. induction l as [|x r IH]; cbn [fold_right]; [constructor|].
  etransitivity; [|apply insert_asc_perm]. now constructor.
Qed.

Lemma leb_false_flip (a b : string) : String.leb a b = false -> String.leb b a = true.
Proof.
  intros H. destruct (String.leb_total a b) as [E|E]; [congruence|exact E].
Qed.

Lemma insert_asc_sorted {A : Type} (key : A -> string) (x : A) (l : list A) :
  ascending key l -> ascending key (insert_asc key x l).
Proof.
  induction 1 as [|y|y z r Hyz Hr IH]; cbn [insert_asc].
  - constructor.
  - destruct (String.leb (key x) (key y)) eqn:E.
    + constructor; [exact E|constructor].
    + constructor; [now apply leb_false_flip|constructor].
  - destruct (String.leb (key x) (key y)) eqn:E.
    + constructor; [exact E|]. now constructor.
    + cbn [insert_asc] in IH. destruct (String.leb (key x) (key z)) eqn:Ez.
      * constructor; [now apply leb_false_flip|exact IH].
      * constructor; [exact Hyz|exact IH].
Qed.

Lemma order_by_asc_sorted {A : Type} (key : A -> string) (l : list A) :
  ascending key (order_by_asc key l).
Proof.
  unfold order_by_asc. induction l as [|x r IH]; cbn [fold_right]; [constructor|].
  now apply insert_asc_sorted.
Qed.

Lemma newest_first_same {A : Type} (key : A -> Z) (x : A) (l : list A) :
  (forall y, In y l -> y = x) -> newest_first key l.
Proof.
  induction l as [|h r IH]; intros H; constructor.
  - intros y Hy. rewrite (H y (or_intror Hy)), (H h (or_introl eq_refl)). apply Z.le_refl.
  - apply IH. intros y Hy. apply H. now right.
Qed.

Lemma newest_first_app {A : Type} (key : A -> Z) (a b : list A) :
  newest_first key a -> newest_first key b ->
  (forall x y, In x a -> In y b -> (key y <= key x)%Z) ->
  newest_first key (a ++ b).
Proof.
  induction 1 as [|h a Hh _ IH]; intros Hb Hab; [exact Hb|].
  cbn [app]. constructor.
  - intros y Hy. apply in_app_or in Hy. destruct Hy as [Hy|Hy]; [now apply Hh|].
    apply Hab; [now left|exact Hy].
  - apply IH; [exact Hb|]. intros x y Hx Hy. apply Hab; [now right|exact Hy].
Qed.

(** The filtered rows of a join over an ordered table, read back as the
    table's records, keep the table's order. *)
Lemma newest_first_rows {A R : Type} (key : A -> Z) (join : A -> list R)
    (record : R -> A) (keep : R -> bool) (l : list A) :
  (forall x r, In r (join x) -> record r = x) ->
  newest_first key l ->
  newest_first key (map record (filter keep (flat_map join l))).
Proof.
  intros Hjoin. induction 1 as [|x l Hx _ IH]; [constructor|].
  cbn [flat_map]. rewrite filter_app, map_app. apply newest_first_app.
  - apply (newest_first_same key x). intros y Hy.
    apply in_map_iff in Hy. destruct Hy as (r & <- & Hr).
    apply filter_In in Hr. apply Hjoin. exact (proj1 Hr).
  - exact IH.
  - intros a b Ha Hb.
    apply in_map_iff in Ha. destruct Ha as (r & <- & Hr). apply filter_In in Hr.
    rewrite (Hjoin x r (proj1 Hr)).
    apply in_map_iff in Hb. destruct Hb as (r' & <- & Hr'). apply filter_In in Hr'.
    destruct Hr' as [Hr' _]. apply in_flat_map in Hr'. destruct Hr' as (z & Hz & Hr').
    rewrite (Hjoin z r' Hr'). now apply Hx.
Qed.

Lemma newest_first_filter {A : Type} (key : A -> Z) (keep : A -> bool) (l : list A) :
  newest_first key l -> newest_first key (filter keep l).
Proof.
  induction 1 as [|x l Hx _ IH]; cbn [filter]; [constructor|].
  destruct (keep x); [|exact IH]. constructor; [|exact IH].
  intros y Hy. apply filter_In in Hy. apply Hx. exact (proj1 Hy).
Qed.

Lemma join_profile_user (s : Store) (u : User) (r : User * option UserProfile) :
  In r (join_profile s u) -> fst r = u.
Proof.
  unfold join_profile. destruct (profiles_of s u) as [|p ps].
  - intros [<-|[]]. reflexivity.
  - intros H. apply in_map_iff in H. destruct H as (p' & <- & _). reflexivity.
Qed.

Lemma join_book_book (s : Store) (b : Book) (r : Book * Author * Category) :
  In r (join_book s b) -> book_of r = b.
Proof.
  unfold join_book. intros H. apply in_flat_map in H. destruct H as (a & _ & H).
  apply in_map_iff in H. destruct H as (c & <- & _). reflexivity.
Qed.

End SortFacts.

(** ** The declared fields *)

Module FieldFacts.
Import Models Req Forms Fields Spec.
Local Open Scope list_scope.

Lemma Field_clean_valid (required : bool) (validators : string -> list string)
    (raw : option string) (x : string) :
  Field_clean required validators raw = Valid x
  <-> (x = to_python raw /\ x <> ""%string /\ validators x = [])
      \/ (x = ""%string /\ to_python raw = ""%string /\ required = false).
Proof.
  unfold Field_clean. destruct (PyStr.truthy (to_python raw)) eqn:Et.
  - apply PyStrFacts.truthy_iff in Et.
    destruct (validators (to_python raw)) as [|e more] eqn:Ev; split.
    + intros H. injection H as <-. left. now repeat split.
    + intros [(-> & _ & _)|(-> & H & _)]; [reflexivity|congruence].
    + discriminate.
    + intros [(-> & _ & H)|(-> & H & _)]; congruence.
  - apply PyStrFacts.truthy_false_iff in Et. destruct required; split.
    + discriminate.
    + intros [(-> & H & _)|(_ & _ & H)]; congruence.
    + intros H. injection H as <-. right. now repeat split.
    + intros [(-> & H & _)|(-> & _ & _)]; [congruence|reflexivity].
Qed.

Lemma validators_no_limit (value : string) :
  CharField_validators None value = [] <-> has_null value = false.
Proof.
  unfold CharField_validators. cbn [app]. destruct (has_null value); split; congruence.
Qed.

Lemma validators_limit (limit : nat) (value : string) :
  CharField_validators (Some limit) value = []
  <-> (len value <= limit)%nat /\ has_null value = false.
Proof.
  unfold CharField_validators.
  destruct (Nat.ltb_spec limit (len value)) as [Hlt|Hle]; cbn [app].
  - split; [discriminate|]. intros [H _]. lia.
  - destruct (has_null value); split; try discriminate; try tauto.
    intros [_ H]. discriminate H.
Qed.

(** The username field lets a value through exactly when the stripped
    value is an accepted username. *)
Lemma username_field (raw : option string) (name : string) :
  CharField true (Some 150%nat) raw = Valid name
  <-> name = to_python raw /\ username_accepted name.
Proof.
  unfold CharField, username_accepted. rewrite Field_clean_valid, validators_limit.
  split.
  - intros [(H1 & H2 & H3)|(_ & _ & H)]; [tauto|discriminate H].
  - intros (H1 & H2 & H3). left. tauto.
Qed.

(** A password field delivers a value that is not empty exactly when the
    stripped value is a supplied password. *)
Lemma password_field (required : bool) (raw : option string) (p : string) :
  CharField required None raw = Valid p /\ p <> ""%string
  <-> p = to_python raw /\ password_supplied p.
Proof.
  unfold CharField, password_supplied. rewrite Field_clean_valid, validators_no_limit.
  split.
  - intros [[(H1 & H2 & H3)|(H1 & _)] H]; [tauto|contradiction].
  - intros (H1 & H2 & H3). split; [left; tauto|exact H2].
Qed.

Lemma optional_field_blank (raw : option string) :
  to_python raw = ""%string -> CharField false None raw = Valid ""%string.
Proof.
  intros H. unfold CharField. apply Field_clean_valid. right. now repeat split.
Qed.

(** The messages of the username field are not the duplicate-username
    message. *)
Lemma username_field_errors (raw : option string) (e : string) (more : list string) :
  CharField true (Some 150%nat) raw = Invalid e more ->
  ~ In duplicate_username (e :: more).
Proof.
  unfold CharField, Field_clean.
  destruct (PyStr.truthy (to_python raw)).
  - unfold CharField_validators.
    destruct (150 <? len (to_python raw))%nat; destruct (has_null (to_python raw));
      cbn [app]; intros H; try discriminate H; injection H as <- <-;
      cbn [In]; unfold max_length_message, null_message, duplicate_username;
      cbn [append]; intuition discriminate.
  - intros H. injection H as <- <-. cbn [In]. intuition discriminate.
Qed.

(** The two passwords of a submission are supplied and differ when the
    stripped values are. *)
Lemma fields_supplied_and_differ (u e : cleaned string) (r1 r2 : bool)
    (a b : option string) :
  supplied_and_differ (mkUserData u e (CharField r1 None a) (CharField r2 None b))
  <-> password_supplied (to_python a) /\ password_supplied (to_python b)
      /\ to_python a <> to_python b.
Proof.
  unfold supplied_and_differ. cbn [in_password in_password_confirm]. split.
  - intros (p & c & Hp & Hc & Hpn & Hcn & Hne).
    destruct (proj1 (password_field r1 a p) (conj Hp Hpn)) as [-> Hsp].
    destruct (proj1 (password_field r2 b c) (conj Hc Hcn)) as [-> Hsc].
    split; [exact Hsp|]. split; [exact Hsc|exact Hne].
  - intros (Hp & Hc & Hne). exists (to_python a), (to_python b).
    destruct (proj2 (password_field r1 a _) (conj eq_refl Hp)) as [H1 H2].
    destruct (proj2 (password_field r2 b _) (conj eq_refl Hc)) as [H3 H4].
    split; [exact H1|]. split; [exact H3|]. split; [exact H2|]. split; [exact H4|exact Hne].
Qed.

End FieldFacts.

(** ** The search handlers and their query sets *)

Module SearchPageFacts.
Import Models ORM Req Paginator Views Spec Props.
Local Open Scope list_scope.

Lemma user_search_eq (q f : option string) (n : page_arg) (w : World) :
  authenticated w ->
  user_search q f n w
  = match get_page (user_search_qs (db w) (get_query q) (get_or_all f)) n with
    | Ok p => (Ok (Render "user.html" (mkSearchPage p (get_query q))), w)
    | Raise e => (Raise e, w)
    end.
Proof.
  intros Hu. unfold user_search.
  exact (ListViewFacts.paginate_eq
           (fun s => user_search_qs s (get_query q) (get_or_all f))
           (fun p => Render "user.html" (mkSearchPage p (get_query q))) n w Hu).
Qed.

Lemma book_search_eq (q f : option string) (n : page_arg) (w : World) :
  authenticated w ->
  book_search q f n w
  = match get_page (book_search_qs (db w) (get_query q) (get_or_all f)) n with
    | Ok p => (Ok (Render "book.html" (mkSearchPage p (get_query q))), w)
    | Raise e => (Raise e, w)
    end.
Proof.
  intros Hu. unfold book_search.
  exact (ListViewFacts.paginate_eq
           (fun s => book_search_qs s (get_query q) (get_or_all f))
           (fun p => Render "book.html" (mkSearchPage p (get_query q))) n w Hu).
Qed.

Lemma user_search_qs_sorted (s : Store) (q f : string) :
  newest_first date_joined (user_search_qs s q f).
Proof.
  pose proof (OrderFacts.order_by_desc_sorted date_joined (users s)) as Hus.
  assert (Hrows : forall keep,
            newest_first date_joined
              (map fst (filter keep (user_rows s (order_by_desc date_joined (users s)))))).
  { intros keep. apply SortFacts.newest_first_rows; [|exact Hus].
    intros x r. apply SortFacts.join_profile_user. }
  unfold user_search_qs. destruct (PyStr.truthy q); [|exact Hus].
  destruct (String.eqb f "username"); [now apply SortFacts.newest_first_filter|].
  destruct (String.eqb f "email"); [now apply SortFacts.newest_first_filter|].
  destruct (String.eqb f "address"); apply Hrows.
Qed.

Lemma book_search_qs_sorted (s : Store) (q f : string) :
  newest_first created_at (book_search_qs s q f).
Proof.
  pose proof (OrderFacts.order_by_desc_sorted created_at (books s)) as Hbs.
  assert (Hrows : forall keep,
            newest_first created_at
              (map book_of (filter keep (book_rows s (order_by_desc created_at (books s)))))).
  { intros keep. apply SortFacts.newest_first_rows; [|exact Hbs].
    intros x r. apply SortFacts.join_book_book. }
  unfold book_search_qs, books_qs. destruct (PyStr.truthy q).
  - destruct (String.eqb f "title"); [apply Hrows|].
    destruct (String.eqb f "author"); [apply Hrows|].
    destruct (String.eqb f "category"); apply Hrows.
  - rewrite <- (filter_true (book_rows s (order_by_desc created_at (books s)))).
    apply Hrows.
Qed.

Lemma selects_iff (search_type kind : string) :
  selects search_type kind = true <-> search_type = "all"%string \/ search_type = kind.
Proof. unfold selects. now rewrite orb_true_iff, !String.eqb_eq. Qed.

Lemma selects_not (search_type kind : string) :
  search_type <> "all"%string -> search_type <> kind -> selects search_type kind = false.
Proof.
  intros H1 H2. apply not_true_iff_false. rewrite selects_iff. tauto.
Qed.

End SearchPageFacts.

(* ===================================================================== *)
(** * Part III: the specification's claims                                *)
(* ===================================================================== *)

Module Claims.
Import Models ORM Req Managers Forms Fields Paginator Views Spec Props.

(** A store of eleven users, joined at times 1 to 11, and the session of
    the first of them. *)
Definition eleven_users : list User :=
  map (fun i => mkUser i "u" "" "" None i) [1; 2; 3; 4; 5; 6; 7; 8; 9; 10; 11]%Z.

Definition eleven_world : World :=
  mkWorld (mkStore eleven_users [] [] [] []) [] (Some 1%Z).

(** C3, as stated, fails: with eleven users, newest first, [page=0] shows
    the second (last) page, which holds the oldest user alone, and not
    page 1. *)
Lemma page_zero_is_not_page_one :
  user_list (PageInt 0) eleven_world
    = (Ok (Render "user.html" (mkPage [mkUser 1 "u" "" "" None 1] 2)), eleven_world)
  /\ user_list (PageInt 1) eleven_world
    = (Ok (Render "user.html" (mkPage (rev (tl eleven_users)) 1)), eleven_world)
  /\ user_list (PageInt 0) eleven_world <> user_list (PageInt 1) eleven_world.
Proof.
  assert (H0 : user_list (PageInt 0) eleven_world
    = (Ok (Render "user.html" (mkPage [mkUser 1 "u" "" "" None 1] 2)), eleven_world))
    by (vm_compute; reflexivity).
  assert (H1 : user_list (PageInt 1) eleven_world
    = (Ok (Render "user.html" (mkPage (rev (tl eleven_users)) 1)), eleven_world))
    by (vm_compute; reflexivity).
  split; [exact H0|]. split; [exact H1|].
  rewrite H0, H1. intros H. discriminate H.
Qed.

(** C3 (amended). In every paginated list view (ten per page, pages
    counted from 1) a page number beyond the last page, and likewise page
    0 or a negative page number, gives the last page's contents and no
    error; so page 0 gives page 1 only when there is a single page. *)
Theorem out_of_range_page_is_last_page :
  forall (w : World) (n : Z),
    authenticated w ->
    (forall (A : Type) (l : list A),
        (n < 1 \/ num_pages l < n)%Z ->
        get_page l (PageInt n) = Ok (last_page l)
        /\ page l (PageInt (num_pages l)) = Ok (last_page l))
    /\ (let qs := order_by_desc date_joined (users (db w)) in
        (n < 1 \/ num_pages qs < n)%Z ->
        user_list (PageInt n) w = (Ok (Render "user.html" (last_page qs)), w))
    /\ (let qs := map book_of (books_qs (db w)) in
        (n < 1 \/ num_pages qs < n)%Z ->
        book_list (PageInt n) w = (Ok (Render "book.html" (last_page qs)), w)).
Proof.
  intros w n Hu. split; [|split].
  - intros A l Hn. split.
    + now apply PaginatorFacts.get_page_out_of_range.
    + apply PaginatorFacts.page_last.
  - intros qs Hn. unfold user_list.
    apply (ListViewFacts.paginate_out_of_range
             (fun s => order_by_desc date_joined (users s))
             (fun p => Render "user.html" p)); assumption.
  - intros qs Hn. unfold book_list.
    apply (ListViewFacts.paginate_out_of_range
             (fun s => map book_of (books_qs s))
             (fun p => Render "book.html" p)); assumption.
Qed.

Lemma out_of_range_page_is_last_page_witness :
  user_list (PageInt 12) eleven_world
  = (Ok (Render "user.html"
           (last_page (order_by_desc date_joined (users (db eleven_world))))),
     eleven_world).
Proof.
  apply (out_of_range_page_is_last_page eleven_world 12).
  - unfold authenticated. vm_compute. discriminate.
  - vm_compute. right. reflexivity.
Defined.

(** A store with the single user Admin, and a submission of the
    username admin with matching passwords. *)
Definition admin_user : User := mkUser 1 "Admin" "" "" None 0.

Definition admin_store : Store := mkStore [admin_user] [] [] [] [].

(** The no-break space U+00A0, which [str.strip] removes. *)
Definition nbsp : string := String (ascii_of_nat 194) (String (ascii_of_nat 160) "").

(** An email field whose validators find nothing wrong. *)
Definition no_email_errors (value : string) : list string := [].

(** Three submissions: ADMIN in capitals between two no-break spaces;
    admin in small letters; the free name bob. *)
Definition capital_admin_post : Post :=
  mkPost (Some (nbsp ++ "ADMIN" ++ nbsp)) None (Some "pw") (Some "pw").

Definition small_admin_post : Post :=
  mkPost (Some "admin") None (Some "pw") (Some "pw").

Definition bob_post : Post := mkPost (Some "bob") None (Some "pw") (Some "pw").

(** A store whose single user is called école (the first letter is
    U+00E9, in UTF-8 C3 A9), and the registration of École (U+00C9, in
    UTF-8 C3 89). *)
Definition small_ecole : string :=
  String (ascii_of_nat 195) (String (ascii_of_nat 169) "cole").

Definition capital_ecole : string :=
  String (ascii_of_nat 195) (String (ascii_of_nat 137) "cole").

Definition ecole_user : User := mkUser 1 small_ecole "" "" None 0.

Definition ecole_world : World := mkWorld (mkStore [ecole_user] [] [] [] []) [] None.

Definition ecole_post : Post := mkPost (Some capital_ecole) None (Some "pw") (Some "pw").

Definition plain_env : Env :=
  mkEnv 5 (fun raw => raw) (fun mail => mail) (fun name => name) "random"
    (fun _ => None) 0 0.

(** C1, as stated, fails: École and école are equal ignoring case, yet
    with école stored the registration of École raises no duplicate error,
    validates, and the store then holds both names.  The lookup folds the
    letters A to Z only. *)
Lemma accented_capital_is_another_username :
  let form := SimpleRegisterForm (db ecole_world)
                (SimpleRegisterForm_fields no_email_errors ecole_post) in
  same_ignoring_latin_case capital_ecole (username ecole_user)
  /\ In ecole_user (users (db ecole_world))
  /\ ~ In (Some "username", duplicate_username) (errors form)
  /\ is_valid form = true
  /\ fst (register plain_env POST
            (SimpleRegisterForm_fields no_email_errors ecole_post) ecole_world)
     = Ok (Redirect "home")
  /\ map username
       (users (db (snd (register plain_env POST
                          (SimpleRegisterForm_fields no_email_errors ecole_post)
                          ecole_world))))
     = [small_ecole; capital_ecole].
Proof.
  cbv zeta. split; [|split; [|split; [|split; [|split]]]].
  - apply (latin_accented 9); [lia|lia|].
    repeat (apply latin_next; [now left|]). apply latin_empty.
  - now left.
  - vm_compute. intros [].
  - vm_compute. reflexivity.
  - vm_compute. reflexivity.
  - vm_compute. reflexivity.
Qed.

(** C1 (amended). The username that validation looks at is the submitted
    one without the white space around it.  In user creation, registration
    and user edit the duplicate-username error is recorded exactly when
    the username field accepts that value and another user record has it
    as username ignoring the case of the letters A to Z; on edit the
    record being edited does not count, so keeping one's own username, in
    any such casing, raises no error. *)
Theorem duplicate_username_exactly_when_taken :
  forall (s : Store) (editing : option User) (v : string -> list string) (post : Post),
    let name := to_python (post_username post) in
    let edit_form := UserForm s editing (UserForm_fields v post) in
    let register_form := SimpleRegisterForm s (SimpleRegisterForm_fields v post) in
    stripped (sent (post_username post)) name
    /\ (In (Some "username", duplicate_username) (errors edit_form)
        <-> username_accepted name /\ taken_by_another s editing name)
    /\ (In (Some "username", duplicate_username) (errors register_form)
        <-> username_accepted name /\ taken_by_another s None name)
    /\ (username_accepted name -> taken_by_another s editing name ->
        is_valid edit_form = false)
    /\ (username_accepted name -> taken_by_another s None name ->
        is_valid register_form = false)
    /\ (forall i, editing = Some i ->
          (forall u, In u (users s) -> same_ignoring_case (username u) name ->
                     user_id u = user_id i) ->
          ~ In (Some "username", duplicate_username) (errors edit_form)).
Proof.
  intros s editing v post name edit_form register_form.
  assert (Hfield : forall hook clean data,
            in_username data = CharField true (Some 150%nat) (post_username post) ->
            (forall n, hook n = ValidationError duplicate_username <-> taken_by_another s
                         (match clean with true => editing | false => None end) n) ->
            forall form, form = full_clean hook
                                  (if clean then UserForm_clean else SimpleRegisterForm_clean)
                                  data ->
            (In (Some "username", duplicate_username) (errors form)
             <-> username_accepted name
                 /\ taken_by_another s
                      (match clean with true => editing | false => None end) name)).
  { intros hook clean data Hin Hhook form ->.
    rewrite FormsFacts.username_error_iff, Hin.
    destruct (CharField true (Some 150%nat) (post_username post)) as [n|e more] eqn:E.
    - apply FieldFacts.username_field in E. destruct E as [-> Hacc]. fold name.
      rewrite FormsFacts.hook_error_iff, Hhook. tauto.
    - split.
      + intros H. exfalso. cbn [clean_field snd] in H. apply in_map_iff in H.
        destruct H as (m & Hm & Hin'). injection Hm as ->.
        now apply (FieldFacts.username_field_errors _ _ _ E).
      + intros [Hacc _]. exfalso.
        assert (Hv : CharField true (Some 150%nat) (post_username post) = Valid name)
          by (apply FieldFacts.username_field; now split).
        congruence. }
  assert (HU : In (Some "username", duplicate_username) (errors edit_form)
               <-> username_accepted name /\ taken_by_another s editing name).
  { apply (Hfield (UserForm_clean_username s editing) true (UserForm_fields v post));
      [reflexivity| |reflexivity].
    intros n. apply FormsFacts.UserForm_clean_username_spec. }
  assert (HR : In (Some "username", duplicate_username) (errors register_form)
               <-> username_accepted name /\ taken_by_another s None name).
  { apply (Hfield (SimpleRegisterForm_clean_username s) false
             (SimpleRegisterForm_fields v post)); [reflexivity| |reflexivity].
    intros n. apply FormsFacts.SimpleRegisterForm_clean_username_spec. }
  split; [apply StripFacts.to_python_stripped|].
  split; [exact HU|]. split; [exact HR|]. split; [|split].
  - intros Ha Ht. eapply FormsFacts.is_valid_false. apply HU. now split.
  - intros Ha Ht. eapply FormsFacts.is_valid_false. apply HR. now split.
  - intros i Hi Hown Herr. apply HU in Herr.
    destruct Herr as [_ (u & Hin & Hsame & Hother)].
    apply (Hother i Hi). now apply Hown.
Qed.

Lemma duplicate_username_exactly_when_taken_witness :
  In (Some "username", duplicate_username)
     (errors (SimpleRegisterForm admin_store
                (SimpleRegisterForm_fields no_email_errors capital_admin_post)))
  /\ ~ In (Some "username", duplicate_username)
         (errors (SimpleRegisterForm admin_store
                    (SimpleRegisterForm_fields no_email_errors bob_post)))
  /\ ~ In (Some "username", duplicate_username)
         (errors (UserForm admin_store (Some admin_user)
                    (UserForm_fields no_email_errors small_admin_post))).
Proof.
  destruct (duplicate_username_exactly_when_taken admin_store None no_email_errors
              capital_admin_post) as (_ & _ & Hcapital & _).
  destruct (duplicate_username_exactly_when_taken admin_store None no_email_errors
              bob_post) as (_ & _ & Hbob & _).
  destruct (duplicate_username_exactly_when_taken admin_store (Some admin_user)
              no_email_errors small_admin_post) as (_ & _ & _ & _ & _ & Hown).
  split; [|split].
  - apply Hcapital. split.
    + split; [vm_compute; discriminate|]. split; [vm_compute; lia|reflexivity].
    + exists admin_user. split; [now left|]. split; [|discriminate].
      apply PyStrFacts.same_ignoring_case_iff. reflexivity.
  - intros H. apply Hbob in H. destruct H as [_ (u & [<-|[]] & Hsame & _)].
    apply PyStrFacts.same_ignoring_case_iff in Hsame. discriminate Hsame.
  - apply (Hown admin_user eq_refl). intros u [<-|[]] _. reflexivity.
Defined.

(** An environment whose store refuses [get_or_create], that is after
    the user row has been written; an anonymous visitor of the store with
    the single user Admin; a valid registration and a valid profile. *)
Definition failing_env : Env :=
  mkEnv 5 (fun raw => raw) (fun mail => mail) (fun name => name) "random"
    (fun op => match op with
               | OpGetOrCreateProfile => Some (DatabaseError "connection lost")
               | _ => None
               end) 0 0.

Definition anonymous_world : World := mkWorld admin_store [] None.

Definition bob_submission : UserData :=
  mkUserData (Valid "bob") (Valid "") (Valid "pw") (Valid "pw").

Definition blank_profile : ProfileData :=
  mkProfileData (Valid "") (Valid "") (Valid NoFile).

(** C2. For a user-creation request, registration or administrative add,
    the write of the user and of its profile is atomic: when a step of
    the combined write fails, the store is exactly as before the request;
    the store changes only with the success redirect, and then the block
    went through whole; no user is left without profile and no profile
    without user; the handler itself raises nothing. *)
Theorem user_creation_is_atomic :
  forall (env : Env) (method : Method) (data : UserData) (pdata : ProfileData)
         (w : World),
    let r := register env method data w in
    let a := add_user env method data pdata w in
    ((fault env OpCreateUser <> None \/ fault env OpGetOrCreateProfile <> None
      \/ fault env OpLogin <> None) -> db (snd r) = db w)
    /\ ((fault env OpCreateUser <> None \/ fault env OpGetOrCreateProfile <> None
         \/ fault env OpProfileSave <> None) -> db (snd a) = db w)
    /\ (db (snd r) = db w
        \/ fst r = Ok (Redirect "home") /\ committed (db w) (db (snd r)))
    /\ (db (snd a) = db w
        \/ fst a = Ok (Redirect "user_list") /\ committed (db w) (db (snd a)))
    /\ (fst a <> Ok (Redirect "user_list") -> db (snd a) = db w)
    /\ no_user_without_profile (db w) (db (snd r))
    /\ no_orphan_profile (db w) (db (snd r))
    /\ no_user_without_profile (db w) (db (snd a))
    /\ no_orphan_profile (db w) (db (snd a))
    /\ (exists resp, fst r = Ok resp)
    /\ (exists resp, fst a = Ok resp).
Proof.
  intros env method data pdata w r a.
  pose proof (CreationFacts.register_cases env method data w) as Hr.
  pose proof (CreationFacts.add_user_cases env method data pdata w) as Ha.
  cbv zeta in Hr, Ha. fold r in Hr. fold a in Ha.
  assert (Hsame : forall s, no_user_without_profile s s /\ no_orphan_profile s s).
  { intros s. split; intros x Hx; left; exact Hx. }
  destruct Hr as [(resp & Hresp & Hdb)|(Hresp & F1 & F2 & F3 & Hc)];
    destruct Ha as [(resp' & Hresp' & Hne & Hdb')|(Hresp' & G1 & G2 & G3 & Hc')].
  all: repeat match goal with |- _ /\ _ => split end.
  all: try rewrite Hdb; try rewrite Hdb'.
  all: try (apply Hsame).
  all: try (intros; reflexivity).
  all: try (left; reflexivity).
  all: try (eexists; eassumption).
  all: try (right; split; assumption).
  all: try (destruct Hc as (? & ? & ?); assumption).
  all: try (destruct Hc' as (? & ? & ?); assumption).
  all: try (intros [H|[H|H]]; congruence).
  all: try (intros H; congruence).
Qed.

Lemma user_creation_is_atomic_witness :
  db (snd (register failing_env POST bob_submission anonymous_world)) = db anonymous_world
  /\ db (snd (add_user failing_env POST bob_submission blank_profile
               (mkWorld admin_store [] (Some 1%Z))))
     = admin_store.
Proof.
  split.
  - destruct (user_creation_is_atomic failing_env POST bob_submission blank_profile
                anonymous_world) as (H & _).
    apply H. right. left. discriminate.
  - destruct (user_creation_is_atomic failing_env POST bob_submission blank_profile
                (mkWorld admin_store [] (Some 1%Z))) as (_ & H & _).
    apply H. right. left. discriminate.
Defined.

(** An environment whose store always answers. *)
Definition working_env : Env :=
  mkEnv 5 (fun raw => raw) (fun mail => mail) (fun name => name) "random"
    (fun _ => None) 0 0.

(** The registration of the specification's example, password abc and
    confirmation xyz; and one whose password ends in a space that the
    confirmation lacks. *)
Definition abc_xyz_post : Post :=
  mkPost (Some "carol") None (Some "abc") (Some "xyz").

Definition trailing_space_post : Post :=
  mkPost (Some "carol") None (Some "abc ") (Some "abc").

(** C5, as stated, fails: the password abc followed by a space and the
    confirmation abc are both supplied and differ, yet the registration
    validates and the user is created.  The fields strip the two values
    before they are compared. *)
Lemma trailing_space_password_is_accepted :
  let data := SimpleRegisterForm_fields no_email_errors trailing_space_post in
  let r := register working_env POST data anonymous_world in
  sent (post_password trailing_space_post) <> ""
  /\ sent (post_password_confirm trailing_space_post) <> ""
  /\ sent (post_password trailing_space_post)
     <> sent (post_password_confirm trailing_space_post)
  /\ errors (SimpleRegisterForm (db anonymous_world) data) = []
  /\ fst r = Ok (Redirect "home")
  /\ users (db (snd r)) = [admin_user; mkUser 2 "carol" "" "abc" (Some 5%Z) 5].
Proof.
  cbv zeta. repeat split; try discriminate; vm_compute; reflexivity.
Qed.

(** C5 (amended). A registration fails validation with the mismatch
    error exactly when the password and the confirmation, each without
    the white space around it, are both supplied (not empty, no null
    character) and differ; then no user is created: the store is as
    before, and the anonymous visitor who posted it gets the form back
    with the notice to correct the errors. *)
Theorem registration_password_mismatch :
  forall (env : Env) (method : Method) (v : string -> list string) (post : Post)
         (w : World),
    let data := SimpleRegisterForm_fields v post in
    let form := SimpleRegisterForm (db w) data in
    let p := to_python (post_password post) in
    let c := to_python (post_password_confirm post) in
    stripped (sent (post_password post)) p
    /\ stripped (sent (post_password_confirm post)) c
    /\ (In (None, passwords_mismatch) (errors form)
        <-> password_supplied p /\ password_supplied c /\ p <> c)
    /\ (password_supplied p -> password_supplied c -> p <> c ->
        is_valid form = false
        /\ db (snd (register env method data w)) = db w
        /\ (request_user w = None ->
            register env POST data w
            = (Ok (Render "register.html" (Some form)),
               mkWorld (db w)
                 (messages w ++ [(Error, "Please correct the errors below.")])
                 (session w)))).
Proof.
  intros env method v post w data form p c.
  assert (Hiff : In (None, passwords_mismatch) (errors form)
                 <-> password_supplied p /\ password_supplied c /\ p <> c).
  { unfold form, SimpleRegisterForm.
    change SimpleRegisterForm_clean with UserForm_clean.
    rewrite FormsFacts.form_mismatch_iff.
    unfold data, SimpleRegisterForm_fields.
    rewrite FieldFacts.fields_supplied_and_differ. tauto. }
  split; [apply StripFacts.to_python_stripped|].
  split; [apply StripFacts.to_python_stripped|].
  split; [exact Hiff|].
  intros Hp Hc Hne.
  assert (Hv : is_valid form = false).
  { eapply FormsFacts.is_valid_false. apply Hiff.
    split; [exact Hp|]. split; [exact Hc|exact Hne]. }
  split; [exact Hv|]. split.
  - rewrite CreationFacts.register_eq.
    destruct (request_user w); [reflexivity|].
    destruct method; [reflexivity|].
    cbv zeta. fold data. fold form. rewrite Hv. reflexivity.
  - intros Hanon. rewrite CreationFacts.register_eq, Hanon.
    cbv zeta. fold data. fold form. rewrite Hv. reflexivity.
Qed.

Lemma registration_password_mismatch_witness :
  In (None, passwords_mismatch)
     (errors (SimpleRegisterForm admin_store
                (SimpleRegisterForm_fields no_email_errors abc_xyz_post)))
  /\ users (db (snd (register working_env POST
                       (SimpleRegisterForm_fields no_email_errors abc_xyz_post)
                       anonymous_world)))
     = [admin_user].
Proof.
  destruct (registration_password_mismatch working_env POST no_email_errors abc_xyz_post
              anonymous_world) as (_ & _ & Hiff & Hno).
  assert (Hp : password_supplied (to_python (post_password abc_xyz_post)))
    by (split; [vm_compute; discriminate|reflexivity]).
  assert (Hc : password_supplied (to_python (post_password_confirm abc_xyz_post)))
    by (split; [vm_compute; discriminate|reflexivity]).
  assert (Hne : to_python (post_password abc_xyz_post)
                <> to_python (post_password_confirm abc_xyz_post))
    by (vm_compute; discriminate).
  split.
  - apply Hiff. split; [exact Hp|]. split; [exact Hc|exact Hne].
  - destruct (Hno Hp Hc Hne) as (_ & Hdb & _). rewrite Hdb. reflexivity.
Defined.

(** Admin and Bob in one store; Admin is logged in. *)
Definition bob_user : User := mkUser 2 "bob" "" "" None 3.

Definition two_users_world : World :=
  mkWorld (mkStore [admin_user; bob_user] [mkProfile 1 2 "" "" ""] [] [] [])
    [] (Some 1%Z).

(** C4. An authenticated user who asks to delete the own account, by GET
    or by POST, is turned away with a notice: nothing is deleted and the
    store is unchanged.  A POST for another existing user removes that
    user's record (when the store carries the deletion out). *)
Theorem self_deletion_is_rejected :
  forall (env : Env) (pk : Z) (method : Method) (w : World) (me : User),
    request_user w = Some me ->
    (user_id me = pk ->
       delete_user env pk method w
       = (Ok (Redirect "user_list"),
          mkWorld (db w)
            (messages w ++ [(Error, "You can't delete the currently logged in user.")])
            (session w)))
    /\ (forall target,
          find (fun u => (user_id u =? pk)%Z) (users (db w)) = Some target ->
          user_id me <> pk ->
          fault env OpDelete = None ->
          let r := delete_user env pk POST w in
          fst r = Ok (Redirect "user_list")
          /\ users (db (snd r))
             = filter (fun v => negb (user_id v =? pk)%Z) (users (db w))
          /\ ~ In target (users (db (snd r)))
          /\ (forall u, In u (users (db (snd r))) -> user_id u <> pk)).
Proof.
  intros env pk method w me Hme. split.
  - intros Hpk. rewrite DeleteFacts.delete_user_eq, Hme.
    apply DeleteFacts.request_user_find in Hme. rewrite Hpk in Hme. rewrite Hme.
    now rewrite Z.eqb_refl.
  - intros target Hfind Hne Hf r. subst r.
    rewrite DeleteFacts.delete_user_eq, Hme, Hfind.
    pose proof (find_some _ _ Hfind) as [Hin Hid]. apply Z.eqb_eq in Hid.
    destruct (Z.eqb_spec (user_id me) (user_id target)) as [Heq|_]; [congruence|].
    rewrite Hf. cbn [fst snd db users]. rewrite Hid.
    split; [reflexivity|]. split; [reflexivity|]. split.
    + intros H. apply filter_In in H. destruct H as [_ H].
      rewrite <- Hid, Z.eqb_refl in H. discriminate H.
    + intros u H. apply filter_In in H. destruct H as [_ H].
      apply negb_true_iff in H. now apply Z.eqb_neq in H.
Qed.

Lemma self_deletion_is_rejected_witness :
  db (snd (delete_user working_env 1 POST two_users_world)) = db two_users_world
  /\ users (db (snd (delete_user working_env 2 POST two_users_world))) = [admin_user].
Proof.
  destruct (self_deletion_is_rejected working_env 1 POST two_users_world admin_user
              eq_refl) as [Hself _].
  destruct (self_deletion_is_rejected working_env 2 POST two_users_world admin_user
              eq_refl) as [_ Hother].
  split.
  - rewrite (Hself eq_refl). reflexivity.
  - destruct (Hother bob_user eq_refl) as (_ & Husers & _).
    + discriminate.
    + reflexivity.
    + rewrite Husers. reflexivity.
Defined.

(** Admin (profile with a phone number only) and Bob, Admin logged in. *)
Definition phone_world : World :=
  mkWorld (mkStore [admin_user; bob_user] [mkProfile 1 1 "" "555-1234" ""] [] [] [])
    [] (Some 1%Z).

Lemma phone_world_wf : wf_store (db phone_world).
Proof.
  unfold wf_store. cbn.
  repeat split; repeat constructor; cbn; intuition discriminate.
Qed.

Lemma phone_world_authenticated : authenticated phone_world.
Proof. unfold authenticated. cbn. discriminate. Qed.





(** C6, evaluated: the global search for 555 does not find Admin, whose
    profile's phone number is the only field that matches, while the user
    search over all fields does. *)
Lemma global_search_misses_phone_number :
  search (Some "555") (Some "users") phone_world
  = (Ok (Render "search_results.html"
           (mkSearchContext "555" "users" None (Some []) None None)),
     phone_world)
  /\ user_search_qs (db phone_world) "555" "all" = [admin_user]
  /\ user_matches_all_fields (db phone_world) "555" admin_user.
Proof.
  split; [vm_compute; reflexivity|]. split; [vm_compute; reflexivity|].
  right. right. exists (mkProfile 1 1 "" "555-1234" "").
  split; [left; reflexivity|]. split; [reflexivity|].
  right. apply (PyStrFacts.contains_piece _ "" "555" "-1234"). reflexivity.
Qed.



(** Admin and Dora, whose stored password hash is old-hash; Admin is
    logged in.  Three edits of Dora by Admin, the confirmation left empty:
    a new password; a password of three spaces; a password with a space
    before and after. *)
Definition dora_user : User := mkUser 2 "dora" "" "old-hash" None 3.

Definition dora_world : World :=
  mkWorld (mkStore [admin_user; dora_user] [mkProfile 1 2 "" "" ""] [] [] [])
    [] (Some 1%Z).

Definition new_password_post : Post :=
  mkPost (Some "dora") None (Some "secret") (Some "").

Definition blank_password_post : Post :=
  mkPost (Some "dora") None (Some "   ") (Some "").

Definition spaced_password_post : Post :=
  mkPost (Some "dora") None (Some " secret ") (Some "").




End Claims.

(* ===================================================================== *)
(** * Part IV: further properties of the handlers                         *)
(* ===================================================================== *)

Module Extras.
Import Models ORM Req Managers Forms Paginator Views Site Spec Props.

(** ** Sample data *)

Definition quiet_env : Env :=
  mkEnv 7 (fun raw => ("hash:" ++ raw)%string) (fun mail => mail) (fun name => name)
    "r4nd0m" (fun _ => None) 0 0.

Definition ann : User := mkUser 1 "Ann" "ann@example.org" "hash:a" None 10.
Definition ben : User := mkUser 2 "ben" "" "hash:b" None 20.

Definition small_store : Store :=
  mkStore [ann; ben] [mkProfile 1 1 "1 Main Street" "555-0100" ""] [] [] [].

Definition ann_world : World := mkWorld small_store [] (Some 1%Z).
Definition visitor_world : World := mkWorld small_store [] None.

Lemma ann_world_authenticated : authenticated ann_world.
Proof. unfold authenticated. cbn. discriminate. Qed.

(** ** Pagination and ordering *)

(** X1. The pages of a query set, first to last, put one after the other
    give the query set back; every page of a valid number holds ten items
    or, on the last page, what is left. *)
Theorem pages_partition_the_query_set :
  forall (A : Type) (l : list A),
    List.concat (map items (all_pages l)) = l
    /\ (forall n p, (1 <= n <= num_pages l)%Z ->
          page l (PageInt n) = Ok p ->
          Z.of_nat (List.length (object_list p)) = Z.min 10 (count l - (n - 1) * 10))
    /\ (forall n, (1 <= n < num_pages l)%Z ->
          exists p, page l (PageInt n) = Ok p
                    /\ List.length (object_list p) = 10%nat).
Proof.
  intros A l. split; [apply PageFacts.all_pages_concat|]. split.
  - intros n p. apply PageFacts.page_length.
  - intros n Hn. eexists. split; [apply PaginatorFacts.page_items; lia|].
    cbn [object_list]. rewrite length_firstn, length_skipn.
    pose proof (PaginatorFacts.num_pages_bounds l) as Hb.
    unfold count, per_page in *. lia.
Qed.

Lemma pages_partition_the_query_set_witness :
  exists p, page (seq 0 25) (PageInt 2) = Ok p /\ List.length (object_list p) = 10%nat.
Proof.
  destruct (pages_partition_the_query_set nat (seq 0 25)) as (_ & _ & H).
  apply (H 2%Z). vm_compute. split; [discriminate|reflexivity].
Defined.

(** X2. The user list is the users of the store newest first: a
    rearrangement of the user table in which nobody comes after a user who
    joined earlier; without a page parameter (or with one that is no
    number) the handler shows the first ten of it, as page 1, and leaves
    the world as it is. *)
Theorem user_list_is_newest_first :
  forall (w : World),
    authenticated w ->
    let qs := order_by_desc date_joined (users (db w)) in
    Permutation qs (users (db w))
    /\ newest_first date_joined qs
    /\ user_list NotAnInt w = (Ok (Render "user.html" (mkPage (firstn 10 qs) 1)), w)
    /\ (forall u v, In u (firstn 10 qs) -> In v (skipn 10 qs) ->
          (date_joined v <= date_joined u)%Z).
Proof.
  intros w Hu qs.
  assert (Hs : newest_first date_joined qs) by apply OrderFacts.order_by_desc_sorted.
  split; [apply QueryFacts.order_by_desc_perm|]. split; [exact Hs|]. split.
  - unfold user_list.
    rewrite (ListViewFacts.paginate_eq
               (fun s => order_by_desc date_joined (users s))
               (fun p => Render "user.html" p) NotAnInt w Hu).
    fold qs. unfold get_page. cbn [validate_number].
    rewrite PaginatorFacts.page_items by (pose proof (PaginatorFacts.num_pages_pos qs); lia).
    reflexivity.
  - now apply OrderFacts.newest_first_firstn.
Qed.

Lemma user_list_is_newest_first_witness :
  user_list NotAnInt ann_world
  = (Ok (Render "user.html" (mkPage [ben; ann] 1)), ann_world).
Proof.
  destruct (user_list_is_newest_first ann_world ann_world_authenticated)
    as (_ & _ & H & _).
  exact H.
Defined.

Lemma small_store_invariant : site_invariant small_store.
Proof.
  unfold site_invariant, store_ok, wf_store, usernames_unique, profiles_owned.
  cbn. repeat split; repeat constructor; cbn; try (intuition discriminate).
  intros p [<-|[]]. exists ann. split; [now left|reflexivity].
Qed.

Definition cara_submission : UserData :=
  mkUserData (Valid "Cara") (Valid "cara@example.org") (Valid "pw1") (Valid "pw1").

Lemma quiet_env_keeps_cara : keeps_submitted_username quiet_env cara_submission.
Proof. intros name _. reflexivity. Qed.

Definition cara_profile : ProfileData :=
  mkProfileData (Valid "9 Side Road") (Valid "555-0199") (Valid NoFile).

(** The ligature U+FB01 (in UTF-8 EF AC 81) followed by sh: a username
    that the framework's normalisation (NFKC) turns into fish.  An
    environment that does so, a store where Fish is registered, and the
    registration of the ligature name. *)
Definition ligature_fish : string :=
  String (ascii_of_nat 239) (String (ascii_of_nat 172) (String (ascii_of_nat 129) "sh")).

Definition nfkc_env : Env :=
  mkEnv 7 (fun raw => raw) (fun mail => mail)
    (fun name => if String.eqb name ligature_fish then "fish" else name)
    "r4nd0m" (fun _ => None) 0 0.

Definition fish_world : World :=
  mkWorld (mkStore [mkUser 1 "Fish" "" "" None 1] [mkProfile 1 1 "" "" ""] [] [] [])
    [] None.

Definition ligature_submission : UserData :=
  mkUserData (Valid ligature_fish) (Valid "") (Valid "pw") (Valid "pw").

(** ** Invariants of the store *)

(** X3. The handlers that write keep the store's invariant: keys
    distinct in every table, one profile per user at most, usernames
    distinct ignoring the case of the letters A to Z, every profile owned
    by a stored user.  For [edit_user], [delete_user], [user_profile],
    [login_view] and [delete_book] this holds for every request, valid or
    not, and whatever store operation fails; for [register] and
    [add_user] it holds when the framework's normalisation leaves the
    submitted username as it is, and not always otherwise: a normalised
    name is not checked again. *)
Theorem handlers_keep_the_invariant :
  forall (env : Env) (authenticate : Store -> string -> string -> option User)
         (pk : Z) (method : Method) (data : UserData) (pdata : ProfileData)
         (name_ pass_ : option string) (w : World),
    site_invariant (db w) ->
    (keeps_submitted_username env data ->
       site_invariant (db (snd (register env method data w)))
       /\ site_invariant (db (snd (add_user env method data pdata w))))
    /\ site_invariant (db (snd (edit_user env pk method data pdata w)))
    /\ site_invariant (db (snd (delete_user env pk method w)))
    /\ site_invariant (db (snd (user_profile env pk w)))
    /\ site_invariant (db (snd (login_view env authenticate method name_ pass_ w)))
    /\ site_invariant (db (snd (delete_book env pk method w)))
    /\ (site_invariant (db fish_world)
        /\ ~ site_invariant
               (db (snd (register nfkc_env POST ligature_submission fish_world)))).
Proof.
  intros env authenticate pk method data pdata name_ pass_ w Hinv.
  split.
  { intros Hkeep.
    split; [now apply HandlerFacts.register_invariant
           |now apply HandlerFacts.add_user_invariant]. }
  split; [now apply HandlerFacts.edit_user_invariant|].
  split; [now apply HandlerFacts.delete_user_invariant|].
  split; [now apply SiteFacts.user_profile_invariant|].
  split; [now apply SiteFacts.login_view_invariant|].
  split; [now apply SiteFacts.delete_book_invariant|].
  split.
  - unfold site_invariant, store_ok, wf_store, usernames_unique, profiles_owned.
    cbn. repeat split; repeat constructor; cbn; try (intuition discriminate).
    intros p [<-|[]]. eexists. split; [now left|reflexivity].
  - intros (_ & Huniq & _). unfold usernames_unique in Huniq.
    vm_compute in Huniq. inversion Huniq as [|x l Hnotin _]. apply Hnotin. now left.
Qed.

Lemma handlers_keep_the_invariant_witness :
  site_invariant (db (snd (register quiet_env POST cara_submission visitor_world)))
  /\ site_invariant (db (snd (edit_user quiet_env 2 POST cara_submission cara_profile
                                 ann_world))).
Proof.
  destruct (handlers_keep_the_invariant quiet_env (fun _ _ _ => None) 2 POST
              cara_submission cara_profile None None visitor_world
              small_store_invariant) as (H & _).
  destruct (handlers_keep_the_invariant quiet_env (fun _ _ _ => None) 2 POST
              cara_submission cara_profile None None ann_world
              small_store_invariant) as (_ & H' & _).
  split; [exact (proj1 (H quiet_env_keeps_cara))|exact H'].
Defined.

(** ** Sessions *)

(** X4. A request without an authenticated session is sent to the login
    page, whatever it asks for, by each of these fifteen handlers that
    views.py puts under [@login_required]: [home], [logout_view],
    [user_list], [user_profile], [add_user], [user_search], [edit_user],
    [delete_user], [book_list], [book_search], [delete_book],
    [category_list], [author_list], [search] and [dashboard]; nothing
    changes, no row, no notice, no session.  [book_detail], which
    views.py leaves without the decorator, shows an existing book to such
    a request. *)
Theorem anonymous_requests_change_nothing :
  forall (env : Env) (pk : Z) (method : Method) (data : UserData) (pdata : ProfileData)
         (q f : option string) (page_number : page_arg) (w : World),
    request_user w = None ->
    let turned_away {C : Type} (r : Outcome (Response C) * World) :=
      r = (Ok (Redirect "login"), w) in
    turned_away (home w)
    /\ turned_away (logout_view w)
    /\ turned_away (user_list page_number w)
    /\ turned_away (user_profile env pk w)
    /\ turned_away (add_user env method data pdata w)
    /\ turned_away (user_search q f page_number w)
    /\ turned_away (edit_user env pk method data pdata w)
    /\ turned_away (delete_user env pk method w)
    /\ turned_away (book_list page_number w)
    /\ turned_away (book_search q f page_number w)
    /\ turned_away (delete_book env pk method w)
    /\ turned_away (category_list page_number w)
    /\ turned_away (author_list page_number w)
    /\ turned_away (search q f w)
    /\ turned_away (dashboard w)
    /\ (forall book, find (fun b => (book_id b =? pk)%Z) (books (db w)) = Some book ->
          book_detail pk w = (Ok (Render "book_view.html" book), w)).
Proof.
  intros env pk method data pdata q f page_number w Hanon turned_away.
  unfold turned_away.
  repeat (split; [apply ListViewFacts.login_required_anonymous; exact Hanon|]).
  intros book Hfind. rewrite SiteFacts.book_detail_eq, Hfind. reflexivity.
Qed.

Lemma anonymous_requests_change_nothing_witness :
  delete_user quiet_env 2 POST visitor_world = (Ok (Redirect "login"), visitor_world).
Proof.
  destruct (anonymous_requests_change_nothing quiet_env 2 POST cara_submission cara_profile
              None None NotAnInt visitor_world eq_refl)
    as (_ & _ & _ & _ & _ & _ & _ & H & _).
  exact H.
Defined.

(** The credential check of the sample: Ann with the password a. *)
(** The em space U+2003 (in UTF-8 E2 80 83), which [str.strip]
    removes. *)
Definition em_space : string :=
  String (ascii_of_nat 226) (String (ascii_of_nat 128) (String (ascii_of_nat 131) "")).

Definition sample_authenticate (s : Store) (name pass : string) : option User :=
  if String.eqb name "Ann" && String.eqb pass "a"
  then find (fun u => String.eqb (username u) "Ann") (users s)
  else None.

(** X5. Sessions begin and end as the handlers say.  A login that the
    credential check refuses changes nothing but for the one notice, the
    same whatever was wrong; a login it accepts for a stored user puts the
    user into the session, and the handlers under [@login_required] then
    serve; the username is read without surrounding white space, the
    password as typed.  After [logout_view] the store is as before, the
    session is empty and those handlers redirect to the login page. *)
Theorem sessions_begin_and_end :
  forall (env : Env) (authenticate : Store -> string -> string -> option User)
         (name_ pass_ : option string) (page_number : page_arg) (w : World),
    (request_user w = None ->
       (authenticate (db w) (PyStr.strip (post_get name_)) (post_get pass_) = None ->
          login_view env authenticate POST name_ pass_ w
          = (Ok (Render "login.html" tt),
             mkWorld (db w) (messages w ++ [(Error, "Invalid username or password.")])
               (session w)))
       /\ (forall user,
             authenticate (db w) (PyStr.strip (post_get name_)) (post_get pass_) = Some user ->
             In user (users (db w)) ->
             fault env OpLogin = None ->
             let r := login_view env authenticate POST name_ pass_ w in
             fst r = Ok (Redirect "home")
             /\ session (snd r) = Some (user_id user)
             /\ authenticated (snd r)
             /\ exists p, user_list page_number (snd r)
                          = (Ok (Render "user.html" p), snd r)))
    /\ (authenticated w ->
        let r := logout_view w in
        fst r = Ok (Redirect "login")
        /\ db (snd r) = db w
        /\ request_user (snd r) = None
        /\ user_list page_number (snd r) = (Ok (Redirect "login"), snd r))
    /\ stripped (sent name_) (PyStr.strip (post_get name_)).
Proof.
  intros env authenticate name_ pass_ page_number w.
  split; [|split; [|destruct name_; apply StripFacts.strip_stripped]].
  - intros Hanon. split.
    + intros Hno. rewrite SiteFacts.login_view_eq, Hanon, Hno. reflexivity.
    + intros user Hyes Hin Hf r. subst r.
      rewrite SiteFacts.login_view_eq, Hanon, Hyes, Hf. cbn [fst snd session].
      split; [reflexivity|]. split; [reflexivity|].
      assert (Hauth : authenticated
                (mkWorld (with_users (db w) (map (stamped env user) (users (db w))))
                   (messages w ++ [(Success, ("Welcome back, " ++ username user ++ "!")%string)])
                   (Some (user_id user))))
        by now apply SessionFacts.logged_in_after_login.
      split; [exact Hauth|].
      unfold user_list.
      rewrite (ListViewFacts.paginate_eq
                 (fun s => order_by_desc date_joined (users s))
                 (fun p => Render "user.html" p) page_number _ Hauth).
      match goal with |- context [get_page ?l page_number] =>
        destruct (PaginatorFacts.get_page_total l page_number) as [p ->]
      end.
      now exists p.
  - intros Hauth r. subst r. unfold logout_view.
    rewrite ListViewFacts.login_required_authenticated by exact Hauth.
    cbn. repeat split.
Qed.

Lemma sessions_begin_and_end_witness :
  authenticated
    (snd (login_view quiet_env sample_authenticate POST
            (Some (em_space ++ "Ann" ++ em_space)) (Some "a") visitor_world))
  /\ request_user (snd (logout_view ann_world)) = None.
Proof.
  destruct (sessions_begin_and_end quiet_env sample_authenticate
              (Some (em_space ++ "Ann" ++ em_space)) (Some "a")
              NotAnInt visitor_world) as [Hin _].
  destruct (sessions_begin_and_end quiet_env sample_authenticate None None
              NotAnInt ann_world) as (_ & Hout & _).
  split.
  - destruct (Hin eq_refl) as [_ Hyes].
    destruct (Hyes ann) as (_ & _ & H & _); [reflexivity|now left|reflexivity|exact H].
  - destruct (Hout ann_world_authenticated) as (_ & _ & H & _). exact H.
Defined.

(** ** Creating users *)

(** A request that finds the key sequence of the user table one key
    ahead of the keys in use: the user of the highest key was deleted. *)
Definition later_env : Env :=
  mkEnv 7 (fun raw => ("hash:" ++ raw)%string) (fun mail => mail) (fun name => name)
    "r4nd0m" (fun _ => None) 1 0.

(** X6. In a store where every profile belongs to a user, a registration
    that validates (free username that the framework's normalisation
    leaves as it is, valid email, password and matching confirmation) and
    meets no store failure ends in the redirect home with exactly this
    written: one user row, under the next key of the user table's
    sequence, with the username, the normalised email, the hashed
    password, the join time and the login time of the request; one blank
    profile row for it; the success notice; the session of the new
    user. *)
Theorem registration_writes_user_and_profile :
  forall (env : Env) (data : UserData) (w : World) (name mail raw : string),
    request_user w = None ->
    (forall op, fault env op = None) ->
    keeps_username env name ->
    profiles_owned (db w) ->
    in_username data = Valid name -> name <> "" ->
    ~ taken_by_another (db w) None name ->
    in_email data = Valid mail ->
    in_password data = Valid raw ->
    in_password_confirm data = Valid raw ->
    register env POST data w
    = (Ok (Redirect "home"),
       mkWorld (registered env (db w) name mail raw)
         (messages w ++ [(Success, "Registration successful!")])
         (Some (next_id (user_keys_skipped env) (map user_id (users (db w)))))).
Proof.
  intros env data w name mail raw Hanon Hf Hkeep Hown Hn Hname Hfree Hm Hp Hc.
  rewrite CreationFacts.register_eq, Hanon. cbv zeta.
  rewrite ValidFacts.SimpleRegisterForm_is_UserForm.
  rewrite (RunFacts.UserForm_clean_data (db w) None data name mail raw raw Hn Hm Hp Hc Hfree)
    by (intros (_ & _ & H); now apply H).
  cbn [is_valid errors]. unfold try_except, atomic.
  now rewrite (RunFacts.register_block_run env name mail raw raw w Hf Hkeep Hown Hname Hfree).
Qed.

Lemma registration_writes_user_and_profile_witness :
  register later_env POST cara_submission visitor_world
  = (Ok (Redirect "home"),
     mkWorld
       (mkStore
          [ann; ben; mkUser 4 "Cara" "cara@example.org" "hash:pw1" (Some 7%Z) 7]
          [mkProfile 1 1 "1 Main Street" "555-0100" ""; mkProfile 2 4 "" "" ""]
          [] [] [])
       [(Success, "Registration successful!")] (Some 4%Z)).
Proof.
  apply (registration_writes_user_and_profile later_env cara_submission visitor_world
           "Cara" "cara@example.org" "pw1"); try reflexivity.
  - intros p [<-|[]]. exists ann. split; [now left|reflexivity].
  - discriminate.
  - intros (u & Hu & Hsame & _). apply PyStrFacts.same_ignoring_case_iff in Hsame.
    destruct Hu as [<-|[<-|[]]]; discriminate Hsame.
Defined.

(** X7. In a store where every profile belongs to a user, an
    administrative creation that validates (the username free and left as
    it is by the framework's normalisation) and meets no store failure
    writes the user and a profile carrying the submitted address and phone
    number, each under the next key of its table's sequence, and redirects
    to the user list; the stored password is the hash of the submitted
    one, or of a random password when the field was left empty. *)
Theorem add_user_writes_user_and_profile :
  forall (env : Env) (data : UserData) (pdata : ProfileData) (w : World)
         (name mail raw c : string),
    authenticated w ->
    (forall op, fault env op = None) ->
    keeps_username env name ->
    profiles_owned (db w) ->
    in_username data = Valid name -> name <> "" ->
    ~ taken_by_another (db w) None name ->
    in_email data = Valid mail ->
    in_password data = Valid raw ->
    in_password_confirm data = Valid c ->
    ~ (raw <> "" /\ c <> "" /\ raw <> c) ->
    profile_is_valid (UserProfileForm pdata) = true ->
    add_user env POST data pdata w
    = (Ok (Redirect "user_list"),
       mkWorld (added env (db w) name mail raw (UserProfileForm pdata))
         (messages w ++ [(Success, "User " ++ dq ++ name ++ dq ++ " created successfully!")])
         (session w))
    /\ (forall u, In u (users (added env (db w) name mail raw (UserProfileForm pdata))) ->
          In u (users (db w))
          \/ password u = make_password env
                            (if PyStr.truthy raw then raw else make_random_password env)).
Proof.
  intros env data pdata w name mail raw c Hauth Hf Hkeep Hown Hn Hname Hfree Hm Hp Hc
         Hpw Hpf.
  split.
  - rewrite CreationFacts.add_user_eq.
    unfold authenticated in Hauth. destruct (request_user w); [|contradiction].
    cbv zeta.
    rewrite (RunFacts.UserForm_clean_data (db w) None data name mail raw c Hn Hm Hp Hc
               Hfree Hpw).
    rewrite Hpf. cbn [is_valid errors andb]. unfold try_except, atomic.
    now rewrite (RunFacts.add_user_block_run env (UserProfileForm pdata) name mail raw c w
                   Hf Hkeep Hown Hname Hfree).
  - intros u Hu. unfold added in Hu. cbn [users] in Hu.
    apply in_app_or in Hu. destruct Hu as [Hu|[<-|[]]]; [now left|].
    right. unfold created_user, password_or_random, truthy_opt. cbn [password get_or_empty].
    reflexivity.
Qed.

Lemma add_user_writes_user_and_profile_witness :
  add_user quiet_env POST
    (mkUserData (Valid "Cara") (Valid "") (Valid "") (Valid "")) cara_profile ann_world
  = (Ok (Redirect "user_list"),
     mkWorld
       (mkStore
          [ann; ben; mkUser 3 "Cara" "" "hash:r4nd0m" None 7]
          [mkProfile 1 1 "1 Main Street" "555-0100" "";
           mkProfile 2 3 "9 Side Road" "555-0199" ""]
          [] [] [])
       [(Success, "User " ++ dq ++ "Cara" ++ dq ++ " created successfully!")]
       (Some 1%Z)).
Proof.
  apply (add_user_writes_user_and_profile quiet_env
           (mkUserData (Valid "Cara") (Valid "") (Valid "") (Valid "")) cara_profile
           ann_world "Cara" "" "" ""); try reflexivity.
  - exact ann_world_authenticated.
  - intros p [<-|[]]. exists ann. split; [now left|reflexivity].
  - discriminate.
  - intros (u & Hu & Hsame & _). apply PyStrFacts.same_ignoring_case_iff in Hsame.
    destruct Hu as [<-|[<-|[]]]; discriminate Hsame.
  - intros (H & _). now apply H.
Defined.

(** ** Editing users *)

(** X8. An edit that validates and meets no store failure replaces the
    user's row and the profile's row and nothing else: the row takes the
    submitted username and email; the password hash is the old one when
    the password field was left empty and the hash of the submitted
    password otherwise; key, join time and last login stay; the profile
    takes the submitted address and phone number. *)
Theorem edit_user_replaces_the_two_rows :
  forall (env : Env) (pk : Z) (data : UserData) (pdata : ProfileData) (w : World)
         (user : User) (profile : UserProfile) (name mail raw c : string),
    authenticated w ->
    (forall op, fault env op = None) ->
    find (fun u => (user_id u =? pk)%Z) (users (db w)) = Some user ->
    profiles_of (db w) user = [profile] ->
    in_username data = Valid name ->
    ~ taken_by_another (db w) (Some user) name ->
    in_email data = Valid mail ->
    in_password data = Valid raw ->
    in_password_confirm data = Valid c ->
    ~ (raw <> "" /\ c <> "" /\ raw <> c) ->
    profile_is_valid (UserProfileForm pdata) = true ->
    edit_user env pk POST data pdata w
    = (Ok (Redirect "user_list"),
       mkWorld
         (mkStore
            (map (fun v => if (user_id v =? pk)%Z
                           then mkUser pk name mail
                                  (if PyStr.truthy raw then make_password env raw
                                   else password user)
                                  (last_login user) (date_joined user)
                           else v) (users (db w)))
            (map (fun q => if (profile_id q =? profile_id profile)%Z
                           then construct_instance (UserProfileForm pdata) profile
                           else q) (profiles (db w)))
            (authors (db w)) (categories (db w)) (books (db w)))
         (messages w ++ [(Success, "User " ++ dq ++ name ++ dq ++ " updated successfully!")])
         (session w)).
Proof.
  intros env pk data pdata w user profile name mail raw c Hauth Hf Hfind Hprof Hn Hfree
         Hm Hp Hc Hpw Hpf.
  pose proof (find_some _ _ Hfind) as [Hin Hpk]. apply Z.eqb_eq in Hpk.
  rewrite HandlerFacts.edit_user_eq.
  unfold authenticated in Hauth. destruct (request_user w); [|contradiction].
  rewrite Hfind.
  rewrite (SessionFacts.get_or_create_profile_existing env user profile w
             (Hf OpGetOrCreateProfile) Hprof).
  cbv zeta.
  rewrite (RunFacts.UserForm_clean_data (db w) (Some user) data name mail raw c Hn Hm Hp Hc
             Hfree Hpw).
  rewrite Hpf. cbn [is_valid errors andb]. unfold try_except, atomic.
  assert (Hpin : In profile (profiles (db w))).
  { assert (H : In profile (profiles_of (db w) user)) by (rewrite Hprof; now left).
    unfold profiles_of in H. now apply filter_In in H. }
  rewrite (RunFacts.edit_user_block_done env user profile
             (mkForm (mkCleaned (Some name) (Some mail) (Some raw) (Some c)) [])
             (UserProfileForm pdata) name w Hf Hin Hpin eq_refl Hfree Hpf).
  unfold edited_user, set_password.
  cbn [cleaned_data cd_email cd_password get_or_empty user_id username email last_login
       date_joined password].
  rewrite Hpk. destruct (PyStr.truthy raw); reflexivity.
Qed.

Lemma edit_user_replaces_the_two_rows_witness :
  edit_user quiet_env 1 POST
    (mkUserData (Valid "ann") (Valid "a@b.org") (Valid "") (Valid "")) cara_profile ann_world
  = (Ok (Redirect "user_list"),
     mkWorld
       (mkStore [mkUser 1 "ann" "a@b.org" "hash:a" None 10; ben]
          [mkProfile 1 1 "9 Side Road" "555-0199" ""] [] [] [])
       [(Success, "User " ++ dq ++ "ann" ++ dq ++ " updated successfully!")]
       (Some 1%Z)).
Proof.
  apply (edit_user_replaces_the_two_rows quiet_env 1
           (mkUserData (Valid "ann") (Valid "a@b.org") (Valid "") (Valid "")) cara_profile
           ann_world ann (mkProfile 1 1 "1 Main Street" "555-0100" "") "ann" "a@b.org" "" "");
    try reflexivity.
  - exact ann_world_authenticated.
  - intros (u & Hu & Hsame & Hother). destruct Hu as [<-|[<-|[]]].
    + now apply (Hother ann).
    + apply PyStrFacts.same_ignoring_case_iff in Hsame. discriminate Hsame.
  - intros (H & _). now apply H.
Defined.

(** X9. An edit that does not end in the redirect to the user list has
    left the user table, and every table but the profiles, as it was: a
    failure inside the transaction is rolled back.  The profile table is
    as it was too, or has gained the one blank profile, under the next
    key of the profile table's sequence, that the handler creates for a
    user without profile before it looks at the request; that row is
    written by a GET of the edit page as well. *)
Theorem edit_user_failure_keeps_the_rows :
  forall (env : Env) (pk : Z) (method : Method) (data : UserData) (pdata : ProfileData)
         (w : World),
    let r := edit_user env pk method data pdata w in
    (fst r <> Ok (Redirect "user_list") ->
       users (db (snd r)) = users (db w)
       /\ authors (db (snd r)) = authors (db w)
       /\ categories (db (snd r)) = categories (db w)
       /\ books (db (snd r)) = books (db w)
       /\ (profiles (db (snd r)) = profiles (db w)
           \/ exists user,
                find (fun u => (user_id u =? pk)%Z) (users (db w)) = Some user
                /\ (forall q, In q (profiles (db w)) -> profile_user q <> user_id user)
                /\ profiles (db (snd r))
                   = (profiles (db w) ++ [created_profile env (db w) user])%list))
    /\ (forall user,
          method = GET ->
          authenticated w ->
          find (fun u => (user_id u =? pk)%Z) (users (db w)) = Some user ->
          (forall q, In q (profiles (db w)) -> profile_user q <> user_id user) ->
          fault env OpGetOrCreateProfile = None ->
          profiles (db (snd r))
          = (profiles (db w) ++ [created_profile env (db w) user])%list).
Proof.
  intros env pk method data pdata w r. subst r. rewrite HandlerFacts.edit_user_eq. split.
  - destruct (request_user w); [|intros _; repeat split; now left].
    destruct (find _ (users (db w))) as [user|] eqn:Hfind;
      [|intros _; repeat split; now left].
    pose proof (SessionFacts.get_or_create_profile_world env user w) as Hw1.
    cbv zeta in Hw1.
    destruct (get_or_create_profile env user w) as [[[profile created]|e] w1] eqn:Hg;
      cbn [snd] in Hw1.
    2:{ intros _. destruct Hw1 as [->|[Hnone ->]]; cbn [snd db with_profiles users authors
          categories books profiles]; repeat split; try reflexivity; [now left|].
        right. exists user. now repeat split. }
    assert (Hkept : forall w2, db w2 = db w1 ->
              users (db w2) = users (db w)
              /\ authors (db w2) = authors (db w)
              /\ categories (db w2) = categories (db w)
              /\ books (db w2) = books (db w)
              /\ (profiles (db w2) = profiles (db w)
                  \/ exists user0,
                       Some user = Some user0
                       /\ (forall q, In q (profiles (db w)) ->
                                     profile_user q <> user_id user0)
                       /\ profiles (db w2)
                          = (profiles (db w) ++ [created_profile env (db w) user0])%list)).
    { intros w2 ->. destruct Hw1 as [->|[Hnone ->]];
        cbn [db with_profiles users authors categories books profiles];
        repeat split; try reflexivity; [now left|].
      right. exists user. now repeat split. }
    cbv zeta. destruct method.
    + intros _. now apply Hkept.
    + destruct (is_valid _ && profile_is_valid _).
      * match goal with |- context [try_except (atomic ?b) ?h w1] =>
          destruct (ReqFacts.try_atomic_cases b h w1)
            as [(a & w' & Hb & ->)|(e & w' & Hb & ->)]
        end.
        -- apply SessionFacts.edit_user_block_resp in Hb. subst a.
           cbn [fst]. intros H. now contradiction H.
        -- intros _. apply Hkept.
           match goal with |- db (snd (user_form_except ?d ?pg e ?w2)) = _ =>
             destruct (CreationFacts.user_form_except_db d pg e w2) as [_ Hdb]
           end.
           exact Hdb.
      * intros _. apply Hkept. apply HandlerFacts.reports_keep_db.
  - intros user -> Hauth Hfind Hnone Hf.
    unfold authenticated in Hauth. destruct (request_user w); [|contradiction].
    rewrite Hfind. rewrite (RunFacts.get_or_create_profile_new env user w Hf Hnone).
    reflexivity.
Qed.

Lemma edit_user_failure_keeps_the_rows_witness :
  profiles (db (snd (edit_user quiet_env 2 GET cara_submission cara_profile ann_world)))
  = [mkProfile 1 1 "1 Main Street" "555-0100" ""; mkProfile 2 2 "" "" ""].
Proof.
  destruct (edit_user_failure_keeps_the_rows quiet_env 2 GET cara_submission cara_profile
              ann_world) as [_ H].
  apply (H ben); try reflexivity.
  - exact ann_world_authenticated.
  - intros q [<-|[]]. discriminate.
Defined.

(** ** Profiles *)

(** X10. The profile page creates the missing profile and is idempotent:
    when [user_profile] has answered, the user shown has the profile shown
    in the store, the user table is as before, and asking again gives the
    same answer and changes nothing at all. *)
Theorem user_profile_is_idempotent :
  forall (env : Env) (pk : Z) (w w1 : World) (resp : Response (User * UserProfile)),
    user_profile env pk w = (Ok resp, w1) ->
    user_profile env pk w1 = (Ok resp, w1)
    /\ users (db w1) = users (db w)
    /\ (resp = Redirect "login"
        \/ exists user p,
             resp = Render "user_profile.html" (user, p)
             /\ In user (users (db w1))
             /\ In p (profiles (db w1))
             /\ profile_user p = user_id user).
Proof.
  intros env pk w w1 resp H. rewrite SiteFacts.user_profile_eq in H.
  rewrite SiteFacts.user_profile_eq.
  destruct (request_user w) as [me|] eqn:Hme.
  2:{ injection H as <- <-. rewrite Hme. split; [reflexivity|]. split; [reflexivity|now left]. }
  destruct (find _ (users (db w))) as [user|] eqn:Hfind; [|discriminate H].
  pose proof (EffectFacts.get_or_create_profile_effect env user w) as He.
  destruct (get_or_create_profile env user w) as [[[p created]|e] w0] eqn:Hg;
    [|discriminate H].
  injection H as <- <-.
  pose proof (RunFacts.get_or_create_profile_again env user w w0 p created Hg) as Hagain.
  assert (Hsame : users (db w0) = users (db w) /\ session w0 = session w
                  /\ In p (profiles (db w0))).
  { destruct He as (_ & [(_ & -> & Hin)|(_ & _ & _ & ->)]); [now repeat split|].
    cbn [db with_profiles users profiles session]. repeat split.
    apply in_or_app. right. now left. }
  destruct Hsame as (Husers & Hsess & Hp).
  assert (Hme0 : request_user w0 = Some me).
  { unfold request_user in *. now rewrite Hsess, Husers. }
  rewrite Hme0, Husers, Hfind, Hagain.
  split; [reflexivity|]. split; [reflexivity|]. right. exists user, p.
  split; [reflexivity|]. split; [|split; [exact Hp|]].
  - now apply find_some in Hfind.
  - now destruct He as (Hk & _).
Qed.

Lemma user_profile_is_idempotent_witness :
  user_profile quiet_env 2
    (snd (user_profile quiet_env 2 ann_world))
  = (Ok (Render "user_profile.html" (ben, mkProfile 2 2 "" "" "")),
     snd (user_profile quiet_env 2 ann_world)).
Proof.
  apply (user_profile_is_idempotent quiet_env 2 ann_world). reflexivity.
Defined.

(** ** Deleting *)

(** X11. [delete_book]: a GET shows the confirmation page and deletes
    nothing; a POST that the store carries out removes the book and
    touches no other row, after which [book_detail] of that key is not
    found while the detail of every other book is as before; a POST that
    the store refuses leaves the store as it was, with an error notice;
    a key that no book has is not found. *)
Theorem delete_book_removes_that_book :
  forall (env : Env) (pk : Z) (w : World),
    authenticated w ->
    (find (fun b => (book_id b =? pk)%Z) (books (db w)) = None ->
       forall method, delete_book env pk method w = (Raise Http404, w))
    /\ (forall book,
          find (fun b => (book_id b =? pk)%Z) (books (db w)) = Some book ->
          delete_book env pk GET w = (Ok (Render "book_confirm_delete.html" book), w)
          /\ (forall e, fault env OpDelete = Some e ->
                delete_book env pk POST w
                = (Ok (Redirect "book_list"),
                   mkWorld (db w)
                     (messages w ++ [(Error, "Error deleting book: " ++ exn_str e)])
                     (session w)))
          /\ (fault env OpDelete = None ->
                let w' := snd (delete_book env pk POST w) in
                fst (delete_book env pk POST w) = Ok (Redirect "book_list")
                /\ books (db w') = filter (fun b => negb (book_id b =? pk)%Z) (books (db w))
                /\ users (db w') = users (db w) /\ profiles (db w') = profiles (db w)
                /\ authors (db w') = authors (db w)
                /\ categories (db w') = categories (db w)
                /\ book_detail pk w' = (Raise Http404, w')
                /\ (forall other, other <> pk ->
                      fst (book_detail other w') = fst (book_detail other w)))).
Proof.
  intros env pk w Hauth.
  unfold authenticated in Hauth.
  split.
  - intros Hnone method. rewrite SiteFacts.delete_book_eq.
    destruct (request_user w); [|contradiction]. now rewrite Hnone.
  - intros book Hfind. pose proof (find_some _ _ Hfind) as [_ Hid]. apply Z.eqb_eq in Hid.
    rewrite !SiteFacts.delete_book_eq.
    destruct (request_user w); [|contradiction]. rewrite Hfind.
    split; [reflexivity|]. split.
    + intros e ->. reflexivity.
    + intros ->. cbn [fst snd db users profiles authors categories books]. rewrite Hid.
      repeat (split; [reflexivity|]). split.
      * rewrite SiteFacts.book_detail_eq. cbn [db books].
        destruct (find _ (filter _ (books (db w)))) as [b|] eqn:E; [|reflexivity].
        apply find_some in E. destruct E as [Hin Hb]. apply filter_In in Hin.
        destruct Hin as [_ Hne]. rewrite Hb in Hne. discriminate Hne.
      * intros other Hother. rewrite !SiteFacts.book_detail_eq. cbn [db books].
        assert (Hsame := BookFacts.find_after_delete pk other (books (db w)) Hother).
        rewrite Hsame.
        destruct (find (fun b => (book_id b =? other)%Z) (books (db w))); reflexivity.
Qed.

Definition dune : Book := mkBook 1 "Dune" "Desert planet" 1 1 3 "" 5.
Definition emma : Book := mkBook 2 "Emma" "" 2 2 1 "" 9.

Definition library_world : World :=
  mkWorld
    (mkStore [ann] [] [mkAuthor 1 "Herbert" ""; mkAuthor 2 "Austen" ""]
       [mkCategory 1 "SciFi" ""; mkCategory 2 "Novel" ""] [dune; emma])
    [] (Some 1%Z).

Lemma library_world_authenticated : authenticated library_world.
Proof. unfold authenticated. cbn. discriminate. Qed.

Lemma delete_book_removes_that_book_witness :
  books (db (snd (delete_book quiet_env 1 POST library_world))) = [emma]
  /\ delete_book quiet_env 7 POST library_world = (Raise Http404, library_world).
Proof.
  destruct (delete_book_removes_that_book quiet_env 1 library_world
              library_world_authenticated) as [_ H].
  destruct (delete_book_removes_that_book quiet_env 7 library_world
              library_world_authenticated) as [Hnone _].
  split.
  - destruct (H dune eq_refl) as (_ & _ & Hdone).
    destruct (Hdone eq_refl) as (_ & Hbooks & _). rewrite Hbooks. reflexivity.
  - apply Hnone. reflexivity.
Defined.

(** X12. [delete_user] apart from the deletion itself: a key that no user
    has is not found; a GET for another user shows the confirmation page
    and deletes nothing; a POST that the store refuses leaves the store as
    it was and queues an error notice; a POST that goes through leaves
    every user of another key in place. *)
Theorem delete_user_deletes_nothing_else :
  forall (env : Env) (pk : Z) (w : World) (me : User),
    request_user w = Some me ->
    (find (fun u => (user_id u =? pk)%Z) (users (db w)) = None ->
       forall method, delete_user env pk method w = (Raise Http404, w))
    /\ (forall target,
          find (fun u => (user_id u =? pk)%Z) (users (db w)) = Some target ->
          user_id me <> pk ->
          delete_user env pk GET w = (Ok (Render "user_confirm_delete.html" target), w)
          /\ (forall e, fault env OpDelete = Some e ->
                delete_user env pk POST w
                = (Ok (Redirect "user_list"),
                   mkWorld (db w)
                     (messages w ++ [(Error, "Error deleting user: " ++ exn_str e)])
                     (session w)))
          /\ (forall u, In u (users (db w)) -> user_id u <> pk ->
                In u (users (db (snd (delete_user env pk POST w)))))).
Proof.
  intros env pk w me Hme. split.
  - intros Hnone method. now rewrite DeleteFacts.delete_user_eq, Hme, Hnone.
  - intros target Hfind Hne.
    pose proof (find_some _ _ Hfind) as [_ Hid]. apply Z.eqb_eq in Hid.
    rewrite !DeleteFacts.delete_user_eq, Hme, Hfind.
    destruct (Z.eqb_spec (user_id me) (user_id target)) as [Heq|_]; [congruence|].
    split; [reflexivity|]. split.
    + intros e ->. reflexivity.
    + intros u Hu Hupk. destruct (fault env OpDelete); [exact Hu|].
      cbn [snd db users]. apply filter_In. split; [exact Hu|].
      apply negb_true_iff. apply Z.eqb_neq. congruence.
Qed.

Lemma delete_user_deletes_nothing_else_witness :
  delete_user quiet_env 2 GET ann_world
  = (Ok (Render "user_confirm_delete.html" ben), ann_world)
  /\ delete_user quiet_env 9 POST ann_world = (Raise Http404, ann_world).
Proof.
  destruct (delete_user_deletes_nothing_else quiet_env 2 ann_world ann eq_refl) as [_ H].
  destruct (delete_user_deletes_nothing_else quiet_env 9 ann_world ann eq_refl) as [Hnone _].
  split.
  - destruct (H ben eq_refl) as (Hget & _); [discriminate|exact Hget].
  - apply Hnone. reflexivity.
Defined.

(** ** Forms *)



(** X14. All errors are reported together.  The errors of a cleaned user
    form are, in this order: the errors of the username field or else the
    duplicate-username error, the errors of the email, of the password and
    of the confirmation field, then the mismatch error of the form as a
    whole.  The username check does not run on a username that arrived
    invalid, and a field with an error has no entry in the cleaned data.
    On an invalid POST [add_user] writes no row and queues one error
    notice per error, those of the user form first. *)
Theorem all_errors_are_reported :
  forall (env : Env) (data : UserData) (pdata : ProfileData) (w : World),
    let uf := UserForm (db w) None data in
    let pf := UserProfileForm pdata in
    (exists duplicate mismatch,
        errors uf
        = (own_errors "username" (in_username data) ++ duplicate
           ++ own_errors "email" (in_email data)
           ++ own_errors "password" (in_password data)
           ++ own_errors "password_confirm" (in_password_confirm data)
           ++ mismatch)%list
        /\ ((duplicate = [(Some "username", duplicate_username)]
             /\ exists name, in_username data = Valid name
                             /\ taken_by_another (db w) None name)
            \/ (duplicate = []
                /\ forall name, in_username data = Valid name ->
                                ~ taken_by_another (db w) None name))
        /\ ((mismatch = [(None, passwords_mismatch)] /\ supplied_and_differ data)
            \/ (mismatch = [] /\ ~ supplied_and_differ data)))
    /\ (forall e more, in_username data = Invalid e more ->
        (forall m, In (Some "username", m) (errors uf) <-> In m (e :: more))
        /\ cd_username (cleaned_data uf) = None)
    /\ (forall e more, in_email data = Invalid e more ->
          forall m, In m (e :: more) -> In (Some "email", m) (errors uf))
    /\ (forall e more, in_password data = Invalid e more ->
          forall m, In m (e :: more) -> In (Some "password", m) (errors uf))
    /\ (forall e more, in_password_confirm data = Invalid e more ->
          forall m, In m (e :: more) -> In (Some "password_confirm", m) (errors uf))
    /\ (authenticated w ->
        is_valid uf && profile_is_valid pf = false ->
        add_user env POST data pdata w
        = (Ok (Render "user_form.html" (mkUserFormContext (Some uf) (Some pf) "Add User")),
           mkWorld (db w)
             (messages w ++ map (error_notice "User") (errors uf)
              ++ map (error_notice "Profile") (pf_errors pf))
             (session w))).
Proof.
  intros env data pdata w uf pf.
  assert (Hfield : forall name input hook e more m,
            input = Invalid e more -> In m (e :: more) ->
            In (Some name, m) (snd (clean_field name input hook))).
  { intros name input hook e more m -> Hm. cbn [clean_field snd].
    apply in_map_iff. now exists m. }
  assert (Hown : forall name input,
            snd (clean_field name input no_hook) = own_errors name input).
  { intros name [v|e more]; reflexivity. }
  split; [|split; [|split; [|split; [|split]]]]; [unfold uf, UserForm ..|].
  - rewrite FormsFacts.errors_full_clean, !Hown.
    set (cd := mkCleaned _ _ _ _).
    assert (Hform : forall m, UserForm_clean cd = ValidationError m
                              <-> m = passwords_mismatch /\ supplied_and_differ data).
    { intros m. unfold cd.
      rewrite <- (FormsFacts.form_error_iff (UserForm_clean_username (db w) None)
                    UserForm_clean data m).
      apply FormsFacts.form_mismatch_iff. }
    assert (Hdup : exists duplicate,
               snd (clean_field "username" (in_username data)
                      (UserForm_clean_username (db w) None))
               = (own_errors "username" (in_username data) ++ duplicate)%list
               /\ ((duplicate = [(Some "username", duplicate_username)]
                    /\ exists name, in_username data = Valid name
                                    /\ taken_by_another (db w) None name)
                   \/ (duplicate = []
                       /\ forall name, in_username data = Valid name ->
                                       ~ taken_by_another (db w) None name))).
    { destruct (in_username data) as [name|e more] eqn:En.
      - cbn [clean_field own_errors app].
        destruct (UserForm_clean_username (db w) None name) as [n|m] eqn:Eh.
        + exists []. split; [reflexivity|]. right. split; [reflexivity|].
          intros name' Hn Ht. injection Hn as <-.
          apply FormsFacts.UserForm_clean_username_spec in Ht. congruence.
        + pose proof (FormsFacts.UserForm_clean_username_error _ _ _ _ Eh) as ->.
          exists [(Some "username", duplicate_username)]. split; [reflexivity|].
          left. split; [reflexivity|]. exists name. split; [reflexivity|].
          now apply FormsFacts.UserForm_clean_username_spec.
      - exists []. split; [cbn [clean_field snd own_errors]; now rewrite app_nil_r|].
        right. split; [reflexivity|]. intros name Hn. discriminate Hn. }
    destruct Hdup as (duplicate & Hd & Hdspec). rewrite Hd.
    destruct (UserForm_clean cd) as [cd'|m] eqn:Ec.
    + exists duplicate, []. split; [now rewrite <- !app_assoc|]. split; [exact Hdspec|].
      right. split; [reflexivity|]. intros Hs.
      discriminate (proj2 (Hform passwords_mismatch) (conj eq_refl Hs)).
    + destruct (proj1 (Hform m) eq_refl) as [-> Hs].
      exists duplicate, [(None, passwords_mismatch)].
      split; [now rewrite <- !app_assoc|]. split; [exact Hdspec|]. left. now split.
  - intros e more He. split.
    + intros m. rewrite FormsFacts.username_error_iff, He. cbn [clean_field snd].
      rewrite in_map_iff. split.
      * intros [m' [Hm Hin]]. now injection Hm as <-.
      * intros Hin. now exists m.
    + unfold full_clean. rewrite He. cbn [clean_field].
      destruct (clean_field "email" _ _), (clean_field "password" _ _),
        (clean_field "password_confirm" _ _).
      unfold UserForm_clean. cbn [cd_password cd_password_confirm].
      destruct (_ && _); reflexivity.
  - intros e more He m Hm. rewrite FormsFacts.errors_full_clean.
    apply in_or_app. left. apply in_or_app. right. apply in_or_app. left.
    now apply (Hfield _ _ _ e more).
  - intros e more He m Hm. rewrite FormsFacts.errors_full_clean.
    apply in_or_app. left. apply in_or_app. right. apply in_or_app. right.
    apply in_or_app. left. now apply (Hfield _ _ _ e more).
  - intros e more He m Hm. rewrite FormsFacts.errors_full_clean.
    apply in_or_app. left. apply in_or_app. right. apply in_or_app. right.
    apply in_or_app. right. now apply (Hfield _ _ _ e more).
  - intros Hauth Hinvalid. rewrite CreationFacts.add_user_eq.
    unfold authenticated in Hauth. destruct (request_user w); [|contradiction].
    subst uf pf. cbv zeta. rewrite Hinvalid.
    unfold bind. rewrite !NoticeFacts.report_errors_run. cbn [db messages session].
    unfold ret. now rewrite <- app_assoc.
Qed.

Lemma all_errors_are_reported_witness :
  messages
    (snd (add_user quiet_env POST
            (mkUserData (Invalid "This field is required." []) (Valid "")
               (Valid "abc") (Valid "xyz"))
            (mkProfileData (Valid "") (Invalid "Too long." []) (Valid NoFile)) ann_world))
  = [(Error, "User username: This field is required.");
     (Error, "User __all__: Passwords don't match");
     (Error, "Profile phone_number: Too long.")].
Proof.
  destruct (all_errors_are_reported quiet_env
              (mkUserData (Invalid "This field is required." []) (Valid "")
                 (Valid "abc") (Valid "xyz"))
              (mkProfileData (Valid "") (Invalid "Too long." []) (Valid NoFile)) ann_world)
    as (_ & _ & _ & _ & _ & H).
  rewrite (H ann_world_authenticated eq_refl). reflexivity.
Defined.

(** ** Searching *)



(** X16. A search without a query is the plain listing.  The query of
    the three search pages is empty exactly when the [q] parameter is
    missing or holds white space only (the code points that [str.isspace]
    accepts); then, whatever the filter, the user
    search shows what [user_list] shows, the book search what [book_list]
    shows, and the global search runs no query at all. *)
Theorem blank_query_is_the_listing :
  forall (raw : option string),
    (get_query raw = ""%string <-> blank (sent raw))
    /\ (get_query raw = ""%string ->
        forall (w : World) (f : option string) (n : page_arg),
          authenticated w ->
          (forall p, user_list n w = (Ok (Render "user.html" p), w)
                     <-> user_search raw f n w
                         = (Ok (Render "user.html" (mkSearchPage p "")), w))
          /\ (forall p, book_list n w = (Ok (Render "book.html" p), w)
                     <-> book_search raw f n w
                         = (Ok (Render "book.html" (mkSearchPage p "")), w))
          /\ search raw f w
             = (Ok (Render "search_results.html"
                      (mkSearchContext "" (get_or_all f) None None None None)), w)).
Proof.
  intros raw. split.
  - unfold get_query. rewrite StripFacts.strip_empty_iff. destruct raw; reflexivity.
  - intros Hq w f n Hu. split; [|split].
    + intros p. unfold user_list, user_search. rewrite Hq.
      rewrite (ListViewFacts.paginate_eq
                 (fun s => order_by_desc date_joined (users s))
                 (fun p => Render "user.html" p) n w Hu).
      rewrite (ListViewFacts.paginate_eq
                 (fun s => user_search_qs s "" (get_or_all f))
                 (fun p => Render "user.html" (mkSearchPage p "")) n w Hu).
      unfold user_search_qs. cbn [PyStr.truthy].
      destruct (get_page _ n); split; intros H; inversion H; reflexivity.
    + intros p. unfold book_list, book_search. rewrite Hq.
      rewrite (ListViewFacts.paginate_eq
                 (fun s => map book_of (books_qs s))
                 (fun p => Render "book.html" p) n w Hu).
      rewrite (ListViewFacts.paginate_eq
                 (fun s => book_search_qs s "" (get_or_all f))
                 (fun p => Render "book.html" (mkSearchPage p "")) n w Hu).
      unfold book_search_qs. cbn [PyStr.truthy].
      destruct (get_page _ n); split; intros H; inversion H; reflexivity.
    + unfold search. rewrite ListViewFacts.login_required_authenticated by exact Hu.
      rewrite Hq. reflexivity.
Qed.

Lemma blank_query_is_the_listing_witness :
  user_search (Some (em_space ++ " ")) (Some "email") NotAnInt ann_world
  = (Ok (Render "user.html" (mkSearchPage (mkPage [ben; ann] 1) "")), ann_world).
Proof.
  destruct (blank_query_is_the_listing (Some (em_space ++ " "))) as [_ H].
  destruct (H eq_refl ann_world (Some "email") NotAnInt ann_world_authenticated)
    as (Husers & _).
  apply Husers. reflexivity.
Defined.





(** ** The book list and the dashboard *)

(** X19. The book list.  A book is listed exactly when it is in the book
    table and its author and category rows exist; in a store with distinct
    keys where every book has both, the list is the whole book table newest
    first, every book once, and without a page parameter the handler shows
    the first ten of it as page 1 and changes nothing. *)
Theorem book_list_is_newest_first :
  forall (w : World),
    let s := db w in
    let listed := map book_of (books_qs s) in
    (forall b, In b listed <-> In b (books s) /\ exists a c, book_joined s b a c)
    /\ (wf_store s -> references_ok s ->
        listed = order_by_desc created_at (books s)
        /\ Permutation listed (books s)
        /\ newest_first created_at listed
        /\ (authenticated w ->
            book_list NotAnInt w
            = (Ok (Render "book.html" (mkPage (firstn 10 listed) 1)), w))).
Proof.
  intros w s listed. split.
  - intros b. unfold listed, books_qs.
    rewrite <- (filter_true (book_rows s (order_by_desc created_at (books s)))).
    rewrite FilterFacts.book_filter_In, QueryFacts.order_by_desc_In.
    split; intros [Hb (a & c & H)]; (split; [exact Hb|]); exists a, c; tauto.
  - intros Hwf Href.
    assert (Heq : listed = order_by_desc created_at (books s)).
    { unfold listed, books_qs. apply FilterFacts.book_rows_one_per_book; try assumption.
      intros b Hb. now apply QueryFacts.order_by_desc_In in Hb. }
    split; [exact Heq|]. rewrite Heq.
    split; [apply QueryFacts.order_by_desc_perm|].
    split; [apply OrderFacts.order_by_desc_sorted|].
    intros Hu. unfold book_list.
    rewrite (ListViewFacts.paginate_eq
               (fun s => map book_of (books_qs s))
               (fun p => Render "book.html" p) NotAnInt w Hu).
    fold s. fold listed. rewrite Heq. unfold get_page. cbn [validate_number].
    rewrite PaginatorFacts.page_items
      by (pose proof (PaginatorFacts.num_pages_pos (order_by_desc created_at (books s))); lia).
    reflexivity.
Qed.

Lemma library_world_wf : wf_store (db library_world).
Proof. unfold wf_store. cbn. repeat split; repeat constructor; cbn; intuition discriminate. Qed.

Lemma library_world_references : references_ok (db library_world).
Proof.
  intros b [<-|[<-|[]]]; split.
  - exists (mkAuthor 1 "Herbert" ""). cbn. tauto.
  - exists (mkCategory 1 "SciFi" ""). cbn. tauto.
  - exists (mkAuthor 2 "Austen" ""). cbn. tauto.
  - exists (mkCategory 2 "Novel" ""). cbn. tauto.
Qed.

Lemma book_list_is_newest_first_witness :
  book_list NotAnInt library_world
  = (Ok (Render "book.html" (mkPage [emma; dune] 1)), library_world).
Proof.
  destruct (book_list_is_newest_first library_world) as [_ H].
  destruct (H library_world_wf library_world_references) as (_ & _ & _ & Hpage).
  exact (Hpage library_world_authenticated).
Defined.

(** X20. The dashboard shows the sizes of the four tables and the five
    newest users and books: each list holds five rows of its table, or as
    many as the table has when these are fewer, newest first, and nobody
    left out is newer than somebody shown.  The request changes
    nothing. *)
Theorem dashboard_shows_counts_and_newest :
  forall (w : World),
    authenticated w ->
    exists ctx,
      dashboard w = (Ok (Render "dashboard.html" ctx), w)
      /\ total_users ctx = List.length (users (db w))
      /\ total_books ctx = List.length (books (db w))
      /\ total_authors ctx = List.length (authors (db w))
      /\ total_categories ctx = List.length (categories (db w))
      /\ List.length (recent_users ctx) = Nat.min 5 (total_users ctx)
      /\ List.length (recent_books ctx) = Nat.min 5 (total_books ctx)
      /\ incl (recent_users ctx) (users (db w))
      /\ incl (recent_books ctx) (books (db w))
      /\ newest_first date_joined (recent_users ctx)
      /\ newest_first created_at (recent_books ctx)
      /\ (forall u v, In u (recent_users ctx) -> In v (users (db w)) ->
            ~ In v (recent_users ctx) ->
            (date_joined v <= date_joined u)%Z)
      /\ (forall b c, In b (recent_books ctx) -> In c (books (db w)) ->
            ~ In c (recent_books ctx) ->
            (created_at c <= created_at b)%Z).
Proof.
  intros w Hu. eexists. split.
  - unfold dashboard. rewrite ListViewFacts.login_required_authenticated by exact Hu.
    reflexivity.
  - cbn [total_users total_books total_authors total_categories recent_users recent_books].
    repeat (split; [reflexivity|]).
    split; [rewrite length_firstn, (Permutation_length (QueryFacts.order_by_desc_perm _ _));
            reflexivity|].
    split; [rewrite length_firstn, (Permutation_length (QueryFacts.order_by_desc_perm _ _));
            reflexivity|].
    split; [intros u H; now apply QueryFacts.In_firstn, QueryFacts.order_by_desc_In in H|].
    split; [intros b H; now apply QueryFacts.In_firstn, QueryFacts.order_by_desc_In in H|].
    split; [apply OrderFacts.newest_first_prefix, OrderFacts.order_by_desc_sorted|].
    split; [apply OrderFacts.newest_first_prefix, OrderFacts.order_by_desc_sorted|].
    split.
    + intros u v Hin Hv Hout.
      apply (OrderFacts.newest_first_firstn date_joined 5
               (order_by_desc date_joined (users (db w)))
               (OrderFacts.order_by_desc_sorted _ _) u v Hin).
      apply (QueryFacts.order_by_desc_In date_joined) in Hv.
      rewrite <- (firstn_skipn 5 (order_by_desc date_joined (users (db w)))) in Hv.
      apply in_app_or in Hv. destruct Hv as [Hv|Hv]; [contradiction|exact Hv].
    + intros b c Hin Hc Hout.
      apply (OrderFacts.newest_first_firstn created_at 5
               (order_by_desc created_at (books (db w)))
               (OrderFacts.order_by_desc_sorted _ _) b c Hin).
      apply (QueryFacts.order_by_desc_In created_at) in Hc.
      rewrite <- (firstn_skipn 5 (order_by_desc created_at (books (db w)))) in Hc.
      apply in_app_or in Hc. destruct Hc as [Hc|Hc]; [contradiction|exact Hc].
Qed.

Lemma dashboard_shows_counts_and_newest_witness :
  exists ctx,
    dashboard library_world = (Ok (Render "dashboard.html" ctx), library_world)
    /\ total_books ctx = 2%nat /\ recent_books ctx = [emma; dune].
Proof.
  destruct (dashboard_shows_counts_and_newest library_world library_world_authenticated)
    as (ctx & Hrun & _).
  exists ctx. split; [exact Hrun|].
  vm_compute in Hrun. injection Hrun as <-. split; reflexivity.
Defined.

(** X21. The query that a search page shows back is the query it searched
    with: the [q] parameter without its leading and trailing white space.
    Submitting the shown query again gives the same page, for the user
    search, the book search and the global search. *)
Theorem shown_query_searches_the_same :
  forall (q f : option string) (n : page_arg) (w : World),
    user_search (Some (get_query q)) f n w = user_search q f n w
    /\ book_search (Some (get_query q)) f n w = book_search q f n w
    /\ search (Some (get_query q)) f w = search q f w
    /\ (forall t page w', user_search q f n w = (Ok (Render t page), w') ->
          sp_search_query page = get_query q)
    /\ (forall t page w', book_search q f n w = (Ok (Render t page), w') ->
          sp_search_query page = get_query q)
    /\ (forall t ctx w', search q f w = (Ok (Render t ctx), w') ->
          sc_query ctx = get_query q)
    /\ stripped (sent q) (get_query q).
Proof.
  intros q f n w.
  assert (Hq : get_query (Some (get_query q)) = get_query q)
    by (unfold get_query; apply StripFacts.strip_idempotent).
  split; [unfold user_search; now rewrite Hq|].
  split; [unfold book_search; now rewrite Hq|].
  split; [unfold search; now rewrite Hq|].
  split; [|split; [|split]].
  - intros t page w' H. unfold user_search in H.
    destruct (request_user w) as [u|] eqn:Eu.
    + rewrite (ListViewFacts.paginate_eq
                 (fun s => user_search_qs s (get_query q) (get_or_all f))
                 (fun p => Render "user.html" (mkSearchPage p (get_query q))) n w) in H
        by (unfold authenticated; congruence).
      destruct (get_page _ n); inversion H. reflexivity.
    + rewrite (ListViewFacts.login_required_anonymous _ w Eu) in H. discriminate H.
  - intros t page w' H. unfold book_search in H.
    destruct (request_user w) as [u|] eqn:Eu.
    + rewrite (ListViewFacts.paginate_eq
                 (fun s => book_search_qs s (get_query q) (get_or_all f))
                 (fun p => Render "book.html" (mkSearchPage p (get_query q))) n w) in H
        by (unfold authenticated; congruence).
      destruct (get_page _ n); inversion H. reflexivity.
    + rewrite (ListViewFacts.login_required_anonymous _ w Eu) in H. discriminate H.
  - intros t ctx w' H. unfold search in H.
    destruct (request_user w) as [u|] eqn:Eu.
    + rewrite ListViewFacts.login_required_authenticated in H
        by (unfold authenticated; congruence).
      unfold bind, get_db, ret in H. inversion H.
      unfold search_context. destruct (PyStr.truthy (get_query q)); reflexivity.
    + rewrite (ListViewFacts.login_required_anonymous _ w Eu) in H. discriminate H.
  - apply StripFacts.get_query_stripped.
Qed.

Lemma shown_query_searches_the_same_witness :
  sp_search_query (mkSearchPage (mkPage [ann] 1) "ann")
  = get_query (Some (em_space ++ "ann" ++ em_space)).
Proof.
  destruct (shown_query_searches_the_same (Some (em_space ++ "ann" ++ em_space)) None
              NotAnInt ann_world)
    as (_ & _ & _ & H & _).
  apply (H "user.html" _ ann_world). reflexivity.
Defined.

(** X22. The category list and the author list show their whole table in
    ascending order of name: a rearrangement of the table in which every
    name is at most the next one; without a page parameter the handlers
    show the first ten rows as page 1 and change nothing. *)
Theorem name_lists_are_ascending :
  forall (w : World),
    authenticated w ->
    let cs := order_by_asc category_name (categories (db w)) in
    let aus := order_by_asc author_name (authors (db w)) in
    Permutation (categories (db w)) cs
    /\ ascending category_name cs
    /\ category_list NotAnInt w
       = (Ok (Render "category.html" (mkPage (firstn 10 cs) 1)), w)
    /\ Permutation (authors (db w)) aus
    /\ ascending author_name aus
    /\ author_list NotAnInt w
       = (Ok (Render "author.html" (mkPage (firstn 10 aus) 1)), w).
Proof.
  intros w Hu cs aus.
  split; [apply SortFacts.order_by_asc_perm|].
  split; [apply SortFacts.order_by_asc_sorted|].
  split.
  - unfold category_list.
    rewrite (ListViewFacts.paginate_eq
               (fun s => order_by_asc category_name (categories s))
               (fun p => Render "category.html" p) NotAnInt w Hu).
    fold cs. unfold get_page. cbn [validate_number].
    rewrite PaginatorFacts.page_items by (pose proof (PaginatorFacts.num_pages_pos cs); lia).
    reflexivity.
  - split; [apply SortFacts.order_by_asc_perm|].
    split; [apply SortFacts.order_by_asc_sorted|].
    unfold author_list.
    rewrite (ListViewFacts.paginate_eq
               (fun s => order_by_asc author_name (authors s))
               (fun p => Render "author.html" p) NotAnInt w Hu).
    fold aus. unfold get_page. cbn [validate_number].
    rewrite PaginatorFacts.page_items by (pose proof (PaginatorFacts.num_pages_pos aus); lia).
    reflexivity.
Qed.

Lemma name_lists_are_ascending_witness :
  author_list NotAnInt library_world
  = (Ok (Render "author.html"
           (mkPage [mkAuthor 2 "Austen" ""; mkAuthor 1 "Herbert" ""] 1)), library_world).
Proof.
  destruct (name_lists_are_ascending library_world library_world_authenticated)
    as (_ & _ & _ & _ & _ & H).
  exact H.
Defined.

(** X23. Search results keep the order of the listings: whatever the
    query and the filter, the users found come newest first by their join
    date and the books found newest first by their creation date, and
    every record found is a row of its table. *)
Theorem search_results_are_newest_first :
  forall (s : Store) (q f : string),
    newest_first date_joined (user_search_qs s q f)
    /\ newest_first created_at (book_search_qs s q f)
    /\ incl (user_search_qs s q f) (users s)
    /\ incl (book_search_qs s q f) (books s).
Proof.
  intros s q f.
  pose proof (OrderFacts.order_by_desc_sorted date_joined (users s)) as Hus.
  pose proof (OrderFacts.order_by_desc_sorted created_at (books s)) as Hbs.
  assert (Hurows : forall keep,
            newest_first date_joined
              (map fst (filter keep (user_rows s (order_by_desc date_joined (users s)))))).
  { intros keep. apply SortFacts.newest_first_rows; [|exact Hus].
    intros x r. apply SortFacts.join_profile_user. }
  assert (Hbrows : forall keep,
            newest_first created_at
              (map book_of (filter keep (book_rows s (order_by_desc created_at (books s)))))).
  { intros keep. apply SortFacts.newest_first_rows; [|exact Hbs].
    intros x r. apply SortFacts.join_book_book. }
  assert (Huin : forall keep u,
            In u (map fst (filter keep (user_rows s (order_by_desc date_joined (users s)))))
            -> In u (users s)).
  { intros keep u H. apply in_map_iff in H. destruct H as ([v o] & <- & H).
    apply filter_In in H. destruct H as [H _]. apply QueryFacts.in_user_rows in H.
    destruct H as [H _]. now apply QueryFacts.order_by_desc_In in H. }
  assert (Hbin : forall keep b,
            In b (map book_of (filter keep (book_rows s (order_by_desc created_at (books s)))))
            -> In b (books s)).
  { intros keep b H. apply FilterFacts.book_filter_In in H. destruct H as [H _].
    now apply QueryFacts.order_by_desc_In in H. }
  split; [|split; [|split]].
  - unfold user_search_qs. destruct (PyStr.truthy q); [|exact Hus].
    destruct (String.eqb f "username"); [now apply SortFacts.newest_first_filter|].
    destruct (String.eqb f "email"); [now apply SortFacts.newest_first_filter|].
    destruct (String.eqb f "address"); apply Hurows.
  - unfold book_search_qs, books_qs. destruct (PyStr.truthy q).
    + destruct (String.eqb f "title"); [apply Hbrows|].
      destruct (String.eqb f "author"); [apply Hbrows|].
      destruct (String.eqb f "category"); apply Hbrows.
    + rewrite <- (filter_true (book_rows s (order_by_desc created_at (books s)))).
      apply Hbrows.
  - intros u. unfold user_search_qs.
    destruct (PyStr.truthy q); [|apply QueryFacts.order_by_desc_In].
    destruct (String.eqb f "username");
      [intros H; apply filter_In in H; destruct H as [H _];
       now apply QueryFacts.order_by_desc_In in H|].
    destruct (String.eqb f "email");
      [intros H; apply filter_In in H; destruct H as [H _];
       now apply QueryFacts.order_by_desc_In in H|].
    destruct (String.eqb f "address"); apply Huin.
  - intros b. unfold book_search_qs, books_qs. destruct (PyStr.truthy q).
    + destruct (String.eqb f "title"); [apply Hbin|].
      destruct (String.eqb f "author"); [apply Hbin|].
      destruct (String.eqb f "category"); apply Hbin.
    + rewrite <- (filter_true (book_rows s (order_by_desc created_at (books s)))).
      apply Hbin.
Qed.

(** ** Signed-in visitors *)

(** X24. A signed-in visitor is sent home by the root URL, by the login
    page and by the registration page, whatever the request carries: no
    credential is checked, no account is created, nothing changes.  The
    root URL sends everybody else to the login page. *)
Theorem signed_in_visitors_are_sent_home :
  forall (env : Env) (authenticate : Store -> string -> string -> option User)
         (method : Method) (name_ pass_ : option string) (data : UserData) (w : World),
    (authenticated w ->
       index w = (Ok (Redirect "home"), w)
       /\ login_view env authenticate method name_ pass_ w = (Ok (Redirect "home"), w)
       /\ register env method data w = (Ok (Redirect "home"), w))
    /\ (request_user w = None -> index w = (Ok (Redirect "login"), w)).
Proof.
  intros env authenticate method name_ pass_ data w. split.
  - intros Hu. unfold authenticated in Hu.
    rewrite SiteFacts.login_view_eq, CreationFacts.register_eq.
    unfold index, bind, current_user.
    destruct (request_user w); [|contradiction]. repeat split.
  - intros Hanon. unfold index, bind, current_user. now rewrite Hanon.
Qed.

Lemma signed_in_visitors_are_sent_home_witness :
  register quiet_env POST cara_submission ann_world = (Ok (Redirect "home"), ann_world).
Proof.
  destruct (signed_in_visitors_are_sent_home quiet_env sample_authenticate POST
              None None cara_submission ann_world) as [H _].
  destruct (H ann_world_authenticated) as (_ & _ & Hreg). exact Hreg.
Defined.

End Extras.
